(** * Cassandra persistence adapter (common/persistence/cassandra/cassandraPersistence.go)

    A shallow embedding of the conditional-write protocol of the adapter:
    shard leases, the execution-mutating batches and the routine that
    works out why a conditional batch was rejected, and the task-list
    lease.  Store calls are nodes of a small interaction tree ([prog]);
    [exec] relates a program to the store interactions of one run and to
    its result, for every answer the store can give. *)

From stdpp Require Import gmap strings list.
From Stdlib Require Import ZArith Lia.

#[local] Set Warnings "-register-all".
Local Open Scope Z_scope.

(** ** Reserved identifiers and row tags (the [const] blocks of the file) *)

Definition emptyDomainID : string := "10000000-0000-f000-f000-000000000000".
Definition emptyRunID : string := "30000000-0000-f000-f000-000000000000".
Definition permanentRunID : string := "30000000-0000-f000-f000-000000000001".
Definition rowTypeShardDomainID : string := "10000000-1000-f000-f000-000000000000".
Definition rowTypeShardWorkflowID : string := "20000000-1000-f000-f000-000000000000".
Definition rowTypeShardRunID : string := "30000000-1000-f000-f000-000000000000".
Definition rowTypeExecutionTaskID : Z := -10.
Definition rowTypeShardTaskID : Z := -11.
Definition emptyInitiatedID : Z := -7.

(* Row types for table executions *)
Definition rowTypeShard : Z := 0.
Definition rowTypeExecution : Z := 1.
Definition rowTypeTransferTask : Z := 2.
Definition rowTypeTimerTask : Z := 3.
Definition rowTypeReplicationTask : Z := 4.

(* Row types for table tasks *)
Definition rowTypeTask : Z := 0.
Definition rowTypeTaskList : Z := 1.

Definition taskListTaskID : Z := -12345.
Definition initialRangeID : Z := 1.

(** [int64] arithmetic: the sum wraps around at 64 bits. *)
Definition wrap64 (n : Z) : Z := (n + 2 ^ 63) mod 2 ^ 64 - 2 ^ 63.
Definition add64 (a b : Z) : Z := wrap64 (a + b).
Definition maxInt64 : Z := 2 ^ 63 - 1.

(** ** Dynamic values

    What gocql hands back in a [map[string]interface{}] and what is bound
    to the [?] of a statement.  [VInt] is Go's [int], [VInt64] is [int64],
    [VUUID] is [gocql.UUID] (carried by its [String()]), [VMap] is a
    user-defined-type column, [VTime] a [time.Time]. *)

Inductive value : Type :=
| VNil
| VBool (b : bool)
| VInt (n : Z)
| VInt32 (n : Z)
| VInt64 (n : Z)
| VString (s : string)
| VUUID (s : string)
| VBytes (bs : list Z)
| VTime (t : Z)
| VMap (m : gmap string value).

Abbreviation row := (gmap string value).

(** Type assertions [x.(T)] in their comma-ok form. *)
Definition asInt (o : option value) : option Z :=
  match o with Some (VInt n) => Some n | _ => None end.
Definition asInt64 (o : option value) : option Z :=
  match o with Some (VInt64 n) => Some n | _ => None end.
Definition asUUID (o : option value) : option string :=
  match o with Some (VUUID s) => Some s | _ => None end.
Definition asMap (o : option value) : option (gmap string value) :=
  match o with Some (VMap m) => Some m | _ => None end.

(** A call either returns or panics (a failed single-value type assertion,
    a nil dereference, an explicit [panic]). *)
Inductive outcome (A : Type) : Type :=
| Returns (a : A)
| Panics (reason : string).
Arguments Returns {A} a.
Arguments Panics {A} reason.

Definition obind {A B} (o : outcome A) (f : A → outcome B) : outcome B :=
  match o with Returns a => f a | Panics r => Panics r end.

Notation "x ←! o ; k" := (obind o (fun x => k))
  (at level 20, o at level 100, k at level 200, right associativity, only parsing).

Definition mustUUID (o : option value) : outcome string :=
  match asUUID o with Some s => Returns s | None => Panics "interface conversion: not gocql.UUID" end.
Definition mustMap (o : option value) : outcome (gmap string value) :=
  match asMap o with Some m => Returns m | None => Panics "interface conversion: not map[string]interface {}" end.
Definition mustInt (o : option value) : outcome Z :=
  match asInt o with Some n => Returns n | None => Panics "interface conversion: not int" end.
Definition mustInt64 (o : option value) : outcome Z :=
  match asInt64 o with Some n => Returns n | None => Panics "interface conversion: not int64" end.
Definition deref (o : option string) : outcome string :=
  match o with Some s => Returns s | None => Panics "nil pointer dereference" end.

(** ** Errors of the backing store

    [isTimeoutError] and [isThrottlingError] are defined elsewhere in the
    package; an error of the driver carries the verdict of each, and of
    the comparison [err == gocql.ErrNotFound], next to its text. *)

Record gocqlError : Type := GocqlError {
  errText : string;
  errIsNotFound : bool;
  errIsTimeout : bool;
  errIsThrottling : bool
}.

Definition isNotFound (err : gocqlError) : bool := errIsNotFound err.
Definition isTimeoutError (err : gocqlError) : bool := errIsTimeout err.
Definition isThrottlingError (err : gocqlError) : bool := errIsThrottling err.

(** ** Errors returned by the adapter

    A message is the [fmt.Sprintf] call that builds it: the format and the
    arguments, in order.  [FColumns rows] stands for the
    [strings.Join(columns, ",")] built from the [key=value] pairs of the
    given rows. *)

Inductive fmtArg : Type :=
| FInt (n : Z)
| FString (s : string)
| FValue (v : option value)
| FError (err : gocqlError)
| FColumns (rows : list (gmap string value)).

Record message : Type := Sprintf { format : string; fargs : list fmtArg }.

Inductive error : Type :=
| ServiceBusyError (Message : message)
| InternalServiceError (Message : message)
| EntityNotExistsError (Message : message)
| TimeoutError (Msg : message)
| ShardOwnershipLostError (ShardID : Z) (Msg : message)
| ShardAlreadyExistError (Msg : message)
| ConditionFailedError (Msg : message)
| CurrentWorkflowConditionFailedError (Msg : message)
| WorkflowExecutionAlreadyStartedError (Msg : message)
    (StartRequestID RunID : string) (State CloseStatus LastWriteVersion : Z).

(** The kind of an error, for statements that do not look at the text. *)
Inductive errorKind : Type :=
| KServiceBusy | KInternalService | KEntityNotExists | KTimeout
| KShardOwnershipLost | KShardAlreadyExist | KConditionFailed
| KCurrentWorkflowConditionFailed | KWorkflowExecutionAlreadyStarted.

Definition kindOf (e : error) : errorKind :=
  match e with
  | ServiceBusyError _ => KServiceBusy
  | InternalServiceError _ => KInternalService
  | EntityNotExistsError _ => KEntityNotExists
  | TimeoutError _ => KTimeout
  | ShardOwnershipLostError _ _ => KShardOwnershipLost
  | ShardAlreadyExistError _ => KShardAlreadyExist
  | ConditionFailedError _ => KConditionFailed
  | CurrentWorkflowConditionFailedError _ => KCurrentWorkflowConditionFailed
  | WorkflowExecutionAlreadyStartedError _ _ _ _ _ _ => KWorkflowExecutionAlreadyStarted
  end.

Definition messageOf (e : error) : message :=
  match e with
  | ServiceBusyError m | InternalServiceError m | EntityNotExistsError m
  | TimeoutError m | ShardOwnershipLostError _ m | ShardAlreadyExistError m
  | ConditionFailedError m | CurrentWorkflowConditionFailedError m
  | WorkflowExecutionAlreadyStartedError m _ _ _ _ _ => m
  end.

#[global] Instance errorKind_eq_dec : EqDecision errorKind.
Proof. solve_decision. Defined.

(** A Go result [(T, error)]. *)
Inductive result (A : Type) : Type :=
| Ok (a : A)
| Err (e : error).
Arguments Ok {A} a.
Arguments Err {A} e.

(** ** Statements, batches and the answers of the session *)

Record query : Type := Query { stmt : string; args : list value }.

(** A [gocql.Batch]: its entries, in the order [batch.Query] added them. *)
Abbreviation batch := (list query).

Definition batchQuery (b : batch) (s : string) (a : list value) : batch :=
  b ++ [Query s a].

(** [query.MapScanCAS(previous)]. *)
Inductive casResult : Type :=
| CASError (err : gocqlError)
| CASApplied
| CASNotApplied (previous : gmap string value).

(** [session.MapExecuteBatchCAS(batch, previous)]: on rejection the first
    returned row is in [previous], the others are read from the iterator. *)
Inductive batchCASResult : Type :=
| BatchError (err : gocqlError)
| BatchApplied
| BatchNotApplied (previous : gmap string value) (iter : list (gmap string value)).

(** [query.Scan(&rangeID, &tlDB)] of the task-list read. *)
Inductive scanResult : Type :=
| ScanError (err : gocqlError)
| ScanRow (rangeID : Z) (tlDB : gmap string value).

(** [query.Iter()]: the rows it yields and the error of [Close]. *)
Record iterator : Type := Iterator {
  iterRows : list (gmap string value);
  iterCloseErr : option gocqlError
}.

(** ** Programs over the session *)

Inductive prog (A : Type) : Type :=
| Ret (a : A)
| AssertNotCurrentExecution (domainID workflowID runID : string) (k : option error → prog A)
| QueryMapScanCAS (q : query) (k : casResult → prog A)
| QueryScan (q : query) (k : scanResult → prog A)
| QueryExec (q : query) (k : option gocqlError → prog A)
| QueryIter (q : query) (pageSize : Z) (k : option iterator → prog A)
| MapExecuteBatchCAS (b : list query) (k : batchCASResult → prog A).
Arguments Ret {A} a.
Arguments AssertNotCurrentExecution {A} domainID workflowID runID k.
Arguments QueryMapScanCAS {A} q k.
Arguments QueryScan {A} q k.
Arguments QueryExec {A} q k.
Arguments QueryIter {A} q pageSize k.
Arguments MapExecuteBatchCAS {A} b k.

(** One interaction with the store: the call and its answer. *)
Inductive event : Type :=
| EvAssertNotCurrent (domainID workflowID runID : string) (r : option error)
| EvMapScanCAS (q : query) (r : casResult)
| EvScan (q : query) (r : scanResult)
| EvExec (q : query) (r : option gocqlError)
| EvIter (q : query) (pageSize : Z) (r : option iterator)
| EvBatchCAS (b : list query) (r : batchCASResult).

(** [exec p t a]: some run of [p] makes the interactions [t], in this
    order, and returns [a]. *)
Inductive exec {A : Type} : prog A → list event → A → Prop :=
| exec_Ret a : exec (Ret a) [] a
| exec_Assert d w r k o t a :
    exec (k o) t a → exec (AssertNotCurrentExecution d w r k) (EvAssertNotCurrent d w r o :: t) a
| exec_MapScanCAS q k o t a :
    exec (k o) t a → exec (QueryMapScanCAS q k) (EvMapScanCAS q o :: t) a
| exec_Scan q k o t a :
    exec (k o) t a → exec (QueryScan q k) (EvScan q o :: t) a
| exec_Exec q k o t a :
    exec (k o) t a → exec (QueryExec q k) (EvExec q o :: t) a
| exec_Iter q n k o t a :
    exec (k o) t a → exec (QueryIter q n k) (EvIter q n o :: t) a
| exec_Batch b k o t a :
    exec (k o) t a → exec (MapExecuteBatchCAS b k) (EvBatchCAS b o :: t) a.

(** A write is any interaction but the two reads. *)
Definition isWrite (e : event) : bool :=
  match e with
  | EvMapScanCAS _ _ | EvExec _ _ | EvBatchCAS _ _ => true
  | EvAssertNotCurrent _ _ _ _ | EvScan _ _ | EvIter _ _ _ => false
  end.

(** ** Statement templates (the [template...] constants) *)

Definition templateShardType : string :=
  "{shard_id: ?, owner: ?, range_id: ?, stolen_since_renew: ?, updated_at: ?, "
  +:+ "replication_ack_level: ?, transfer_ack_level: ?, timer_ack_level: ?, "
  +:+ "cluster_transfer_ack_level: ?, cluster_timer_ack_level: ?, "
  +:+ "domain_notification_version: ? }".

Definition templateWorkflowExecutionType : string :=
  "{domain_id: ?, workflow_id: ?, run_id: ?, parent_domain_id: ?, parent_workflow_id: "
  +:+ "?, parent_run_id: ?, initiated_id: ?, completion_event_batch_id: ?, "
  +:+ "completion_event: ?, completion_event_data_encoding: ?, task_list: ?, "
  +:+ "workflow_type_name: ?, workflow_timeout: ?, decision_task_timeout: ?, "
  +:+ "execution_context: ?, state: ?, close_status: ?, last_first_event_id: ?, "
  +:+ "last_event_task_id: ?, next_event_id: ?, last_processed_event: ?, start_time: ?, "
  +:+ "last_updated_time: ?, create_request_id: ?, signal_count: ?, history_size: ?, "
  +:+ "decision_version: ?, decision_schedule_id: ?, decision_started_id: ?, "
  +:+ "decision_request_id: ?, decision_timeout: ?, decision_attempt: ?, "
  +:+ "decision_timestamp: ?, decision_scheduled_timestamp: ?, cancel_requested: ?, "
  +:+ "cancel_request_id: ?, sticky_task_list: ?, sticky_schedule_to_start_timeout: "
  +:+ "?,client_library_version: ?, client_feature_version: ?, client_impl: ?, "
  +:+ "auto_reset_points: ?, auto_reset_points_encoding: ?, attempt: ?, has_retry_policy: "
  +:+ "?, init_interval: ?, backoff_coefficient: ?, max_interval: ?, expiration_time: ?, "
  +:+ "max_attempts: ?, non_retriable_errors: ?, event_store_version: ?, branch_token: ?, "
  +:+ "cron_schedule: ?, expiration_seconds: ?, search_attributes: ? }".

Definition templateReplicationStateType : string :=
  "{current_version: ?, start_version: ?, last_write_version: ?, last_write_event_id: "
  +:+ "?, last_replication_info: ?}".

Definition templateTaskListType : string :=
  "{domain_id: ?, name: ?, type: ?, ack_level: ?, kind: ?, last_updated: ? }".

Definition templateCreateShardQuery : string :=
  "INSERT INTO executions (shard_id, type, domain_id, workflow_id, run_id, "
  +:+ "visibility_ts, task_id, shard, range_id)VALUES(?, ?, ?, ?, ?, ?, ?, "
  +:+ templateShardType
  +:+ ", ?) IF NOT EXISTS".

Definition templateUpdateShardQuery : string :=
  "UPDATE executions SET shard = "
  +:+ templateShardType
  +:+ ", range_id = ? WHERE shard_id = ? and type = ? and domain_id = ? and workflow_id = "
  +:+ "? and run_id = ? and visibility_ts = ? and task_id = ? IF range_id = ?".

Definition templateUpdateCurrentWorkflowExecutionQuery : string :=
  "UPDATE executions USING TTL 0 SET current_run_id = ?,
execution = {run_id: ?, "
  +:+ "create_request_id: ?, state: ?, close_status: ?},
replication_state = "
  +:+ "{start_version: ?, last_write_version: ?},
workflow_last_write_version = "
  +:+ "?,
workflow_state = ? WHERE shard_id = ? and type = ? and domain_id = ? and "
  +:+ "workflow_id = ? and run_id = ? and visibility_ts = ? and task_id = ? IF "
  +:+ "current_run_id = ? ".

Definition templateUpdateCurrentWorkflowExecutionForNewQuery : string :=
  templateUpdateCurrentWorkflowExecutionQuery
  +:+ "and workflow_last_write_version = ? and workflow_state = ? ".

Definition templateCreateCurrentWorkflowExecutionQuery : string :=
  "INSERT INTO executions (shard_id, type, domain_id, workflow_id, run_id, "
  +:+ "visibility_ts, task_id, current_run_id, execution, replication_state, "
  +:+ "workflow_last_write_version, workflow_state) VALUES(?, ?, ?, ?, ?, ?, ?, ?, "
  +:+ "{run_id: ?, create_request_id: ?, state: ?, close_status: ?}, {start_version: ?, "
  +:+ "last_write_version: ?}, ?, ?) IF NOT EXISTS USING TTL 0 ".

Definition templateCreateWorkflowExecutionQuery : string :=
  "INSERT INTO executions (shard_id, domain_id, workflow_id, run_id, type, execution, "
  +:+ "next_event_id, visibility_ts, task_id) VALUES(?, ?, ?, ?, ?, "
  +:+ templateWorkflowExecutionType
  +:+ ", ?, ?, ?) ".

Definition templateCreateWorkflowExecutionWithReplicationQuery : string :=
  "INSERT INTO executions (shard_id, domain_id, workflow_id, run_id, type, execution, "
  +:+ "replication_state, next_event_id, visibility_ts, task_id) VALUES(?, ?, ?, ?, ?, "
  +:+ templateWorkflowExecutionType
  +:+ ", "
  +:+ templateReplicationStateType
  +:+ ", ?, ?, ?) ".

Definition templateCreateWorkflowExecutionWithVersionHistoriesQuery : string :=
  "INSERT INTO executions (shard_id, domain_id, workflow_id, run_id, type, execution, "
  +:+ "next_event_id, visibility_ts, task_id, version_histories, "
  +:+ "version_histories_encoding) VALUES(?, ?, ?, ?, ?, "
  +:+ templateWorkflowExecutionType
  +:+ ", ?, ?, ?, ?, ?) ".

Definition templateUpdateLeaseQuery : string :=
  "UPDATE executions SET range_id = ? WHERE shard_id = ? and type = ? and domain_id = "
  +:+ "? and workflow_id = ? and run_id = ? and visibility_ts = ? and task_id = ? IF "
  +:+ "range_id = ?".

Definition templateCheckWorkflowExecutionQuery : string :=
  "UPDATE executions SET next_event_id = ? WHERE shard_id = ? and type = ? and "
  +:+ "domain_id = ? and workflow_id = ? and run_id = ? and visibility_ts = ? and task_id "
  +:+ "= ? IF next_event_id = ?".

Definition templateUpdateWorkflowExecutionConditionSuffix : string :=
  " IF next_event_id = ?".

Definition templateUpdateWorkflowExecutionQuery : string :=
  "UPDATE executions SET execution = "
  +:+ templateWorkflowExecutionType
  +:+ ", next_event_id = ? WHERE shard_id = ? and type = ? and domain_id = ? and "
  +:+ "workflow_id = ? and run_id = ? and visibility_ts = ? and task_id = ? ".

Definition templateUpdateWorkflowExecutionWithReplicationQuery : string :=
  "UPDATE executions SET execution = "
  +:+ templateWorkflowExecutionType
  +:+ ", replication_state = "
  +:+ templateReplicationStateType
  +:+ ", next_event_id = ? WHERE shard_id = ? and type = ? and domain_id = ? and "
  +:+ "workflow_id = ? and run_id = ? and visibility_ts = ? and task_id = ? ".

Definition templateUpdateWorkflowExecutionWithVersionHistoriesQuery : string :=
  "UPDATE executions SET execution = "
  +:+ templateWorkflowExecutionType
  +:+ ", next_event_id = ? , version_histories = ? , version_histories_encoding = ? WHERE "
  +:+ "shard_id = ? and type = ? and domain_id = ? and workflow_id = ? and run_id = ? and "
  +:+ "visibility_ts = ? and task_id = ? ".

Definition templateGetTasksQuery : string :=
  "SELECT task_id, task FROM tasks WHERE domain_id = ? and task_list_name = ? and "
  +:+ "task_list_type = ? and type = ? and task_id > ? and task_id <= ?".

Definition templateCompleteTasksLessThanQuery : string :=
  "DELETE FROM tasks WHERE domain_id = ? AND task_list_name = ? AND task_list_type = ? "
  +:+ "AND type = ? AND task_id <= ? ".

Definition templateGetTaskList : string :=
  "SELECT range_id, task_list FROM tasks WHERE domain_id = ? and task_list_name = ? "
  +:+ "and task_list_type = ? and type = ? and task_id = ?".

Definition templateInsertTaskListQuery : string :=
  "INSERT INTO tasks (domain_id, task_list_name, task_list_type, type, task_id, "
  +:+ "range_id, task_list ) VALUES (?, ?, ?, ?, ?, ?, "
  +:+ templateTaskListType
  +:+ ") IF NOT EXISTS".

Definition templateUpdateTaskListQuery : string :=
  "UPDATE tasks SET range_id = ?, task_list = "
  +:+ templateTaskListType
  +:+ " WHERE domain_id = ? and task_list_name = ? and task_list_type = ? and type = ? and "
  +:+ "task_id = ? IF range_id = ?".


(** ** Requests and their parts (package persistence)

    Identifiers, versions, states and the fencing values have their Go
    types; the other columns, which this file only binds to a [?], are
    carried as dynamic values, and so are the task and info structs that
    are handed to helpers defined outside this file. *)

Record WorkflowExecution : Type := {
  WorkflowId : option string;
  RunId : option string
}.
Definition GetWorkflowId (e : WorkflowExecution) : string := default "" (WorkflowId e).
Definition GetRunId (e : WorkflowExecution) : string := default "" (RunId e).

Record DataBlob : Type := { Encoding : value; Data : value }.
(* GetEncoding is nil-safe, the field access [.Data] is not. *)
Definition GetEncoding (b : option DataBlob) : value :=
  match b with Some blob => Encoding blob | None => VString "" end.
Definition derefData (b : option DataBlob) : outcome value :=
  match b with Some blob => Returns (Data blob) | None => Panics "nil pointer dereference" end.

Module RS.
Record ReplicationState : Type := {
    CurrentVersion : Z;
    StartVersion : Z;
    LastWriteVersion : Z;
    LastWriteEventID : Z;
    LastReplicationInfo : gmap string value
  }.
End RS.

Module ShardInfo.
Record t : Type := {
    ShardID : Z;
    Owner : string;
    RangeID : Z;
    StolenSinceRenew : value;
    ReplicationAckLevel : value;
    TransferAckLevel : value;
    TimerAckLevel : value;
    ClusterTransferAckLevel : value;
    ClusterTimerAckLevel : value;
    DomainNotificationVersion : value
  }.
End ShardInfo.

Record CreateShardRequest : Type := { csShardInfo : ShardInfo.t }.
Record UpdateShardRequest : Type := { usShardInfo : ShardInfo.t; PreviousRangeID : Z }.

Module CreateReq.
Record t : Type := {
    RequestID : string;
    DomainID : string;
    Execution : WorkflowExecution;
    ParentDomainID : string;
    ParentExecution : WorkflowExecution;
    InitiatedID : Z;
    TaskList : value;
    WorkflowTypeName : value;
    WorkflowTimeout : value;
    DecisionTimeoutValue : value;
    ExecutionContext : value;
    LastEventTaskID : value;
    NextEventID : Z;
    LastProcessedEvent : value;
    SignalCount : value;
    HistorySize : value;
    TransferTasks : list value;
    ReplicationTasks : list value;
    TimerTasks : list value;
    RangeID : Z;
    DecisionVersion : value;
    DecisionScheduleID : value;
    DecisionStartedID : value;
    DecisionStartToCloseTimeout : value;
    State : Z;
    CloseStatus : Z;
    CreateWorkflowMode : Z;
    PreviousRunID : string;
    PreviousLastWriteVersion : Z;
    ReplicationState : option RS.ReplicationState;
    VersionHistories : option DataBlob;
    Attempt : value;
    HasRetryPolicy : value;
    InitialInterval : value;
    BackoffCoefficient : value;
    MaximumInterval : value;
    ExpirationTime : value;
    MaximumAttempts : value;
    NonRetriableErrors : value;
    PreviousAutoResetPoints : option DataBlob;
    EventStoreVersion : value;
    BranchToken : value;
    CronSchedule : value;
    ExpirationSeconds : value;
    SearchAttributes : value
  }.

  (** The assignment [request.CreateWorkflowMode = m]. *)
Definition setCreateWorkflowMode (r : t) (m : Z) : t :=
    {| RequestID := RequestID r; DomainID := DomainID r; Execution := Execution r;
       ParentDomainID := ParentDomainID r; ParentExecution := ParentExecution r;
       InitiatedID := InitiatedID r; TaskList := TaskList r;
       WorkflowTypeName := WorkflowTypeName r; WorkflowTimeout := WorkflowTimeout r;
       DecisionTimeoutValue := DecisionTimeoutValue r; ExecutionContext := ExecutionContext r;
       LastEventTaskID := LastEventTaskID r; NextEventID := NextEventID r;
       LastProcessedEvent := LastProcessedEvent r; SignalCount := SignalCount r;
       HistorySize := HistorySize r; TransferTasks := TransferTasks r;
       ReplicationTasks := ReplicationTasks r; TimerTasks := TimerTasks r;
       RangeID := RangeID r; DecisionVersion := DecisionVersion r;
       DecisionScheduleID := DecisionScheduleID r; DecisionStartedID := DecisionStartedID r;
       DecisionStartToCloseTimeout := DecisionStartToCloseTimeout r;
       State := State r; CloseStatus := CloseStatus r;
       CreateWorkflowMode := m;
       PreviousRunID := PreviousRunID r;
       PreviousLastWriteVersion := PreviousLastWriteVersion r;
       ReplicationState := ReplicationState r; VersionHistories := VersionHistories r;
       Attempt := Attempt r; HasRetryPolicy := HasRetryPolicy r;
       InitialInterval := InitialInterval r; BackoffCoefficient := BackoffCoefficient r;
       MaximumInterval := MaximumInterval r; ExpirationTime := ExpirationTime r;
       MaximumAttempts := MaximumAttempts r; NonRetriableErrors := NonRetriableErrors r;
       PreviousAutoResetPoints := PreviousAutoResetPoints r;
       EventStoreVersion := EventStoreVersion r; BranchToken := BranchToken r;
       CronSchedule := CronSchedule r; ExpirationSeconds := ExpirationSeconds r;
       SearchAttributes := SearchAttributes r |}.
End CreateReq.

Module ExecInfo.
  (** [InternalWorkflowExecutionInfo] *)
Record t : Type := {
    DomainID : string;
    WorkflowID : string;
    RunID : string;
    ParentDomainID : string;
    ParentWorkflowID : string;
    ParentRunID : string;
    InitiatedID : value;
    CompletionEventBatchID : value;
    CompletionEvent : option DataBlob;
    TaskList : value;
    WorkflowTypeName : value;
    WorkflowTimeout : value;
    DecisionTimeoutValue : value;
    ExecutionContext : value;
    State : Z;
    CloseStatus : Z;
    LastFirstEventID : value;
    LastEventTaskID : value;
    NextEventID : Z;
    LastProcessedEvent : value;
    StartTimestamp : value;
    CreateRequestID : string;
    SignalCount : value;
    HistorySize : value;
    DecisionVersion : value;
    DecisionScheduleID : value;
    DecisionStartedID : value;
    DecisionRequestID : value;
    DecisionTimeout : value;
    DecisionAttempt : value;
    DecisionStartedTimestamp : value;
    DecisionScheduledTimestamp : value;
    CancelRequested : value;
    CancelRequestID : value;
    StickyTaskList : value;
    StickyScheduleToStartTimeout : value;
    ClientLibraryVersion : value;
    ClientFeatureVersion : value;
    ClientImpl : value;
    AutoResetPoints : option DataBlob;
    Attempt : value;
    HasRetryPolicy : value;
    InitialInterval : value;
    BackoffCoefficient : value;
    MaximumInterval : value;
    ExpirationTime : value;
    MaximumAttempts : value;
    NonRetriableErrors : value;
    EventStoreVersion : value;
    BranchToken : value;
    CronSchedule : value;
    ExpirationSeconds : value;
    SearchAttributes : value
  }.
End ExecInfo.

Module Mutation.
  (** [InternalWorkflowMutation]: the three fields read in this file; the
      upserts, deletions and tasks are consumed by
      [applyWorkflowMutationBatch] only. *)
Record t : Type := {
    ExecutionInfo : ExecInfo.t;
    ReplicationState : option RS.ReplicationState;
    Condition : Z;
    Rest : value
  }.
End Mutation.

Module Snapshot.
  (** [InternalWorkflowSnapshot] *)
Record t : Type := {
    ExecutionInfo : ExecInfo.t;
    ReplicationState : option RS.ReplicationState;
    VersionHistories : option DataBlob;
    Condition : Z;
    ActivityInfos : list value;
    TimerInfos : list value;
    ChildExecutionInfos : list value;
    RequestCancelInfos : list value;
    SignalInfos : list value;
    SignalRequestedIDs : list string;
    TransferTasks : list value;
    ReplicationTasks : list value;
    TimerTasks : list value
  }.
End Snapshot.

Module UpdateReq.
  (** [InternalUpdateWorkflowExecutionRequest] *)
Record t : Type := {
    RangeID : Z;
    UpdateWorkflowMutation : Mutation.t;
    ContinueAsNew : option CreateReq.t
  }.
End UpdateReq.

Module ResetReq.
  (** [InternalResetWorkflowExecutionRequest] *)
Record t : Type := {
    PrevRunVersion : Z;
    PrevRunState : Z;
    Condition : Z;
    RangeID : Z;
    BaseRunID : string;
    BaseRunNextEventID : Z;
    CurrExecutionInfo : ExecInfo.t;
    CurrReplicationState : option RS.ReplicationState;
    CurrVersionHistories : option DataBlob;
    CurrReplicationTasks : list value;
    CurrTransferTasks : list value;
    CurrTimerTasks : list value;
    UpdateCurr : bool;
    NewWorkflowSnapshot : Snapshot.t
  }.
End ResetReq.

Module ResetMSReq.
  (** [InternalResetMutableStateRequest] *)
Record t : Type := {
    PrevRunID : string;
    PrevLastWriteVersion : Z;
    PrevState : Z;
    RangeID : Z;
    ResetWorkflowSnapshot : Snapshot.t
  }.
End ResetMSReq.

Module LeaseReq.
  (** [LeaseTaskListRequest] *)
Record t : Type := {
    DomainID : string;
    TaskList : string;
    TaskType : Z;
    TaskListKind : Z;
    RangeID : Z
  }.
End LeaseReq.

Record TaskListInfo : Type := {
  tliDomainID : string;
  tliName : string;
  tliTaskType : Z;
  tliRangeID : Z;
  tliAckLevel : Z;
  tliKind : Z;
  tliLastUpdated : Z
}.

Module GetTasksReq.
Record t : Type := {
    DomainID : string;
    TaskList : string;
    TaskType : Z;
    ReadLevel : Z;
    MaxReadLevel : option Z;
    BatchSize : Z
  }.
End GetTasksReq.

Record CompleteTasksLessThanRequest : Type := {
  ctDomainID : string;
  ctTaskListName : string;
  ctTaskType : Z;
  ctTaskID : Z;
  ctLimit : Z
}.

(** [TaskInfo]: what [createTaskInfo] decoded from the [task] column, and
    the task id set by [GetTasks]. *)
Record TaskInfo : Type := { tiDecoded : value; tiTaskID : Z }.

(** ** What the file uses and does not define

    Constants of the packages [persistence] and [common] (the cases of
    one Go [switch] are distinct constants), and the helpers of the
    package that live in other files.  A helper that is handed the batch
    returns the batch it leaves behind. *)

Class Collaborators : Type := {
  CreateWorkflowModeBrandNew : Z;
  CreateWorkflowModeWorkflowIDReuse : Z;
  CreateWorkflowModeContinueAsNew : Z;
  CreateWorkflowModeZombie : Z;
  createWorkflowModes_distinct :
    NoDup [CreateWorkflowModeContinueAsNew; CreateWorkflowModeWorkflowIDReuse;
           CreateWorkflowModeBrandNew; CreateWorkflowModeZombie];
  WorkflowStateCreated : Z;
  WorkflowStateRunning : Z;
  WorkflowStateCompleted : Z;
  WorkflowStateZombie : Z;
  workflowStates_distinct :
    NoDup [WorkflowStateZombie; WorkflowStateCreated; WorkflowStateRunning;
           WorkflowStateCompleted];
  WorkflowCloseStatusNone : Z;
  EmptyVersion : Z;
  EmptyEventID : Z;
  FirstEventID : Z;
  UnknownNumRowsAffected : Z;
  UnixNanoToDBTimestamp : Z → Z;
  ValidateCreateWorkflowStateCloseStatus : Z → Z → option error;
  FromDataBlob : option DataBlob → value * value;
  createReplicationInfoMap : value → gmap string value;
  createWorkflowExecutionInfo : gmap string value → ExecInfo.t;
  createReplicationState : gmap string value → RS.ReplicationState;
  createTaskInfo : gmap string value → value;
  createTransferTasks : list query → list value → string → string → string → list query;
  createReplicationTasks : list query → list value → string → string → string → list query;
  createTimerTasks : list query → list value → string → string → string → Z → list query;
  resetActivityInfos :
    list query → list value → string → string → string → bool → Z → list query * option error;
  resetTimerInfos :
    list query → list value → string → string → string → bool → Z → list query;
  resetRequestCancelInfos :
    list query → list value → string → string → string → bool → Z → list query;
  resetChildExecutionInfos :
    list query → list value → string → string → string → bool → Z → list query * option error;
  resetSignalInfos :
    list query → list value → string → string → string → bool → Z → list query;
  resetSignalRequested :
    list query → list string → string → string → string → bool → Z → list query;
  applyWorkflowMutationBatch : list query → Mutation.t → list query * option error;
  applyWorkflowSnapshotBatch : list query → Snapshot.t → list query * option error
}.

Record cassandraPersistence : Type := {
  shardID : Z;
  currentClusterName : string
}.

Section Adapter.
Context {C : Collaborators}.

(* time.Date(2000, time.January, 1, 0, 0, 0, 0, time.UTC).UnixNano() *)
Definition defaultDateTime : Z := 946684800 * 10 ^ 9.
Definition defaultVisibilityTimestamp : Z := UnixNanoToDBTimestamp defaultDateTime.

(** The error of a failed store call that is not a timeout: busy when the
    store throttles, internal otherwise. *)
Definition busyOrInternal (busyFormat internalFormat : string) (err : gocqlError) : error :=
  if isThrottlingError err
  then ServiceBusyError (Sprintf busyFormat [FError err])
  else InternalServiceError (Sprintf internalFormat [FError err]).

(** ** Shard store *)

Definition CreateShard (d : cassandraPersistence) (now : Z) (request : CreateShardRequest)
  : prog (outcome (option error)) :=
  let cqlNowTimestamp := UnixNanoToDBTimestamp now in
  let shardInfo := csShardInfo request in
  QueryMapScanCAS
    (Query templateCreateShardQuery
       [ VInt (ShardInfo.ShardID shardInfo);
         VInt rowTypeShard;
         VString rowTypeShardDomainID;
         VString rowTypeShardWorkflowID;
         VString rowTypeShardRunID;
         VInt64 defaultVisibilityTimestamp;
         VInt64 rowTypeShardTaskID;
         VInt (ShardInfo.ShardID shardInfo);
         VString (ShardInfo.Owner shardInfo);
         VInt64 (ShardInfo.RangeID shardInfo);
         ShardInfo.StolenSinceRenew shardInfo;
         VInt64 cqlNowTimestamp;
         ShardInfo.ReplicationAckLevel shardInfo;
         ShardInfo.TransferAckLevel shardInfo;
         ShardInfo.TimerAckLevel shardInfo;
         ShardInfo.ClusterTransferAckLevel shardInfo;
         ShardInfo.ClusterTimerAckLevel shardInfo;
         ShardInfo.DomainNotificationVersion shardInfo;
         VInt64 (ShardInfo.RangeID shardInfo) ])
    (fun r =>
       match r with
       | CASError err =>
           Ret (Returns (Some (busyOrInternal
                  "CreateShard operation failed. Error: %v"
                  "CreateShard operation failed. Error: %v" err)))
       | CASNotApplied previous =>
           Ret (shard ←! mustMap (previous !! "shard");
                Returns (Some (ShardAlreadyExistError
                  (Sprintf "Shard already exists in executions table.  ShardId: %v, RangeId: %v"
                     [FValue (shard !! "shard_id"); FValue (shard !! "range_id")]))))
       | CASApplied => Ret (Returns None)
       end).

Definition UpdateShard (d : cassandraPersistence) (now : Z) (request : UpdateShardRequest)
  : prog (outcome (option error)) :=
  let cqlNowTimestamp := UnixNanoToDBTimestamp now in
  let shardInfo := usShardInfo request in
  QueryMapScanCAS
    (Query templateUpdateShardQuery
       [ VInt (ShardInfo.ShardID shardInfo);
         VString (ShardInfo.Owner shardInfo);
         VInt64 (ShardInfo.RangeID shardInfo);
         ShardInfo.StolenSinceRenew shardInfo;
         VInt64 cqlNowTimestamp;
         ShardInfo.ReplicationAckLevel shardInfo;
         ShardInfo.TransferAckLevel shardInfo;
         ShardInfo.TimerAckLevel shardInfo;
         ShardInfo.ClusterTransferAckLevel shardInfo;
         ShardInfo.ClusterTimerAckLevel shardInfo;
         ShardInfo.DomainNotificationVersion shardInfo;
         VInt64 (ShardInfo.RangeID shardInfo);
         VInt (ShardInfo.ShardID shardInfo);
         VInt rowTypeShard;
         VString rowTypeShardDomainID;
         VString rowTypeShardWorkflowID;
         VString rowTypeShardRunID;
         VInt64 defaultVisibilityTimestamp;
         VInt64 rowTypeShardTaskID;
         VInt64 (PreviousRangeID request) ])
    (fun r =>
       match r with
       | CASError err =>
           Ret (Returns (Some (busyOrInternal
                  "UpdateShard operation failed. Error: %v"
                  "UpdateShard operation failed. Error: %v" err)))
       | CASNotApplied previous =>
           Ret (Returns (Some (ShardOwnershipLostError (shardID d)
                  (Sprintf "Failed to update shard.  previous_range_id: %v, columns: (%v)"
                     [FInt (PreviousRangeID request); FColumns [previous]]))))
       | CASApplied => Ret (Returns None)
       end).

(** ** Execution store: the create path *)

(** The statement that re-checks the shard's range token
    ([templateUpdateLeaseQuery], the last entry of every execution batch). *)
Definition leaseQuery (d : cassandraPersistence) (rangeID : Z) : query :=
  Query templateUpdateLeaseQuery
    [ VInt64 rangeID;
      VInt (shardID d);
      VInt rowTypeShard;
      VString rowTypeShardDomainID;
      VString rowTypeShardWorkflowID;
      VString rowTypeShardRunID;
      VInt64 defaultVisibilityTimestamp;
      VInt64 rowTypeShardTaskID;
      VInt64 rangeID ].

(** The values bound to [templateWorkflowExecutionType] by the three
    inserts of a new run; they differ in how they read the ids only. *)
Definition createExecutionArgs (d : cassandraPersistence) (request : CreateReq.t)
    (workflowID runID parentDomainID parentWorkflowID parentRunID : string)
    (initiatedID cqlNowTimestamp : Z) (autoResetData : value) : list value :=
  [ VInt (shardID d);
    VString (CreateReq.DomainID request);
    VString workflowID;
    VString runID;
    VInt rowTypeExecution;
    VString (CreateReq.DomainID request);
    VString workflowID;
    VString runID;
    VString parentDomainID;
    VString parentWorkflowID;
    VString parentRunID;
    VInt64 initiatedID;
    VInt64 EmptyEventID;
    VNil;
    VString "";
    CreateReq.TaskList request;
    CreateReq.WorkflowTypeName request;
    CreateReq.WorkflowTimeout request;
    CreateReq.DecisionTimeoutValue request;
    CreateReq.ExecutionContext request;
    VInt (CreateReq.State request);
    VInt (CreateReq.CloseStatus request);
    VInt64 FirstEventID;
    CreateReq.LastEventTaskID request;
    VInt64 (CreateReq.NextEventID request);
    CreateReq.LastProcessedEvent request;
    VInt64 cqlNowTimestamp;
    VInt64 cqlNowTimestamp;
    VString (CreateReq.RequestID request);
    CreateReq.SignalCount request;
    CreateReq.HistorySize request;
    CreateReq.DecisionVersion request;
    CreateReq.DecisionScheduleID request;
    CreateReq.DecisionStartedID request;
    VString ""; (* Decision Start Request ID *)
    CreateReq.DecisionStartToCloseTimeout request;
    VInt 0; (* decision attempts *)
    VInt 0; (* decision timestamp(started time) *)
    VInt 0; (* decision scheduled timestamp *)
    VBool false; (* cancel_requested *)
    VString ""; (* cancel_request_id *)
    VString ""; (* sticky_task_list *)
    VInt 0; (* sticky_schedule_to_start_timeout *)
    VString ""; (* client_library_version *)
    VString ""; (* client_feature_version *)
    VString ""; (* client_impl *)
    autoResetData;
    GetEncoding (CreateReq.PreviousAutoResetPoints request);
    CreateReq.Attempt request;
    CreateReq.HasRetryPolicy request;
    CreateReq.InitialInterval request;
    CreateReq.BackoffCoefficient request;
    CreateReq.MaximumInterval request;
    CreateReq.ExpirationTime request;
    CreateReq.MaximumAttempts request;
    CreateReq.NonRetriableErrors request;
    CreateReq.EventStoreVersion request;
    CreateReq.BranchToken request;
    CreateReq.CronSchedule request;
    CreateReq.ExpirationSeconds request;
    CreateReq.SearchAttributes request ].

(** The values bound by the statements that write the current-execution
    row, up to the key; the conditions follow. *)
Definition currentExecutionSetArgs (runID requestID : string)
    (state closeStatus startVersion lastWriteVersion : Z) : list value :=
  [ VString runID;
    VString runID;
    VString requestID;
    VInt state;
    VInt closeStatus;
    VInt64 startVersion;
    VInt64 lastWriteVersion;
    VInt64 lastWriteVersion;
    VInt state ].

Definition currentExecutionKeyArgs (d : cassandraPersistence) (domainID workflowID : string)
  : list value :=
  [ VInt (shardID d);
    VInt rowTypeExecution;
    VString domainID;
    VString workflowID;
    VString permanentRunID;
    VInt64 defaultVisibilityTimestamp;
    VInt64 rowTypeExecutionTaskID ].

(** The insert of the new run's row (the three branches on
    [request.ReplicationState] and [request.VersionHistories]). *)
Definition createExecutionRow (d : cassandraPersistence) (request : CreateReq.t) (b : batch)
    (parentDomainID parentWorkflowID parentRunID : string) (initiatedID cqlNowTimestamp : Z)
  : outcome batch :=
  let execution := CreateReq.Execution request in
  match CreateReq.ReplicationState request with
  | Some replicationState =>
      let lastReplicationInfo :=
        VMap ((fun v => VMap (createReplicationInfoMap v))
                <$> RS.LastReplicationInfo replicationState) in
      autoResetData ←! derefData (CreateReq.PreviousAutoResetPoints request);
      Returns (batchQuery b templateCreateWorkflowExecutionWithReplicationQuery
        (createExecutionArgs d request (GetWorkflowId execution) (GetRunId execution)
           parentDomainID parentWorkflowID parentRunID initiatedID cqlNowTimestamp autoResetData
         ++ [ VInt64 (RS.CurrentVersion replicationState);
              VInt64 (RS.StartVersion replicationState);
              VInt64 (RS.LastWriteVersion replicationState);
              VInt64 (RS.LastWriteEventID replicationState);
              lastReplicationInfo;
              VInt64 (CreateReq.NextEventID request);
              VInt64 defaultVisibilityTimestamp;
              VInt64 rowTypeExecutionTaskID ]))
  | None =>
      match CreateReq.VersionHistories request with
      | Some _ =>
          let '(versionHistoriesData, versionHistoriesEncoding) :=
            FromDataBlob (CreateReq.VersionHistories request) in
          workflowID ←! deref (WorkflowId execution);
          runID ←! deref (RunId execution);
          autoResetData ←! derefData (CreateReq.PreviousAutoResetPoints request);
          Returns (batchQuery b templateCreateWorkflowExecutionWithVersionHistoriesQuery
            (createExecutionArgs d request workflowID runID
               parentDomainID parentWorkflowID parentRunID initiatedID cqlNowTimestamp
               autoResetData
             ++ [ VInt64 (CreateReq.NextEventID request);
                  VInt64 defaultVisibilityTimestamp;
                  VInt64 rowTypeExecutionTaskID;
                  versionHistoriesData;
                  versionHistoriesEncoding ]))
      | None =>
          autoResetData ←! derefData (CreateReq.PreviousAutoResetPoints request);
          Returns (batchQuery b templateCreateWorkflowExecutionQuery
            (createExecutionArgs d request (GetWorkflowId execution) (GetRunId execution)
               parentDomainID parentWorkflowID parentRunID initiatedID cqlNowTimestamp
               autoResetData
             ++ [ VInt64 (CreateReq.NextEventID request);
                  VInt64 defaultVisibilityTimestamp;
                  VInt64 rowTypeExecutionTaskID ]))
      end
  end.

(** [CreateWorkflowExecutionWithinBatch] returns the request as it leaves
    it (the mode may have been overwritten), the batch and the error. *)
Definition CreateWorkflowExecutionWithinBatch (d : cassandraPersistence)
    (request : CreateReq.t) (b : batch) (cqlNowTimestamp : Z)
  : outcome (CreateReq.t * batch * option error) :=
  (* validate workflow state & close status *)
  match ValidateCreateWorkflowStateCloseStatus
          (CreateReq.State request) (CreateReq.CloseStatus request) with
  | Some err => Returns (request, b, Some err)
  | None =>
  let '(parentDomainID, parentWorkflowID, parentRunID, initiatedID) :=
    if decide (CreateReq.ParentDomainID request = "")
    then (emptyDomainID, "", emptyRunID, emptyInitiatedID)
    else (CreateReq.ParentDomainID request,
          GetWorkflowId (CreateReq.ParentExecution request),
          GetRunId (CreateReq.ParentExecution request),
          CreateReq.InitiatedID request) in
  let '(startVersion, lastWriteVersion, request) :=
    match CreateReq.ReplicationState request with
    | Some replicationState =>
        (RS.StartVersion replicationState, RS.LastWriteVersion replicationState, request)
    | None =>
        (EmptyVersion, EmptyVersion,
         if decide (CreateReq.CreateWorkflowMode request = CreateWorkflowModeWorkflowIDReuse)
         then CreateReq.setCreateWorkflowMode request CreateWorkflowModeContinueAsNew
         else request)
    end in
  let execution := CreateReq.Execution request in
  let setArgs runID :=
    currentExecutionSetArgs runID (CreateReq.RequestID request) (CreateReq.State request)
      (CreateReq.CloseStatus request) startVersion lastWriteVersion in
  let insertRow b :=
    b' ←! createExecutionRow d request b parentDomainID parentWorkflowID parentRunID
            initiatedID cqlNowTimestamp;
    Returns (request, b', None) in
  let mode := CreateReq.CreateWorkflowMode request in
  if decide (mode = CreateWorkflowModeContinueAsNew) then
    workflowID ←! deref (WorkflowId execution);
    insertRow (batchQuery b templateUpdateCurrentWorkflowExecutionQuery
      (setArgs (GetRunId execution)
       ++ currentExecutionKeyArgs d (CreateReq.DomainID request) workflowID
       ++ [ VString (CreateReq.PreviousRunID request) ]))
  else if decide (mode = CreateWorkflowModeWorkflowIDReuse) then
    runID ←! deref (RunId execution);
    workflowID ←! deref (WorkflowId execution);
    insertRow (batchQuery b templateUpdateCurrentWorkflowExecutionForNewQuery
      (setArgs runID
       ++ currentExecutionKeyArgs d (CreateReq.DomainID request) workflowID
       ++ [ VString (CreateReq.PreviousRunID request);
            VInt64 (CreateReq.PreviousLastWriteVersion request);
            VInt WorkflowStateCompleted ]))
  else if decide (mode = CreateWorkflowModeBrandNew) then
    workflowID ←! deref (WorkflowId execution);
    runID ←! deref (RunId execution);
    insertRow (batchQuery b templateCreateCurrentWorkflowExecutionQuery
      (currentExecutionKeyArgs d (CreateReq.DomainID request) workflowID
       ++ setArgs runID))
  else if decide (mode = CreateWorkflowModeZombie) then
    (* for creation of zombie workflow, check that
       1. workflow state being WorkflowStateZombie
       2. workflow close status being WorkflowCloseStatusNone *)
    if decide (CreateReq.State request ≠ WorkflowStateZombie
               ∨ CreateReq.CloseStatus request ≠ WorkflowCloseStatusNone)
    then Returns (request, b, Some (InternalServiceError
           (Sprintf "Cannot create zombie workflow with state: %v, close status: %v"
              [FInt (CreateReq.State request); FInt (CreateReq.CloseStatus request)])))
    else insertRow b
  else Panics "Unknown CreateWorkflowMode"
  end.

(** One round of [GetFailureReasonLoop] of [CreateWorkflowExecution] on a
    row whose type tag and run id have been read: the error it returns
    from inside the loop, if any, with the value of [previous]; [next] is
    the rest of the loop. *)
Definition createFailureReasonRound (d : cassandraPersistence) (request : CreateReq.t)
    (previous : gmap string value) (rowType : Z) (runID : string)
    (next : outcome (option error * gmap string value))
  : outcome (option error * gmap string value) :=
  if decide (rowType = rowTypeShard) then
    match asInt64 (previous !! "range_id") with
    | Some rangeID =>
        if decide (rangeID ≠ CreateReq.RangeID request)
        then (* CreateWorkflowExecution failed because rangeID was modified *)
             Returns (Some (ShardOwnershipLostError (shardID d)
               (Sprintf "Failed to create workflow execution.  Request RangeID: %v, Actual RangeID: %v"
                  [FInt (CreateReq.RangeID request); FInt rangeID])), previous)
        else next
    | None => next
    end
  else if decide (rowType = rowTypeExecution ∧ runID = permanentRunID) then
    match asMap (previous !! "execution") with
    | Some execution =>
        (* CreateWorkflowExecution failed because it already exists *)
        let executionInfo := createWorkflowExecutionInfo execution in
        lastWriteVersion ←!
          match CreateReq.ReplicationState request with
          | Some _ =>
              m ←! mustMap (previous !! "replication_state");
              Returns (RS.LastWriteVersion (createReplicationState m))
          | None => Returns EmptyVersion
          end;
        Returns (Some (WorkflowExecutionAlreadyStartedError
          (Sprintf "Workflow execution already running. WorkflowId: %v, RunId: %v, rangeID: %v, columns: (%v)"
             [FString (GetWorkflowId (CreateReq.Execution request));
              FString (ExecInfo.RunID executionInfo);
              FInt (CreateReq.RangeID request); FColumns [previous]])
          (ExecInfo.CreateRequestID executionInfo)
          (ExecInfo.RunID executionInfo)
          (ExecInfo.State executionInfo)
          (ExecInfo.CloseStatus executionInfo)
          lastWriteVersion), previous)
    | None =>
        prevRunID ←! mustUUID (previous !! "current_run_id");
        if decide (prevRunID ≠ GetRunId (CreateReq.Execution request))
        then (* currentRunID on previous run has been changed, return to
                caller to handle *)
             Returns (Some (CurrentWorkflowConditionFailedError
               (Sprintf "Workflow execution creation condition failed by mismatch runID. WorkflowId: %v, CurrentRunID: %v, columns: (%v)"
                  [FString (GetWorkflowId (CreateReq.Execution request));
                   FString (GetRunId (CreateReq.Execution request));
                   FColumns [previous]])), previous)
        else Returns (Some (ConditionFailedError
               (Sprintf "Workflow execution creation condition failed. WorkflowId: %v, CurrentRunID: %v, columns: (%v)"
                  [FString (GetWorkflowId (CreateReq.Execution request));
                   FString (GetRunId (CreateReq.Execution request));
                   FColumns [previous]])), previous)
    end
  else next.

(** [GetFailureReasonLoop] of [CreateWorkflowExecution]: the error it
    returns from inside the loop, if any, and the value of [previous] when
    it leaves the loop. *)
Fixpoint createFailureReasonLoop (d : cassandraPersistence) (request : CreateReq.t)
    (previous : gmap string value) (iter : list (gmap string value))
  : outcome (option error * gmap string value) :=
  let next :=
    (* previous = make(map[string]interface{}); if !iter.MapScan(previous) { break } *)
    match iter with
    | [] => Returns (None, ∅)
    | row' :: iter' => createFailureReasonLoop d request row' iter'
    end in
  match asInt (previous !! "type") with
  | None =>
      (* This should never happen, as all our rows have the type field. *)
      Returns (None, previous)
  | Some rowType =>
      runID ←! mustUUID (previous !! "run_id");
      createFailureReasonRound d request previous rowType runID next
  end.

(** What [CreateWorkflowExecution] returns when the batch was not applied. *)
Definition createConditionalFailure (d : cassandraPersistence) (request : CreateReq.t)
    (previous : gmap string value) (iter : list (gmap string value)) : outcome error :=
  r ←! createFailureReasonLoop d request previous iter;
  match r with
  | (Some err, _) => Returns err
  | (None, previous') =>
      (* At this point we only know that the write was not applied.
         It's much safer to return ShardOwnershipLostError as the default to
         force the application to reload shard to recover from such errors *)
      Returns (ShardOwnershipLostError (shardID d)
        (Sprintf "Failed to create workflow execution.  Request RangeID: %v, columns: (%v)"
           [FInt (CreateReq.RangeID request); FColumns [previous']]))
  end.

(** The batch of [CreateWorkflowExecution], from the call of
    [CreateWorkflowExecutionWithinBatch] to the lease statement. *)
Definition createWorkflowExecutionBatch (d : cassandraPersistence) (cqlNowTimestamp : Z)
    (request : CreateReq.t) : outcome (CreateReq.t * batch * option error) :=
  r ←! CreateWorkflowExecutionWithinBatch d request [] cqlNowTimestamp;
  match r with
  | (request, b, Some err) => Returns (request, b, Some err)
  | (request, b, None) =>
      let execution := CreateReq.Execution request in
      workflowID ←! deref (WorkflowId execution);
      runID ←! deref (RunId execution);
      let b := createTransferTasks b (CreateReq.TransferTasks request)
                 (CreateReq.DomainID request) workflowID runID in
      let b := createReplicationTasks b (CreateReq.ReplicationTasks request)
                 (CreateReq.DomainID request) workflowID runID in
      let b := createTimerTasks b (CreateReq.TimerTasks request)
                 (CreateReq.DomainID request) workflowID runID cqlNowTimestamp in
      Returns (request, b ++ [leaseQuery d (CreateReq.RangeID request)], None)
  end.

(** The error for a failed batch of the three execution-mutating calls:
    timeout first, then busy, then internal. *)
Definition batchError (name : string) (err : gocqlError) : error :=
  if isTimeoutError err
  then (* Write may have succeeded, but we don't know *)
       TimeoutError (Sprintf (name +:+ " timed out. Error: %v") [FError err])
  else busyOrInternal (name +:+ " operation failed. Error: %v")
                      (name +:+ " operation failed. Error: %v") err.

(** [CreateWorkflowExecution]: the request as the call leaves it, and the
    result. *)
Definition CreateWorkflowExecution (d : cassandraPersistence) (now : Z)
    (request : CreateReq.t) : prog (outcome (CreateReq.t * result unit)) :=
  let cqlNowTimestamp := UnixNanoToDBTimestamp now in
  let build :=
    match createWorkflowExecutionBatch d cqlNowTimestamp request with
    | Panics r => Ret (Panics r)
    | Returns (request, _, Some err) => Ret (Returns (request, Err err))
    | Returns (request, b, None) =>
        MapExecuteBatchCAS b (fun r =>
          match r with
          | BatchError err =>
              Ret (Returns (request, Err (batchError "CreateWorkflowExecution" err)))
          | BatchNotApplied previous iter =>
              Ret (err ←! createConditionalFailure d request previous iter;
                   Returns (request, Err err))
          | BatchApplied => Ret (Returns (request, Ok tt))
          end)
    end in
  if decide (CreateReq.CreateWorkflowMode request = CreateWorkflowModeZombie) then
    AssertNotCurrentExecution (CreateReq.DomainID request)
      (GetWorkflowId (CreateReq.Execution request))
      (GetRunId (CreateReq.Execution request))
      (fun r => match r with
                | Some err => Ret (Returns (request, Err err))
                | None => build
                end)
  else build.

(** ** Execution store: the update and reset paths *)

(* this helper is passing dynamic number of arguments based on whether
   needing condition or not *)
Definition batchQueryHelper (b : batch) (s : string) (useCondition : bool) (condition : Z)
    (a : list value) : batch :=
  if useCondition
  then batchQuery b (s +:+ templateUpdateWorkflowExecutionConditionSuffix)
         (a ++ [VInt64 condition])
  else batchQuery b s a.

(** The values bound to [templateWorkflowExecutionType] by the three
    updates of [updateMutableState]. *)
Definition updateExecutionArgs (executionInfo : ExecInfo.t) (parentDomainID parentRunID : string)
    (completionData completionEncoding : value) (cqlNowTimestamp : Z) (autoResetData : value)
  : list value :=
  [ VString (ExecInfo.DomainID executionInfo);
    VString (ExecInfo.WorkflowID executionInfo);
    VString (ExecInfo.RunID executionInfo);
    VString parentDomainID;
    VString (ExecInfo.ParentWorkflowID executionInfo);
    VString parentRunID;
    ExecInfo.InitiatedID executionInfo;
    ExecInfo.CompletionEventBatchID executionInfo;
    completionData;
    completionEncoding;
    ExecInfo.TaskList executionInfo;
    ExecInfo.WorkflowTypeName executionInfo;
    ExecInfo.WorkflowTimeout executionInfo;
    ExecInfo.DecisionTimeoutValue executionInfo;
    ExecInfo.ExecutionContext executionInfo;
    VInt (ExecInfo.State executionInfo);
    VInt (ExecInfo.CloseStatus executionInfo);
    ExecInfo.LastFirstEventID executionInfo;
    ExecInfo.LastEventTaskID executionInfo;
    VInt64 (ExecInfo.NextEventID executionInfo);
    ExecInfo.LastProcessedEvent executionInfo;
    ExecInfo.StartTimestamp executionInfo;
    VInt64 cqlNowTimestamp;
    VString (ExecInfo.CreateRequestID executionInfo);
    ExecInfo.SignalCount executionInfo;
    ExecInfo.HistorySize executionInfo;
    ExecInfo.DecisionVersion executionInfo;
    ExecInfo.DecisionScheduleID executionInfo;
    ExecInfo.DecisionStartedID executionInfo;
    ExecInfo.DecisionRequestID executionInfo;
    ExecInfo.DecisionTimeout executionInfo;
    ExecInfo.DecisionAttempt executionInfo;
    ExecInfo.DecisionStartedTimestamp executionInfo;
    ExecInfo.DecisionScheduledTimestamp executionInfo;
    ExecInfo.CancelRequested executionInfo;
    ExecInfo.CancelRequestID executionInfo;
    ExecInfo.StickyTaskList executionInfo;
    ExecInfo.StickyScheduleToStartTimeout executionInfo;
    ExecInfo.ClientLibraryVersion executionInfo;
    ExecInfo.ClientFeatureVersion executionInfo;
    ExecInfo.ClientImpl executionInfo;
    autoResetData;
    GetEncoding (ExecInfo.AutoResetPoints executionInfo);
    ExecInfo.Attempt executionInfo;
    ExecInfo.HasRetryPolicy executionInfo;
    ExecInfo.InitialInterval executionInfo;
    ExecInfo.BackoffCoefficient executionInfo;
    ExecInfo.MaximumInterval executionInfo;
    ExecInfo.ExpirationTime executionInfo;
    ExecInfo.MaximumAttempts executionInfo;
    ExecInfo.NonRetriableErrors executionInfo;
    ExecInfo.EventStoreVersion executionInfo;
    ExecInfo.BranchToken executionInfo;
    ExecInfo.CronSchedule executionInfo;
    ExecInfo.ExpirationSeconds executionInfo;
    ExecInfo.SearchAttributes executionInfo ].

Definition executionKeyArgs (d : cassandraPersistence) (domainID workflowID runID : string)
  : list value :=
  [ VInt (shardID d);
    VInt rowTypeExecution;
    VString domainID;
    VString workflowID;
    VString runID;
    VInt64 defaultVisibilityTimestamp;
    VInt64 rowTypeExecutionTaskID ].

(** [updateMutableState].  It overwrites an empty [ParentDomainID] and
    [ParentRunID] of [executionInfo] in place; no caller in this file
    reads the two fields again, so the batch is all that is returned. *)
Definition updateMutableState (d : cassandraPersistence) (b : batch)
    (executionInfo : ExecInfo.t) (replicationState : option RS.ReplicationState)
    (versionHistories : option DataBlob) (cqlNowTimestamp : Z)
    (useCondition : bool) (condition : Z) : outcome batch :=
  let parentDomainID :=
    if decide (ExecInfo.ParentDomainID executionInfo = "")
    then emptyDomainID else ExecInfo.ParentDomainID executionInfo in
  let parentRunID :=
    if decide (ExecInfo.ParentRunID executionInfo = "")
    then emptyRunID else ExecInfo.ParentRunID executionInfo in
  let '(completionData, completionEncoding) :=
    FromDataBlob (ExecInfo.CompletionEvent executionInfo) in
  let key :=
    executionKeyArgs d (ExecInfo.DomainID executionInfo) (ExecInfo.WorkflowID executionInfo)
      (ExecInfo.RunID executionInfo) in
  autoResetData ←! derefData (ExecInfo.AutoResetPoints executionInfo);
  let common :=
    updateExecutionArgs executionInfo parentDomainID parentRunID completionData
      completionEncoding cqlNowTimestamp autoResetData in
  match replicationState with
  | Some replicationState =>
      let lastReplicationInfo :=
        VMap ((fun v => VMap (createReplicationInfoMap v))
                <$> RS.LastReplicationInfo replicationState) in
      Returns (batchQueryHelper b templateUpdateWorkflowExecutionWithReplicationQuery
        useCondition condition
        (common
         ++ [ VInt64 (RS.CurrentVersion replicationState);
              VInt64 (RS.StartVersion replicationState);
              VInt64 (RS.LastWriteVersion replicationState);
              VInt64 (RS.LastWriteEventID replicationState);
              lastReplicationInfo;
              VInt64 (ExecInfo.NextEventID executionInfo) ]
         ++ key))
  | None =>
      match versionHistories with
      | Some _ =>
          let '(versionHistoriesData, versionHistoriesEncoding) :=
            FromDataBlob versionHistories in
          Returns (batchQueryHelper b templateUpdateWorkflowExecutionWithVersionHistoriesQuery
            useCondition condition
            (common
             ++ [ VInt64 (ExecInfo.NextEventID executionInfo);
                  versionHistoriesData;
                  versionHistoriesEncoding ]
             ++ key))
      | None =>
          (* Updates will be called with null ReplicationState while the
             feature is disabled *)
          Returns (batchQueryHelper b templateUpdateWorkflowExecutionQuery
            useCondition condition
            (common ++ [ VInt64 (ExecInfo.NextEventID executionInfo) ] ++ key))
      end
  end.

(** The statement of [templateCheckWorkflowExecutionQuery]: it sets
    [next_event_id] of the run [runID] to [nextEventID] if it is
    [nextEventID]. *)
Definition checkWorkflowExecutionQuery (d : cassandraPersistence)
    (domainID workflowID runID : string) (nextEventID : Z) : query :=
  Query templateCheckWorkflowExecutionQuery
    ([ VInt64 nextEventID ]
     ++ executionKeyArgs d domainID workflowID runID
     ++ [ VInt64 nextEventID ]).

(** *** The conditional-failure classifier *)

(** The locals of [getExecutionConditionalUpdateFailure]. *)
Record failureScan : Type := FailureScan {
  rangeIDUnmatch : bool;
  actualRangeID : Z;
  nextEventIDUnmatch : bool;
  actualNextEventID : Z;
  runIDUnmatch : bool;
  actualCurrRunID : string;
  allPrevious : list (gmap string value)
}.

Definition initialScan : failureScan := FailureScan false 0 false 0 false "" [].

(** The body of one round of [GetFailureReasonLoop], up to the append to
    [allPrevious]. *)
Definition scanRow (requestRunID : string) (requestCondition requestRangeID : Z)
    (requestConditionalRunID : string) (s : failureScan) (previous : gmap string value)
    (rowType : Z) (runID : string) : outcome failureScan :=
  if decide (rowType = rowTypeShard) then
    (* actualRangeID, ok = previous["range_id"].(int64) *)
    let actual := default 0 (asInt64 (previous !! "range_id")) in
    let unmatch :=
      match asInt64 (previous !! "range_id") with
      | Some n => bool_decide (n ≠ requestRangeID)
      | None => false
      end in
    Returns (FailureScan (rangeIDUnmatch s || unmatch) actual
               (nextEventIDUnmatch s) (actualNextEventID s)
               (runIDUnmatch s) (actualCurrRunID s) (allPrevious s))
  else if decide (rowType = rowTypeExecution ∧ runID = requestRunID) then
    let actual := default 0 (asInt64 (previous !! "next_event_id")) in
    let unmatch :=
      match asInt64 (previous !! "next_event_id") with
      | Some n => bool_decide (n ≠ requestCondition)
      | None => false
      end in
    Returns (FailureScan (rangeIDUnmatch s) (actualRangeID s)
               (nextEventIDUnmatch s || unmatch) actual
               (runIDUnmatch s) (actualCurrRunID s) (allPrevious s))
  else if decide (rowType = rowTypeExecution ∧ runID = permanentRunID) then
    actual ←! mustUUID (previous !! "current_run_id");
    Returns (FailureScan (rangeIDUnmatch s) (actualRangeID s)
               (nextEventIDUnmatch s) (actualNextEventID s)
               (runIDUnmatch s || bool_decide (actual ≠ requestConditionalRunID)) actual
               (allPrevious s))
  else Returns s.

Definition appendPrevious (s : failureScan) (previous : gmap string value) : failureScan :=
  FailureScan (rangeIDUnmatch s) (actualRangeID s) (nextEventIDUnmatch s)
    (actualNextEventID s) (runIDUnmatch s) (actualCurrRunID s)
    (allPrevious s ++ [previous]).

Fixpoint conditionalUpdateFailureLoop (requestRunID : string)
    (requestCondition requestRangeID : Z) (requestConditionalRunID : string)
    (s : failureScan) (previous : gmap string value) (iter : list (gmap string value))
  : outcome failureScan :=
  match asInt (previous !! "type") with
  | None =>
      (* This should never happen, as all our rows have the type field. *)
      Returns s
  | Some rowType =>
      runID ←! mustUUID (previous !! "run_id");
      s' ←! scanRow requestRunID requestCondition requestRangeID requestConditionalRunID
              s previous rowType runID;
      let s'' := appendPrevious s' previous in
      match iter with
      | [] => Returns s''
      | row' :: iter' =>
          conditionalUpdateFailureLoop requestRunID requestCondition requestRangeID
            requestConditionalRunID s'' row' iter'
      end
  end.

Definition conditionalUpdateFailureMessage : string :=
  "Failed to update mutable state.  Request Condition: %v, Actual Value: %v, "
  +:+ "Request Current RunID: %v, Actual Value: %v".

Definition getExecutionConditionalUpdateFailure (d : cassandraPersistence)
    (previous : gmap string value) (iter : list (gmap string value))
    (requestRunID : string) (requestCondition requestRangeID : Z)
    (requestConditionalRunID : string) : outcome error :=
  s ←! conditionalUpdateFailureLoop requestRunID requestCondition requestRangeID
         requestConditionalRunID initialScan previous iter;
  if rangeIDUnmatch s then
    Returns (ShardOwnershipLostError (shardID d)
      (Sprintf "Failed to update mutable state.  Request RangeID: %v, Actual RangeID: %v"
         [FInt requestRangeID; FInt (actualRangeID s)]))
  else if runIDUnmatch s then
    Returns (CurrentWorkflowConditionFailedError
      (Sprintf conditionalUpdateFailureMessage
         [FInt requestCondition; FInt (actualNextEventID s);
          FString requestConditionalRunID; FString (actualCurrRunID s)]))
  else if nextEventIDUnmatch s then
    Returns (ConditionFailedError
      (Sprintf conditionalUpdateFailureMessage
         [FInt requestCondition; FInt (actualNextEventID s);
          FString requestConditionalRunID; FString (actualCurrRunID s)]))
  else
    (* At this point we only know that the write was not applied. *)
    Returns (ConditionFailedError
      (Sprintf ("Failed to reset mutable state. ShardID: %v, RangeID: %v, Condition: %v, "
                +:+ "Request Current RunID: %v, columns: (%v)")
         [FInt (shardID d); FInt requestRangeID; FInt requestCondition;
          FString requestConditionalRunID; FColumns (allPrevious s)])).

(** What the three calls return once the batch has been executed. *)
Definition afterBatch (d : cassandraPersistence) (name : string)
    (requestRunID : string) (requestCondition requestRangeID : Z)
    (requestConditionalRunID : string) (r : batchCASResult) : outcome (option error) :=
  match r with
  | BatchError err => Returns (Some (batchError name err))
  | BatchNotApplied previous iter =>
      err ←! getExecutionConditionalUpdateFailure d previous iter requestRunID
               requestCondition requestRangeID requestConditionalRunID;
      Returns (Some err)
  | BatchApplied => Returns None
  end.

Definition setContinueAsNew (request : UpdateReq.t) (startReq : CreateReq.t) : UpdateReq.t :=
  {| UpdateReq.RangeID := UpdateReq.RangeID request;
     UpdateReq.UpdateWorkflowMutation := UpdateReq.UpdateWorkflowMutation request;
     UpdateReq.ContinueAsNew := Some startReq |}.

(** [UpdateWorkflowExecution]: the request as the call leaves it (the new
    run's request may have had its mode overwritten) and the error. *)
Definition UpdateWorkflowExecution (d : cassandraPersistence) (now : Z)
    (request : UpdateReq.t) : prog (outcome (UpdateReq.t * option error)) :=
  let cqlNowTimestamp := UnixNanoToDBTimestamp now in
  let updateWorkflow := UpdateReq.UpdateWorkflowMutation request in
  let executionInfo := Mutation.ExecutionInfo updateWorkflow in
  let execute (request : UpdateReq.t) (b : batch) :=
    (* Verifies that the RangeID has not changed *)
    MapExecuteBatchCAS (b ++ [leaseQuery d (UpdateReq.RangeID request)]) (fun r =>
      Ret (err ←! afterBatch d "UpdateWorkflowExecution" (ExecInfo.RunID executionInfo)
                    (Mutation.Condition updateWorkflow) (UpdateReq.RangeID request)
                    (ExecInfo.RunID executionInfo) r;
           Returns (request, err))) in
  match applyWorkflowMutationBatch [] updateWorkflow with
  | (_, Some err) => Ret (Returns (request, Some err))
  | (b, None) =>
      match UpdateReq.ContinueAsNew request with
      | Some startReq =>
          match CreateWorkflowExecutionWithinBatch d startReq b cqlNowTimestamp with
          | Panics r => Ret (Panics r)
          | Returns (startReq, _, Some err) =>
              Ret (Returns (setContinueAsNew request startReq, Some err))
          | Returns (startReq, b, None) =>
              let b := createTransferTasks b (CreateReq.TransferTasks startReq)
                         (CreateReq.DomainID startReq)
                         (GetWorkflowId (CreateReq.Execution startReq))
                         (GetRunId (CreateReq.Execution startReq)) in
              let b := createTimerTasks b (CreateReq.TimerTasks startReq)
                         (CreateReq.DomainID startReq)
                         (GetWorkflowId (CreateReq.Execution startReq))
                         (GetRunId (CreateReq.Execution startReq)) cqlNowTimestamp in
              execute (setContinueAsNew request startReq) b
          end
      | None =>
          let state := ExecInfo.State executionInfo in
          if decide (state = WorkflowStateZombie) then
            AssertNotCurrentExecution (ExecInfo.DomainID executionInfo)
              (ExecInfo.WorkflowID executionInfo) (ExecInfo.RunID executionInfo)
              (fun r => match r with
                        | Some err => Ret (Returns (request, Some err))
                        | None => execute request b
                        end)
          else if decide (state = WorkflowStateCreated ∨ state = WorkflowStateRunning
                          ∨ state = WorkflowStateCompleted) then
            let '(startVersion, lastWriteVersion) :=
              match Mutation.ReplicationState updateWorkflow with
              | Some replicationState =>
                  (RS.StartVersion replicationState, RS.LastWriteVersion replicationState)
              | None => (EmptyVersion, EmptyVersion)
              end in
            execute request
              (batchQuery b templateUpdateCurrentWorkflowExecutionQuery
                 (currentExecutionSetArgs (ExecInfo.RunID executionInfo)
                    (ExecInfo.CreateRequestID executionInfo) (ExecInfo.State executionInfo)
                    (ExecInfo.CloseStatus executionInfo) startVersion lastWriteVersion
                  ++ currentExecutionKeyArgs d (ExecInfo.DomainID executionInfo)
                       (ExecInfo.WorkflowID executionInfo)
                  ++ [ VString (ExecInfo.RunID executionInfo) ]))
          else
            Ret (Returns (request, Some (InternalServiceError
              (Sprintf "UpdateWorkflowExecution operation failed. Unknown workflow state %v"
                 [FInt state]))))
      end
  end.

(** A helper that runs only when its list is not empty
    ([if len(xs) > 0 { ... }]). *)
Definition whenNonEmpty {A : Type} (xs : list A) (f : batch → batch) (b : batch) : batch :=
  match xs with [] => b | _ :: _ => f b end.

Definition whenNonEmptyErr {A : Type} (xs : list A) (f : batch → batch * option error)
    (b : batch) : batch * option error :=
  match xs with [] => (b, None) | _ :: _ => f b end.

(** The first statement of the reset batch: the update of the
    current-execution row. *)
Definition resetCurrentExecutionQuery (d : cassandraPersistence) (request : ResetReq.t)
  : query :=
  let currExecutionInfo := ResetReq.CurrExecutionInfo request in
  let insertExecutionInfo := Snapshot.ExecutionInfo (ResetReq.NewWorkflowSnapshot request) in
  let insertReplicationState :=
    Snapshot.ReplicationState (ResetReq.NewWorkflowSnapshot request) in
  let '(startVersion, lastWriteVersion) :=
    match insertReplicationState with
    | Some rs => (RS.StartVersion rs, RS.LastWriteVersion rs)
    | None => (EmptyVersion, EmptyVersion)
    end in
  let common :=
    currentExecutionSetArgs (ExecInfo.RunID insertExecutionInfo)
      (ExecInfo.CreateRequestID insertExecutionInfo) (ExecInfo.State insertExecutionInfo)
      (ExecInfo.CloseStatus insertExecutionInfo) startVersion lastWriteVersion
    ++ currentExecutionKeyArgs d (ExecInfo.DomainID insertExecutionInfo)
         (ExecInfo.WorkflowID insertExecutionInfo) in
  match ResetReq.CurrReplicationState request with
  | None =>
      Query templateUpdateCurrentWorkflowExecutionQuery
        (common ++ [ VString (ExecInfo.RunID currExecutionInfo) ])
  | Some _ =>
      Query templateUpdateCurrentWorkflowExecutionForNewQuery
        (common ++ [ VString (ExecInfo.RunID currExecutionInfo);
                     VInt64 (ResetReq.PrevRunVersion request);
                     VInt (ResetReq.PrevRunState request) ])
  end.

(** The statements the reset batch holds after the check of the
    fork-point run: from [if request.UpdateCurr] to the lease statement.
    The batch is returned also when a helper fails. *)
Definition resetBatchTail (d : cassandraPersistence) (cqlNowTimestamp : Z)
    (request : ResetReq.t) (b : batch) : outcome (batch * option error) :=
  let currExecutionInfo := ResetReq.CurrExecutionInfo request in
  let snapshot := ResetReq.NewWorkflowSnapshot request in
  let insertExecutionInfo := Snapshot.ExecutionInfo snapshot in
  let insertReplicationState := Snapshot.ReplicationState snapshot in
  let cd := ExecInfo.DomainID currExecutionInfo in
  let cw := ExecInfo.WorkflowID currExecutionInfo in
  let cr := ExecInfo.RunID currExecutionInfo in
  let nd := ExecInfo.DomainID insertExecutionInfo in
  let nw := ExecInfo.WorkflowID insertExecutionInfo in
  let nr := ExecInfo.RunID insertExecutionInfo in
  b ←! (if ResetReq.UpdateCurr request then
          b ←! updateMutableState d b currExecutionInfo (ResetReq.CurrReplicationState request)
                 (ResetReq.CurrVersionHistories request) cqlNowTimestamp true
                 (ResetReq.Condition request);
          let b := createTimerTasks b (ResetReq.CurrTimerTasks request) cd cw cr
                     cqlNowTimestamp in
          Returns (createTransferTasks b (ResetReq.CurrTransferTasks request) cd cw cr)
        else
          (* check condition without updating anything *)
          Returns (b ++ [checkWorkflowExecutionQuery d cd cw cr (ResetReq.Condition request)]));
  let b := whenNonEmpty (Snapshot.ReplicationTasks snapshot)
             (fun b => createReplicationTasks b (Snapshot.ReplicationTasks snapshot) nd nw nr)
             b in
  let b := whenNonEmpty (ResetReq.CurrReplicationTasks request)
             (fun b => createReplicationTasks b (ResetReq.CurrReplicationTasks request)
                         cd cw cr) b in
  (* we need to insert new mutableState, there is no condition to check.
     We use update without condition as insert *)
  b ←! updateMutableState d b insertExecutionInfo insertReplicationState
         (Snapshot.VersionHistories snapshot) cqlNowTimestamp false 0;
  match whenNonEmptyErr (Snapshot.ActivityInfos snapshot)
          (fun b => resetActivityInfos b (Snapshot.ActivityInfos snapshot) nd nw nr false 0)
          b with
  | (b, Some err) => Returns (b, Some err)
  | (b, None) =>
      let b := whenNonEmpty (Snapshot.TimerInfos snapshot)
                 (fun b => resetTimerInfos b (Snapshot.TimerInfos snapshot) nd nw nr false 0)
                 b in
      let b := whenNonEmpty (Snapshot.RequestCancelInfos snapshot)
                 (fun b => resetRequestCancelInfos b (Snapshot.RequestCancelInfos snapshot)
                             nd nw nr false 0) b in
      match whenNonEmptyErr (Snapshot.ChildExecutionInfos snapshot)
              (fun b => resetChildExecutionInfos b (Snapshot.ChildExecutionInfos snapshot)
                          nd nw nr false 0) b with
      | (b, Some err) => Returns (b, Some err)
      | (b, None) =>
          let b := whenNonEmpty (Snapshot.SignalInfos snapshot)
                     (fun b => resetSignalInfos b (Snapshot.SignalInfos snapshot)
                                 nd nw nr false 0) b in
          let b := whenNonEmpty (Snapshot.SignalRequestedIDs snapshot)
                     (fun b => resetSignalRequested b (Snapshot.SignalRequestedIDs snapshot)
                                 nd nw nr false 0) b in
          let b := whenNonEmpty (Snapshot.TimerTasks snapshot)
                     (fun b => createTimerTasks b (Snapshot.TimerTasks snapshot)
                                 nd nw nr cqlNowTimestamp) b in
          let b := whenNonEmpty (Snapshot.TransferTasks snapshot)
                     (fun b => createTransferTasks b (Snapshot.TransferTasks snapshot)
                                 nd nw nr) b in
          (* Verifies that the RangeID has not changed *)
          Returns (b ++ [leaseQuery d (ResetReq.RangeID request)], None)
      end
  end.

(** The check of the fork-point run, added only when it is not the
    current run. *)
Definition forkRunCheck (d : cassandraPersistence) (request : ResetReq.t) : list query :=
  let currExecutionInfo := ResetReq.CurrExecutionInfo request in
  (* for forkRun, check condition without updating anything to make sure
     the forkRun hasn't been deleted. we only do it when
     forkRun != currentRun *)
  if decide (ResetReq.BaseRunID request ≠ ExecInfo.RunID currExecutionInfo)
  then [ checkWorkflowExecutionQuery d (ExecInfo.DomainID currExecutionInfo)
           (ExecInfo.WorkflowID currExecutionInfo) (ResetReq.BaseRunID request)
           (ResetReq.BaseRunNextEventID request) ]
  else [].

(** The batch of [ResetWorkflowExecution], as it stands when the call
    executes it or returns early. *)
Definition resetWorkflowExecutionBatch (d : cassandraPersistence) (cqlNowTimestamp : Z)
    (request : ResetReq.t) : outcome (batch * option error) :=
  let b := [] ++ [resetCurrentExecutionQuery d request] in
  let b := b ++ forkRunCheck d request in
  resetBatchTail d cqlNowTimestamp request b.

Definition ResetWorkflowExecution (d : cassandraPersistence) (now : Z)
    (request : ResetReq.t) : prog (outcome (option error)) :=
  let cqlNowTimestamp := UnixNanoToDBTimestamp now in
  let currExecutionInfo := ResetReq.CurrExecutionInfo request in
  match resetWorkflowExecutionBatch d cqlNowTimestamp request with
  | Panics r => Ret (Panics r)
  | Returns (_, Some err) => Ret (Returns (Some err))
  | Returns (b, None) =>
      MapExecuteBatchCAS b (fun r =>
        Ret (afterBatch d "ResetWorkflowExecution" (ExecInfo.RunID currExecutionInfo)
               (ResetReq.Condition request) (ResetReq.RangeID request)
               (ExecInfo.RunID currExecutionInfo) r))
  end.

(** [ResetMutableState]; the snapshot's [ReplicationState] is
    dereferenced without a nil check. *)
Definition ResetMutableState (d : cassandraPersistence) (request : ResetMSReq.t)
  : prog (outcome (option error)) :=
  let resetWorkflow := ResetMSReq.ResetWorkflowSnapshot request in
  let executionInfo := Snapshot.ExecutionInfo resetWorkflow in
  match Snapshot.ReplicationState resetWorkflow with
  | None => Ret (Panics "nil pointer dereference")
  | Some replicationState =>
      let b :=
        batchQuery [] templateUpdateCurrentWorkflowExecutionForNewQuery
          (currentExecutionSetArgs (ExecInfo.RunID executionInfo)
             (ExecInfo.CreateRequestID executionInfo) (ExecInfo.State executionInfo)
             (ExecInfo.CloseStatus executionInfo) (RS.StartVersion replicationState)
             (RS.LastWriteVersion replicationState)
           ++ currentExecutionKeyArgs d (ExecInfo.DomainID executionInfo)
                (ExecInfo.WorkflowID executionInfo)
           ++ [ VString (ResetMSReq.PrevRunID request);
                VInt64 (ResetMSReq.PrevLastWriteVersion request);
                VInt (ResetMSReq.PrevState request) ]) in
      match applyWorkflowSnapshotBatch b resetWorkflow with
      | (_, Some err) => Ret (Returns (Some err))
      | (b, None) =>
          (* Verifies that the RangeID has not changed *)
          MapExecuteBatchCAS (b ++ [leaseQuery d (ResetMSReq.RangeID request)]) (fun r =>
            Ret (afterBatch d "ResetMutableState" (ExecInfo.RunID executionInfo)
                   (Snapshot.Condition resetWorkflow) (ResetMSReq.RangeID request)
                   (ResetMSReq.PrevRunID request) r))
      end
  end.

(** ** Task list store *)

Definition LeaseTaskList (d : cassandraPersistence) (now : Z) (request : LeaseReq.t)
  : prog (outcome (result TaskListInfo)) :=
  if decide (String.length (LeaseReq.TaskList request) = 0%nat) then
    Ret (Returns (Err (InternalServiceError
      (Sprintf "LeaseTaskList requires non empty task list" []))))
  else
  let domainID := VString (LeaseReq.DomainID request) in
  let taskList := VString (LeaseReq.TaskList request) in
  let taskType := VInt (LeaseReq.TaskType request) in
  (* the conditional write, and what follows it; [rangeID] and [ackLevel]
     are still zero when the row was not found *)
  let lease (q : query) (rangeID ackLevel : Z) :=
    QueryMapScanCAS q (fun r =>
      match r with
      | CASError err =>
          Ret (Returns (Err (busyOrInternal
                 "LeaseTaskList operation failed. Error: %v"
                 "LeaseTaskList operation failed. Error : %v" err)))
      | CASNotApplied previous =>
          Ret (Returns (Err (ConditionFailedError
            (Sprintf "leaseTaskList: taskList:%v, taskListType:%v, haveRangeID:%v, gotRangeID:%v"
               [FString (LeaseReq.TaskList request); FInt (LeaseReq.TaskType request);
                FInt rangeID; FValue (previous !! "range_id")]))))
      | CASApplied =>
          Ret (Returns (Ok
            {| tliDomainID := LeaseReq.DomainID request;
               tliName := LeaseReq.TaskList request;
               tliTaskType := LeaseReq.TaskType request;
               tliRangeID := add64 rangeID 1;
               tliAckLevel := ackLevel;
               tliKind := LeaseReq.TaskListKind request;
               tliLastUpdated := now |}))
      end) in
  QueryScan
    (Query templateGetTaskList
       [ domainID; taskList; taskType; VInt rowTypeTaskList; VInt taskListTaskID ])
    (fun r =>
       match r with
       | ScanError err =>
           if isNotFound err then (* First time task list is used *)
             lease (Query templateInsertTaskListQuery
                      [ domainID; taskList; taskType;
                        VInt rowTypeTaskList;
                        VInt taskListTaskID;
                        VInt initialRangeID;
                        domainID; taskList; taskType;
                        VInt 0;
                        VInt (LeaseReq.TaskListKind request);
                        VTime now ])
                   0 0
           else
             let a := [ FString (LeaseReq.TaskList request);
                        FInt (LeaseReq.TaskType request); FError err ] in
             let f := "LeaseTaskList operation failed. TaskList: %v, TaskType: %v, Error: %v" in
             Ret (Returns (Err (if isThrottlingError err
                                then ServiceBusyError (Sprintf f a)
                                else InternalServiceError (Sprintf f a))))
       | ScanRow rangeID tlDB =>
           (* if request.RangeID is > 0, we are trying to renew an already
              existing lease on the task list. If request.RangeID=0, we are
              trying to steal the tasklist from its current owner *)
           if decide (LeaseReq.RangeID request > 0 ∧ LeaseReq.RangeID request ≠ rangeID) then
             Ret (Returns (Err (ConditionFailedError
               (Sprintf "leaseTaskList:renew failed: taskList:%v, taskListType:%v, haveRangeID:%v, gotRangeID:%v"
                  [FString (LeaseReq.TaskList request); FInt (LeaseReq.TaskType request);
                   FInt (LeaseReq.RangeID request); FInt rangeID]))))
           else
             match mustInt64 (tlDB !! "ack_level") with
             | Panics p => Ret (Panics p)
             | Returns ackLevel =>
                 match mustInt (tlDB !! "kind") with
                 | Panics p => Ret (Panics p)
                 | Returns taskListKind =>
                     lease (Query templateUpdateTaskListQuery
                              [ VInt64 (add64 rangeID 1);
                                domainID; taskList; taskType;
                                VInt64 ackLevel;
                                VInt taskListKind;
                                VTime now;
                                domainID; taskList; taskType;
                                VInt rowTypeTaskList;
                                VInt taskListTaskID;
                                VInt64 rangeID ])
                           rangeID ackLevel
                 end
             end
       end).

(** The loop [PopulateTasks] of [GetTasks].  [task] is the map handed to
    [iter.MapScan]: it is a fresh one after each appended task, and the
    same one after a [continue]. *)
Fixpoint populateTasks (batchSize : Z) (tasks : list TaskInfo) (task : gmap string value)
    (rows : list (gmap string value)) : outcome (list TaskInfo) :=
  match rows with
  | [] => Returns tasks
  | r :: rows' =>
      let task := r ∪ task in
      match task !! "task_id" with
      | None => (* no tasks, but static column record returned *)
          populateTasks batchSize tasks task rows'
      | Some taskID =>
          m ←! mustMap (task !! "task");
          let t := createTaskInfo m in
          id ←! mustInt64 (Some taskID);
          let tasks := tasks ++ [ {| tiDecoded := t; tiTaskID := id |} ] in
          if decide (Z.of_nat (length tasks) = batchSize)
          then Returns tasks
          else populateTasks batchSize tasks ∅ rows'
      end
  end.

Definition GetTasks (d : cassandraPersistence) (request : GetTasksReq.t)
  : prog (outcome (result (list TaskInfo))) :=
  match GetTasksReq.MaxReadLevel request with
  | None =>
      Ret (Returns (Err (InternalServiceError
        (Sprintf "getTasks: both readLevel and maxReadLevel MUST be specified for cassandra persistence" []))))
  | Some maxReadLevel =>
      if decide (GetTasksReq.ReadLevel request > maxReadLevel) then
        Ret (Returns (Ok []))
      else
        (* Reading tasklist tasks need to be quorum level consistent,
           otherwise we could loose task *)
        QueryIter
          (Query templateGetTasksQuery
             [ VString (GetTasksReq.DomainID request);
               VString (GetTasksReq.TaskList request);
               VInt (GetTasksReq.TaskType request);
               VInt rowTypeTask;
               VInt64 (GetTasksReq.ReadLevel request);
               VInt64 maxReadLevel ])
          (GetTasksReq.BatchSize request)
          (fun r =>
             match r with
             | None =>
                 Ret (Returns (Err (InternalServiceError
                   (Sprintf "GetTasks operation failed.  Not able to create query iterator." []))))
             | Some iter =>
                 Ret (tasks ←! populateTasks (GetTasksReq.BatchSize request) [] ∅
                                 (iterRows iter);
                      match iterCloseErr iter with
                      | Some err =>
                          Returns (Err (InternalServiceError
                            (Sprintf "GetTasks operation failed. Error: %v" [FError err])))
                      | None => Returns (Ok tasks)
                      end)
             end)
  end.

(* CompleteTasksLessThan deletes all tasks less than or equal to the given
   task id. This API ignores the Limit request parameter i.e. either all
   tasks leq the task_id will be deleted or an error will be returned to
   the caller *)
Definition CompleteTasksLessThan (d : cassandraPersistence)
    (request : CompleteTasksLessThanRequest) : prog (Z * option error) :=
  QueryExec
    (Query templateCompleteTasksLessThanQuery
       [ VString (ctDomainID request);
         VString (ctTaskListName request);
         VInt (ctTaskType request);
         VInt rowTypeTask;
         VInt64 (ctTaskID request) ])
    (fun r =>
       match r with
       | Some err =>
           Ret (0, Some (busyOrInternal
                  "CompleteTasksLessThan operation failed. Error: %v"
                  "CompleteTasksLessThan operation failed. Error: %v" err))
       | None => Ret (UnknownNumRowsAffected, None)
       end).

End Adapter.

(** ** The backing store: lightweight transactions on one row

    Modelled from the spec: the store is a collaborator outside the
    repository, known by its contract (§6 (a), (b)): point reads and
    writes by a composite key, and a compare-and-swap on one row with an
    [IF] predicate that answers applied or not applied, with the row that
    stood in the way.  Only the four conditional statements and the read
    of the shard and task-list stores are interpreted, by the position of
    their [?]; the store answers every call (no fault, no interleaving
    between two calls of one operation). *)

Abbreviation execKey := (Z * Z * string * string * string * Z * Z)%type.
Abbreviation taskKey := (string * string * Z * Z * Z)%type.

Record store : Type := Store {
  executions : gmap execKey (gmap string value);
  tasks : gmap taskKey (gmap string value)
}.

(** A value bound to a [bigint] column is read back as an [int64]. *)
Definition bigint (v : value) : option Z :=
  match v with
  | VInt n | VInt32 n | VInt64 n => Some n
  | _ => None
  end.

Definition execKeyOf (a : list value) : option execKey :=
  match a with
  | [VInt sid; VInt ty; VString dom; VString wf; VString run; VInt64 vis; VInt64 tid] =>
      Some (sid, ty, dom, wf, run, vis, tid)
  | _ => None
  end.

Definition execKeyColumns (k : execKey) : gmap string value :=
  let '(sid, ty, dom, wf, run, vis, tid) := k in
  list_to_map
    [ ("shard_id", VInt sid); ("type", VInt ty); ("domain_id", VUUID dom);
      ("workflow_id", VString wf); ("run_id", VUUID run); ("visibility_ts", VTime vis);
      ("task_id", VInt64 tid) ].

Definition taskKeyOf (a : list value) : option taskKey :=
  match a with
  | [VString dom; VString name; VInt ttype; VInt ty; VInt tid] =>
      Some (dom, name, ttype, ty, tid)
  | _ => None
  end.

Definition taskKeyColumns (k : taskKey) : gmap string value :=
  let '(dom, name, ttype, ty, tid) := k in
  list_to_map
    [ ("domain_id", VUUID dom); ("task_list_name", VString name);
      ("task_list_type", VInt ttype); ("type", VInt ty); ("task_id", VInt64 tid) ].

(** The fields of [templateShardType] and of [templateTaskListType]. *)
Definition shardTypeFields : list string :=
  [ "shard_id"; "owner"; "range_id"; "stolen_since_renew"; "updated_at";
    "replication_ack_level"; "transfer_ack_level"; "timer_ack_level";
    "cluster_transfer_ack_level"; "cluster_timer_ack_level";
    "domain_notification_version" ].

Definition shardUDT (a : list value) : option value :=
  if decide (length a = length shardTypeFields)
  then Some (VMap (list_to_map (zip shardTypeFields a)))
  else None.

Definition taskListUDT (a : list value) : option value :=
  match a with
  | [VString dom; VString name; VInt ttype; ack; VInt kind; upd] =>
      ackLevel ← bigint ack;
      Some (VMap (list_to_map
        [ ("domain_id", VUUID dom); ("name", VString name); ("type", VInt ttype);
          ("ack_level", VInt64 ackLevel); ("kind", VInt kind); ("last_updated", upd) ]))
  | _ => None
  end.

(** [INSERT ... IF NOT EXISTS]. *)
Definition insertIfNotExists {K : Type} `{Countable K} (t : gmap K (gmap string value))
    (k : K) (r : gmap string value) : gmap K (gmap string value) * casResult :=
  match t !! k with
  | Some old => (t, CASNotApplied old)
  | None => (<[k := r]> t, CASApplied)
  end.

(** [UPDATE ... SET sets WHERE key IF range_id = expected]. *)
Definition updateIfRangeID {K : Type} `{Countable K} (t : gmap K (gmap string value))
    (k : K) (expected : Z) (sets : gmap string value)
  : gmap K (gmap string value) * casResult :=
  match t !! k with
  | Some old =>
      if decide (asInt64 (old !! "range_id") = Some expected)
      then (<[k := sets ∪ old]> t, CASApplied)
      else (t, CASNotApplied
                 (match old !! "range_id" with
                  | Some v => {[ "range_id" := v ]}
                  | None => ∅
                  end))
  | None => (t, CASNotApplied ∅)
  end.

Definition storeMapScanCAS (st : store) (q : query) : option (store * casResult) :=
  let a := args q in
  if decide (stmt q = templateCreateShardQuery) then
    k ← execKeyOf (take 7 a);
    shard ← shardUDT (take 11 (drop 7 a));
    rangeID ← (match drop 18 a with [v] => bigint v | _ => None end);
    let '(t, r) :=
      insertIfNotExists (executions st) k
        (<["shard" := shard]> (<["range_id" := VInt64 rangeID]> (execKeyColumns k))) in
    Some (Store t (tasks st), r)
  else if decide (stmt q = templateUpdateShardQuery) then
    shard ← shardUDT (take 11 a);
    rangeID ← (drop 11 a !! 0%nat) ≫= bigint;
    k ← execKeyOf (take 7 (drop 12 a));
    expected ← (match drop 19 a with [v] => bigint v | _ => None end);
    let '(t, r) :=
      updateIfRangeID (executions st) k expected
        (<["shard" := shard]> {[ "range_id" := VInt64 rangeID ]}) in
    Some (Store t (tasks st), r)
  else if decide (stmt q = templateInsertTaskListQuery) then
    k ← taskKeyOf (take 5 a);
    rangeID ← (drop 5 a !! 0%nat) ≫= bigint;
    taskList ← taskListUDT (drop 6 a);
    let '(t, r) :=
      insertIfNotExists (tasks st) k
        (<["task_list" := taskList]> (<["range_id" := VInt64 rangeID]> (taskKeyColumns k))) in
    Some (Store (executions st) t, r)
  else if decide (stmt q = templateUpdateTaskListQuery) then
    rangeID ← (a !! 0%nat) ≫= bigint;
    taskList ← taskListUDT (take 6 (drop 1 a));
    k ← taskKeyOf (take 5 (drop 7 a));
    expected ← (match drop 12 a with [v] => bigint v | _ => None end);
    let '(t, r) :=
      updateIfRangeID (tasks st) k expected
        (<["task_list" := taskList]> {[ "range_id" := VInt64 rangeID ]}) in
    Some (Store (executions st) t, r)
  else None.

Definition errNotFound : gocqlError := GocqlError "not found" true false false.

(** [SELECT range_id, task_list FROM tasks WHERE key]. *)
Definition storeScan (st : store) (q : query) : option scanResult :=
  if decide (stmt q = templateGetTaskList) then
    k ← taskKeyOf (args q);
    match tasks st !! k with
    | None => Some (ScanError errNotFound)
    | Some r =>
        rangeID ← asInt64 (r !! "range_id");
        tlDB ← asMap (r !! "task_list");
        Some (ScanRow rangeID tlDB)
    end
  else None.

(** A run of a program against the store. *)
Fixpoint runStore {A : Type} (st : store) (p : prog A) : option (store * A) :=
  match p with
  | Ret a => Some (st, a)
  | QueryMapScanCAS q k => '(st', r) ← storeMapScanCAS st q; runStore st' (k r)
  | QueryScan q k => r ← storeScan st q; runStore st (k r)
  | _ => None
  end.

(** The keys of the shard row and of the task-list row. *)
Definition shardKey `{Collaborators} (sid : Z) : execKey :=
  (sid, rowTypeShard, rowTypeShardDomainID, rowTypeShardWorkflowID, rowTypeShardRunID,
   defaultVisibilityTimestamp, rowTypeShardTaskID).

Definition taskListKey (request : LeaseReq.t) : taskKey :=
  (LeaseReq.DomainID request, LeaseReq.TaskList request, LeaseReq.TaskType request,
   rowTypeTaskList, taskListTaskID).

(** The range token a row holds. *)
Definition storedRangeID (r : option (gmap string value)) : option Z :=
  r ≫= fun r => asInt64 (r !! "range_id").

(** The [shard] value bound by [CreateShard] and [UpdateShard]: the
    fields of the user-defined type, in the order of the template. *)
Definition shardValue `{Collaborators} (now : Z) (shardInfo : ShardInfo.t) : value :=
  VMap (list_to_map (zip shardTypeFields
    [ VInt (ShardInfo.ShardID shardInfo);
      VString (ShardInfo.Owner shardInfo);
      VInt64 (ShardInfo.RangeID shardInfo);
      ShardInfo.StolenSinceRenew shardInfo;
      VInt64 (UnixNanoToDBTimestamp now);
      ShardInfo.ReplicationAckLevel shardInfo;
      ShardInfo.TransferAckLevel shardInfo;
      ShardInfo.TimerAckLevel shardInfo;
      ShardInfo.ClusterTransferAckLevel shardInfo;
      ShardInfo.ClusterTimerAckLevel shardInfo;
      ShardInfo.DomainNotificationVersion shardInfo ])).

(** The [task_list] value bound by [LeaseTaskList]. *)
Definition taskListValue (request : LeaseReq.t) (ackLevel kind now : Z) : value :=
  VMap (list_to_map
    [ ("domain_id", VUUID (LeaseReq.DomainID request));
      ("name", VString (LeaseReq.TaskList request));
      ("type", VInt (LeaseReq.TaskType request));
      ("ack_level", VInt64 ackLevel); ("kind", VInt kind); ("last_updated", VTime now) ]).

(** ** A concrete choice of the collaborators

    The constants in the order of their [iota] blocks, helpers that add
    one statement per task or info and never fail, and a validation that
    rejects a completed state or a close status other than none.  It is
    used to run the definitions on concrete requests. *)

Definition sampleTaskInsert (table : string) (v : value) : query :=
  Query ("INSERT INTO executions (" +:+ table +:+ ") VALUES(?)") [v].

Program Definition sampleCollaborators : Collaborators := {|
  CreateWorkflowModeBrandNew := 0;
  CreateWorkflowModeWorkflowIDReuse := 1;
  CreateWorkflowModeContinueAsNew := 2;
  CreateWorkflowModeZombie := 3;
  WorkflowStateCreated := 0;
  WorkflowStateRunning := 1;
  WorkflowStateCompleted := 2;
  WorkflowStateZombie := 3;
  WorkflowCloseStatusNone := 0;
  EmptyVersion := -24;
  EmptyEventID := -23;
  FirstEventID := 1;
  UnknownNumRowsAffected := -1;
  UnixNanoToDBTimestamp := fun t => t `div` 1000000;
  ValidateCreateWorkflowStateCloseStatus := fun state closeStatus =>
    if decide (state = 2 ∨ closeStatus ≠ 0)
    then Some (InternalServiceError
           (Sprintf "Create workflow with invalid state: %v or close status: %v"
              [FInt state; FInt closeStatus]))
    else None;
  FromDataBlob := fun b =>
    match b with
    | Some blob => (Data blob, Encoding blob)
    | None => (VNil, VString "")
    end;
  createReplicationInfoMap := fun v => {[ "version" := v ]};
  createWorkflowExecutionInfo := fun m =>
    {| ExecInfo.DomainID := ""; ExecInfo.WorkflowID := "";
       ExecInfo.RunID := default "" (asUUID (m !! "run_id"));
       ExecInfo.ParentDomainID := ""; ExecInfo.ParentWorkflowID := "";
       ExecInfo.ParentRunID := ""; ExecInfo.InitiatedID := VNil;
       ExecInfo.CompletionEventBatchID := VNil; ExecInfo.CompletionEvent := None;
       ExecInfo.TaskList := VNil; ExecInfo.WorkflowTypeName := VNil;
       ExecInfo.WorkflowTimeout := VNil; ExecInfo.DecisionTimeoutValue := VNil;
       ExecInfo.ExecutionContext := VNil;
       ExecInfo.State := default 0 (asInt (m !! "state"));
       ExecInfo.CloseStatus := default 0 (asInt (m !! "close_status"));
       ExecInfo.LastFirstEventID := VNil; ExecInfo.LastEventTaskID := VNil;
       ExecInfo.NextEventID := 0; ExecInfo.LastProcessedEvent := VNil;
       ExecInfo.StartTimestamp := VNil;
       ExecInfo.CreateRequestID := default "" (asUUID (m !! "create_request_id"));
       ExecInfo.SignalCount := VNil; ExecInfo.HistorySize := VNil;
       ExecInfo.DecisionVersion := VNil; ExecInfo.DecisionScheduleID := VNil;
       ExecInfo.DecisionStartedID := VNil; ExecInfo.DecisionRequestID := VNil;
       ExecInfo.DecisionTimeout := VNil; ExecInfo.DecisionAttempt := VNil;
       ExecInfo.DecisionStartedTimestamp := VNil;
       ExecInfo.DecisionScheduledTimestamp := VNil;
       ExecInfo.CancelRequested := VNil; ExecInfo.CancelRequestID := VNil;
       ExecInfo.StickyTaskList := VNil; ExecInfo.StickyScheduleToStartTimeout := VNil;
       ExecInfo.ClientLibraryVersion := VNil; ExecInfo.ClientFeatureVersion := VNil;
       ExecInfo.ClientImpl := VNil; ExecInfo.AutoResetPoints := None;
       ExecInfo.Attempt := VNil; ExecInfo.HasRetryPolicy := VNil;
       ExecInfo.InitialInterval := VNil; ExecInfo.BackoffCoefficient := VNil;
       ExecInfo.MaximumInterval := VNil; ExecInfo.ExpirationTime := VNil;
       ExecInfo.MaximumAttempts := VNil; ExecInfo.NonRetriableErrors := VNil;
       ExecInfo.EventStoreVersion := VNil; ExecInfo.BranchToken := VNil;
       ExecInfo.CronSchedule := VNil; ExecInfo.ExpirationSeconds := VNil;
       ExecInfo.SearchAttributes := VNil |};
  createReplicationState := fun m =>
    {| RS.CurrentVersion := default 0 (asInt64 (m !! "current_version"));
       RS.StartVersion := default 0 (asInt64 (m !! "start_version"));
       RS.LastWriteVersion := default 0 (asInt64 (m !! "last_write_version"));
       RS.LastWriteEventID := default 0 (asInt64 (m !! "last_write_event_id"));
       RS.LastReplicationInfo := ∅ |};
  createTaskInfo := fun m => VMap m;
  createTransferTasks := fun b ts _ _ _ => b ++ (sampleTaskInsert "transfer" <$> ts);
  createReplicationTasks := fun b ts _ _ _ => b ++ (sampleTaskInsert "replication" <$> ts);
  createTimerTasks := fun b ts _ _ _ _ => b ++ (sampleTaskInsert "timer" <$> ts);
  resetActivityInfos := fun b xs _ _ _ _ _ => (b ++ (sampleTaskInsert "activity_map" <$> xs), None);
  resetTimerInfos := fun b xs _ _ _ _ _ => b ++ (sampleTaskInsert "timer_map" <$> xs);
  resetRequestCancelInfos := fun b xs _ _ _ _ _ =>
    b ++ (sampleTaskInsert "request_cancel_map" <$> xs);
  resetChildExecutionInfos := fun b xs _ _ _ _ _ =>
    (b ++ (sampleTaskInsert "child_executions_map" <$> xs), None);
  resetSignalInfos := fun b xs _ _ _ _ _ => b ++ (sampleTaskInsert "signal_map" <$> xs);
  resetSignalRequested := fun b xs _ _ _ _ _ =>
    b ++ ((fun s => sampleTaskInsert "signal_requested" (VString s)) <$> xs);
  applyWorkflowMutationBatch := fun b m =>
    (b ++ [sampleTaskInsert "mutation" (Mutation.Rest m)], None);
  applyWorkflowSnapshotBatch := fun b s =>
    (b ++ (sampleTaskInsert "activity_map" <$> Snapshot.ActivityInfos s), None)
|}.
Next Obligation. compute_done. Qed.
Next Obligation. compute_done. Qed.

(** ** Concrete requests and rows *)

Definition sampleStore : cassandraPersistence :=
  {| shardID := 3; currentClusterName := "active" |}.

Definition sampleGetTasksRequest (batchSize : Z) : GetTasksReq.t :=
  {| GetTasksReq.DomainID := "d0000000-0000-4000-8000-000000000001";
     GetTasksReq.TaskList := "orders";
     GetTasksReq.TaskType := 0;
     GetTasksReq.ReadLevel := 0;
     GetTasksReq.MaxReadLevel := Some 3;
     GetTasksReq.BatchSize := batchSize |}.

Definition sampleTaskRow (taskID : Z) : gmap string value :=
  {[ "task_id" := VInt64 taskID;
     "task" := VMap {[ "schedule_id" := VInt64 taskID ]} ]}.

Definition sampleCompleteRequest : CompleteTasksLessThanRequest :=
  {| ctDomainID := "d0000000-0000-4000-8000-000000000001";
     ctTaskListName := "orders";
     ctTaskType := 0;
     ctTaskID := 2;
     ctLimit := 10 |}.

Definition sampleExecution : WorkflowExecution :=
  {| WorkflowId := Some "order-42"; RunId := Some "a0000000-0000-4000-8000-00000000000a" |}.

Definition sampleBlob : DataBlob := {| Encoding := VString "thriftrw"; Data := VBytes [] |}.

Definition sampleReplicationState : RS.ReplicationState :=
  {| RS.CurrentVersion := 10; RS.StartVersion := 10; RS.LastWriteVersion := 10;
     RS.LastWriteEventID := 4; RS.LastReplicationInfo := ∅ |}.

(** A create request for the run [a0..0a] of workflow [order-42], holding
    range token 5 and naming [b0..0b] as the previous run. *)
Definition sampleCreateRequest (mode state : Z)
    (replicationState : option RS.ReplicationState) : CreateReq.t :=
  {| CreateReq.RequestID := "c0000000-0000-4000-8000-00000000000c";
     CreateReq.DomainID := "d0000000-0000-4000-8000-000000000001";
     CreateReq.Execution := sampleExecution;
     CreateReq.ParentDomainID := "";
     CreateReq.ParentExecution := {| WorkflowId := None; RunId := None |};
     CreateReq.InitiatedID := 0;
     CreateReq.TaskList := VString "orders";
     CreateReq.WorkflowTypeName := VString "OrderWorkflow";
     CreateReq.WorkflowTimeout := VInt32 60;
     CreateReq.DecisionTimeoutValue := VInt32 10;
     CreateReq.ExecutionContext := VNil;
     CreateReq.LastEventTaskID := VInt64 0;
     CreateReq.NextEventID := 3;
     CreateReq.LastProcessedEvent := VInt64 0;
     CreateReq.SignalCount := VInt32 0;
     CreateReq.HistorySize := VInt64 0;
     CreateReq.TransferTasks := [VString "decision"];
     CreateReq.ReplicationTasks := [];
     CreateReq.TimerTasks := [];
     CreateReq.RangeID := 5;
     CreateReq.DecisionVersion := VInt64 0;
     CreateReq.DecisionScheduleID := VInt64 2;
     CreateReq.DecisionStartedID := VInt64 0;
     CreateReq.DecisionStartToCloseTimeout := VInt32 10;
     CreateReq.State := state;
     CreateReq.CloseStatus := 0;
     CreateReq.CreateWorkflowMode := mode;
     CreateReq.PreviousRunID := "b0000000-0000-4000-8000-00000000000b";
     CreateReq.PreviousLastWriteVersion := 10;
     CreateReq.ReplicationState := replicationState;
     CreateReq.VersionHistories := None;
     CreateReq.Attempt := VInt32 0;
     CreateReq.HasRetryPolicy := VBool false;
     CreateReq.InitialInterval := VInt32 0;
     CreateReq.BackoffCoefficient := VNil;
     CreateReq.MaximumInterval := VInt32 0;
     CreateReq.ExpirationTime := VTime 0;
     CreateReq.MaximumAttempts := VInt32 0;
     CreateReq.NonRetriableErrors := VNil;
     CreateReq.PreviousAutoResetPoints := Some sampleBlob;
     CreateReq.EventStoreVersion := VInt32 2;
     CreateReq.BranchToken := VBytes [];
     CreateReq.CronSchedule := VString "";
     CreateReq.ExpirationSeconds := VInt32 0;
     CreateReq.SearchAttributes := VNil |}.

Definition sampleExecutionInfo (runID : string) (state : Z) : ExecInfo.t :=
  {| ExecInfo.DomainID := "d0000000-0000-4000-8000-000000000001";
     ExecInfo.WorkflowID := "order-42";
     ExecInfo.RunID := runID;
     ExecInfo.ParentDomainID := ""; ExecInfo.ParentWorkflowID := "";
     ExecInfo.ParentRunID := ""; ExecInfo.InitiatedID := VInt64 (-7);
     ExecInfo.CompletionEventBatchID := VInt64 0; ExecInfo.CompletionEvent := None;
     ExecInfo.TaskList := VString "orders";
     ExecInfo.WorkflowTypeName := VString "OrderWorkflow";
     ExecInfo.WorkflowTimeout := VInt32 60; ExecInfo.DecisionTimeoutValue := VInt32 10;
     ExecInfo.ExecutionContext := VNil;
     ExecInfo.State := state;
     ExecInfo.CloseStatus := 0;
     ExecInfo.LastFirstEventID := VInt64 1; ExecInfo.LastEventTaskID := VInt64 0;
     ExecInfo.NextEventID := 8; ExecInfo.LastProcessedEvent := VInt64 0;
     ExecInfo.StartTimestamp := VTime 0;
     ExecInfo.CreateRequestID := "c0000000-0000-4000-8000-00000000000c";
     ExecInfo.SignalCount := VInt32 0; ExecInfo.HistorySize := VInt64 0;
     ExecInfo.DecisionVersion := VInt64 0; ExecInfo.DecisionScheduleID := VInt64 2;
     ExecInfo.DecisionStartedID := VInt64 0; ExecInfo.DecisionRequestID := VString "";
     ExecInfo.DecisionTimeout := VInt32 10; ExecInfo.DecisionAttempt := VInt64 0;
     ExecInfo.DecisionStartedTimestamp := VInt64 0;
     ExecInfo.DecisionScheduledTimestamp := VInt64 0;
     ExecInfo.CancelRequested := VBool false; ExecInfo.CancelRequestID := VString "";
     ExecInfo.StickyTaskList := VString ""; ExecInfo.StickyScheduleToStartTimeout := VInt32 0;
     ExecInfo.ClientLibraryVersion := VString ""; ExecInfo.ClientFeatureVersion := VString "";
     ExecInfo.ClientImpl := VString ""; ExecInfo.AutoResetPoints := Some sampleBlob;
     ExecInfo.Attempt := VInt32 0; ExecInfo.HasRetryPolicy := VBool false;
     ExecInfo.InitialInterval := VInt32 0; ExecInfo.BackoffCoefficient := VNil;
     ExecInfo.MaximumInterval := VInt32 0; ExecInfo.ExpirationTime := VTime 0;
     ExecInfo.MaximumAttempts := VInt32 0; ExecInfo.NonRetriableErrors := VNil;
     ExecInfo.EventStoreVersion := VInt32 2; ExecInfo.BranchToken := VBytes [];
     ExecInfo.CronSchedule := VString ""; ExecInfo.ExpirationSeconds := VInt32 0;
     ExecInfo.SearchAttributes := VNil |}.

Definition sampleRunA : string := "a0000000-0000-4000-8000-00000000000a".
Definition sampleRunB : string := "b0000000-0000-4000-8000-00000000000b".
Definition sampleRunE : string := "e0000000-0000-4000-8000-00000000000e".

(** An update of the running run [a0..0a] at next event id 8, range
    token 5. *)
Definition sampleUpdateRequest : UpdateReq.t :=
  {| UpdateReq.RangeID := 5;
     UpdateReq.UpdateWorkflowMutation :=
       {| Mutation.ExecutionInfo := sampleExecutionInfo sampleRunA 1;
          Mutation.ReplicationState := None;
          Mutation.Condition := 8;
          Mutation.Rest := VNil |};
     UpdateReq.ContinueAsNew := None |}.

(** A reset that forks the new run [e0..0e] from the run [baseRunID] while
    [b0..0b] is the current run. *)
Definition sampleResetRequest (baseRunID : string) (updateCurr : bool) : ResetReq.t :=
  {| ResetReq.PrevRunVersion := 10;
     ResetReq.PrevRunState := 2;
     ResetReq.Condition := 8;
     ResetReq.RangeID := 5;
     ResetReq.BaseRunID := baseRunID;
     ResetReq.BaseRunNextEventID := 12;
     ResetReq.CurrExecutionInfo := sampleExecutionInfo sampleRunB 2;
     ResetReq.CurrReplicationState := None;
     ResetReq.CurrVersionHistories := None;
     ResetReq.CurrReplicationTasks := [];
     ResetReq.CurrTransferTasks := [];
     ResetReq.CurrTimerTasks := [];
     ResetReq.UpdateCurr := updateCurr;
     ResetReq.NewWorkflowSnapshot :=
       {| Snapshot.ExecutionInfo := sampleExecutionInfo sampleRunE 1;
          Snapshot.ReplicationState := None;
          Snapshot.VersionHistories := None;
          Snapshot.Condition := 0;
          Snapshot.ActivityInfos := [VString "activity-5"];
          Snapshot.TimerInfos := [];
          Snapshot.ChildExecutionInfos := [];
          Snapshot.RequestCancelInfos := [];
          Snapshot.SignalInfos := [];
          Snapshot.SignalRequestedIDs := [];
          Snapshot.TransferTasks := [VString "decision"];
          Snapshot.ReplicationTasks := [];
          Snapshot.TimerTasks := [] |} |}.

Definition sampleOverloaded : gocqlError := GocqlError "overloaded" false false true.

(** The batch built for a request, or the empty batch when none is. *)
Definition createBatchOf (request : CreateReq.t) : list query :=
  match createWorkflowExecutionBatch (C := sampleCollaborators) sampleStore 0 request with
  | Returns (_, b, _) => b
  | Panics _ => []
  end.

(** ** Predicates used in the statements *)

(** A statement that inserts or updates the current-execution row: one
    built from the three templates that write [current_run_id]. *)
Definition writesCurrentExecution (q : query) : Prop :=
  stmt q ∈ [ templateUpdateCurrentWorkflowExecutionQuery;
             templateUpdateCurrentWorkflowExecutionForNewQuery;
             templateCreateCurrentWorkflowExecutionQuery ].

(** The task helpers of the create path keep a property of the entries of
    the batch they are handed. *)
Definition taskHelpersKeep `{Collaborators} (P : query → Prop) : Prop :=
  (∀ b ts dom w r, Forall P b → Forall P (createTransferTasks b ts dom w r))
  ∧ (∀ b ts dom w r, Forall P b → Forall P (createReplicationTasks b ts dom w r))
  ∧ (∀ b ts dom w r now, Forall P b → Forall P (createTimerTasks b ts dom w r now)).

(** The helpers used by the reset path only add statements, the same
    whatever the batch already holds. *)
Definition resetHelpersAppend `{Collaborators} : Prop :=
  (∀ b ts dom w r, createTransferTasks b ts dom w r = b ++ createTransferTasks [] ts dom w r)
  ∧ (∀ b ts dom w r,
       createReplicationTasks b ts dom w r = b ++ createReplicationTasks [] ts dom w r)
  ∧ (∀ b ts dom w r now,
       createTimerTasks b ts dom w r now = b ++ createTimerTasks [] ts dom w r now)
  ∧ (∀ b xs dom w r u c,
       resetActivityInfos b xs dom w r u c
       = (b ++ (resetActivityInfos [] xs dom w r u c).1,
          (resetActivityInfos [] xs dom w r u c).2))
  ∧ (∀ b xs dom w r u c,
       resetTimerInfos b xs dom w r u c = b ++ resetTimerInfos [] xs dom w r u c)
  ∧ (∀ b xs dom w r u c,
       resetRequestCancelInfos b xs dom w r u c
       = b ++ resetRequestCancelInfos [] xs dom w r u c)
  ∧ (∀ b xs dom w r u c,
       resetChildExecutionInfos b xs dom w r u c
       = (b ++ (resetChildExecutionInfos [] xs dom w r u c).1,
          (resetChildExecutionInfos [] xs dom w r u c).2))
  ∧ (∀ b xs dom w r u c,
       resetSignalInfos b xs dom w r u c = b ++ resetSignalInfos [] xs dom w r u c)
  ∧ (∀ b xs dom w r u c,
       resetSignalRequested b xs dom w r u c = b ++ resetSignalRequested [] xs dom w r u c).

(** The reset request with another fork point. *)
Definition setBaseRun (request : ResetReq.t) (baseRunID : string) (baseRunNextEventID : Z)
  : ResetReq.t :=
  {| ResetReq.PrevRunVersion := ResetReq.PrevRunVersion request;
     ResetReq.PrevRunState := ResetReq.PrevRunState request;
     ResetReq.Condition := ResetReq.Condition request;
     ResetReq.RangeID := ResetReq.RangeID request;
     ResetReq.BaseRunID := baseRunID;
     ResetReq.BaseRunNextEventID := baseRunNextEventID;
     ResetReq.CurrExecutionInfo := ResetReq.CurrExecutionInfo request;
     ResetReq.CurrReplicationState := ResetReq.CurrReplicationState request;
     ResetReq.CurrVersionHistories := ResetReq.CurrVersionHistories request;
     ResetReq.CurrReplicationTasks := ResetReq.CurrReplicationTasks request;
     ResetReq.CurrTransferTasks := ResetReq.CurrTransferTasks request;
     ResetReq.CurrTimerTasks := ResetReq.CurrTimerTasks request;
     ResetReq.UpdateCurr := ResetReq.UpdateCurr request;
     ResetReq.NewWorkflowSnapshot := ResetReq.NewWorkflowSnapshot request |}.

(** Modelled from the spec: the effect on a row of a statement
    [UPDATE ... SET next_event_id = ? WHERE key IF next_event_id = ?]
    under the store's contract (§6 (b)): the first value bound is written
    when the last one equals the stored [next_event_id]; otherwise the
    statement is not applied. *)
Definition applyCheckWorkflowExecution (r : gmap string value) (q : query)
  : option (gmap string value) :=
  written ← head (args q) ≫= bigint;
  expected ← last (args q) ≫= bigint;
  if decide (asInt64 (r !! "next_event_id") = Some expected)
  then Some (<["next_event_id" := VInt64 written]> r)
  else None.

Definition resetBatchOf (request : ResetReq.t) : list query :=
  match resetWorkflowExecutionBatch (C := sampleCollaborators) sampleStore 0 request with
  | Returns (b, _) => b
  | Panics _ => []
  end.

(** ** The classification of a rejected batch in the words of the specification (§4.4)

    The second definition of the refinement: the three predicates on a
    returned row and the priority among them, to be compared with
    [getExecutionConditionalUpdateFailure]. *)

(** A row tagged as the shard type whose token is not the expected one. *)
Definition shardTokenDiffers (requestRangeID : Z) (r : gmap string value) : bool :=
  bool_decide (asInt (r !! "type") = Some rowTypeShard)
  && from_option (λ n, bool_decide (n ≠ requestRangeID)) false (asInt64 (r !! "range_id")).

(** The row of the current-execution marker. *)
Definition isCurrentMarker (r : gmap string value) : bool :=
  bool_decide (asInt (r !! "type") = Some rowTypeExecution)
  && bool_decide (asUUID (r !! "run_id") = Some permanentRunID).

(** The marker row whose [current_run_id] is not the expected run id. *)
Definition currentRunDiffers (expectedRunID : string) (r : gmap string value) : bool :=
  isCurrentMarker r
  && from_option (λ s, bool_decide (s ≠ expectedRunID)) false
       (asUUID (r !! "current_run_id")).

(** The row of the target run whose [next_event_id] is not the caller's
    condition. *)
Definition nextEventIDDiffers (runID : string) (condition : Z) (r : gmap string value)
  : bool :=
  bool_decide (asInt (r !! "type") = Some rowTypeExecution)
  && bool_decide (asUUID (r !! "run_id") = Some runID)
  && from_option (λ n, bool_decide (n ≠ condition)) false (asInt64 (r !! "next_event_id")).

Inductive classification : Type :=
| ClassShardOwnershipLost
| ClassCurrentWorkflowConditionFailed
| ClassConditionFailed
| ClassCatchAll (columns : list (gmap string value)).

Definition classifyBySpec (requestRunID : string) (requestCondition requestRangeID : Z)
    (requestConditionalRunID : string) (rows : list (gmap string value)) : classification :=
  if existsb (shardTokenDiffers requestRangeID) rows then ClassShardOwnershipLost
  else if existsb (currentRunDiffers requestConditionalRunID) rows
  then ClassCurrentWorkflowConditionFailed
  else if existsb (nextEventIDDiffers requestRunID requestCondition) rows
  then ClassConditionFailed
  else ClassCatchAll rows.

Definition kindOfClassification (c : classification) : errorKind :=
  match c with
  | ClassShardOwnershipLost => KShardOwnershipLost
  | ClassCurrentWorkflowConditionFailed => KCurrentWorkflowConditionFailed
  | ClassConditionFailed | ClassCatchAll _ => KConditionFailed
  end.

(** The columns an error message carries. *)
Definition columnsOf (e : error) : list (list (gmap string value)) :=
  omap (λ a, match a with FColumns rows => Some rows | _ => None end) (fargs (messageOf e)).

(** A returned row as the store hands it back for an execution batch: it
    has its integer type tag and its run id, and the marker row has its
    [current_run_id]. *)
Definition wellFormedRow (r : gmap string value) : Prop :=
  is_Some (asInt (r !! "type"))
  ∧ is_Some (asUUID (r !! "run_id"))
  ∧ (isCurrentMarker r = true → is_Some (asUUID (r !! "current_run_id"))).

(** The same for the create path, which reads the [execution] column of
    the marker row first, and [replication_state] with it when the request
    has a replication state. *)
Definition wellFormedCreateRow (request : CreateReq.t) (r : gmap string value) : Prop :=
  is_Some (asInt (r !! "type"))
  ∧ is_Some (asUUID (r !! "run_id"))
  ∧ (isCurrentMarker r = true →
     (is_Some (asMap (r !! "execution"))
      ∧ (is_Some (CreateReq.ReplicationState request) →
         is_Some (asMap (r !! "replication_state"))))
     ∨ (asMap (r !! "execution") = None ∧ is_Some (asUUID (r !! "current_run_id")))).

(** The rows at which the loop of the create path returns: a shard row
    with another token, or the marker row. *)
Definition createDecides (request : CreateReq.t) (r : gmap string value) : bool :=
  shardTokenDiffers (CreateReq.RangeID request) r || isCurrentMarker r.

(** What the create path answers at the marker row. *)
Definition markerKind (request : CreateReq.t) (r : gmap string value) : errorKind :=
  match asMap (r !! "execution") with
  | Some _ => KWorkflowExecutionAlreadyStarted
  | None =>
      if currentRunDiffers (GetRunId (CreateReq.Execution request)) r
      then KCurrentWorkflowConditionFailed
      else KConditionFailed
  end.

(** The kind of the error of the create path, from the first row that
    decides. *)
Definition createKind (request : CreateReq.t) (rows : list (gmap string value)) : errorKind :=
  match find (createDecides request) rows with
  | None => KShardOwnershipLost
  | Some r =>
      if shardTokenDiffers (CreateReq.RangeID request) r
      then KShardOwnershipLost
      else markerKind request r
  end.

(** Returned rows. *)
Definition sampleShardRow (rangeID : Z) : gmap string value :=
  {[ "type" := VInt 0; "run_id" := VUUID rowTypeShardRunID; "range_id" := VInt64 rangeID ]}.

Definition sampleExecutionRow (runID : string) (nextEventID : Z) : gmap string value :=
  {[ "type" := VInt 1; "run_id" := VUUID runID; "next_event_id" := VInt64 nextEventID ]}.

Definition sampleMarkerRow (currentRunID : string) : gmap string value :=
  {[ "type" := VInt 1; "run_id" := VUUID permanentRunID;
     "current_run_id" := VUUID currentRunID ]}.

(** ** Concrete stores *)

Definition emptyStore : store := Store ∅ ∅.

Definition sampleShardInfo (owner : string) (rangeID : Z) : ShardInfo.t :=
  {| ShardInfo.ShardID := 3;
     ShardInfo.Owner := owner;
     ShardInfo.RangeID := rangeID;
     ShardInfo.StolenSinceRenew := VInt 0;
     ShardInfo.ReplicationAckLevel := VInt64 0;
     ShardInfo.TransferAckLevel := VInt64 0;
     ShardInfo.TimerAckLevel := VTime 0;
     ShardInfo.ClusterTransferAckLevel := VMap ∅;
     ShardInfo.ClusterTimerAckLevel := VMap ∅;
     ShardInfo.DomainNotificationVersion := VInt64 0 |}.

(** The store after [CreateShard] has written shard 3 for [owner] with
    the range token [rangeID]. *)
Definition storeWithShard (owner : string) (rangeID : Z) : store :=
  match runStore emptyStore
          (CreateShard (C := sampleCollaborators) sampleStore 0
             {| csShardInfo := sampleShardInfo owner rangeID |}) with
  | Some (st, _) => st
  | None => emptyStore
  end.

Definition sampleLeaseRequest (rangeID : Z) : LeaseReq.t :=
  {| LeaseReq.DomainID := "d0000000-0000-4000-8000-000000000001";
     LeaseReq.TaskList := "orders";
     LeaseReq.TaskType := 0;
     LeaseReq.TaskListKind := 0;
     LeaseReq.RangeID := rangeID |}.

(** The store after a first [LeaseTaskList] of the list [orders]. *)
Definition storeWithTaskList : store :=
  match runStore emptyStore
          (LeaseTaskList sampleStore 0 (sampleLeaseRequest 0)) with
  | Some (st, _) => st
  | None => emptyStore
  end.

(** * The other calls of the adapter *)

(** The kind of the error for a failed batch of the execution store: a
    timeout wins over throttling. *)
Definition batchErrorKind (err : gocqlError) : errorKind :=
  if isTimeoutError err then KTimeout
  else if isThrottlingError err then KServiceBusy
  else KInternalService.

(** ** More reserved identifiers and statement templates *)

Definition rowTypeTransferDomainID : string := "10000000-3000-f000-f000-000000000000".
Definition rowTypeTransferWorkflowID : string := "20000000-3000-f000-f000-000000000000".
Definition rowTypeTransferRunID : string := "30000000-3000-f000-f000-000000000000".
Definition rowTypeTimerDomainID : string := "10000000-4000-f000-f000-000000000000".
Definition rowTypeTimerWorkflowID : string := "20000000-4000-f000-f000-000000000000".
Definition rowTypeTimerRunID : string := "30000000-4000-f000-f000-000000000000".
Definition rowTypeReplicationDomainID : string := "10000000-5000-f000-f000-000000000000".
Definition rowTypeReplicationWorkflowID : string := "20000000-5000-f000-f000-000000000000".
Definition rowTypeReplicationRunID : string := "30000000-5000-f000-f000-000000000000".

(* int32(24 * time.Hour / time.Second): if sticky task_list stopped being
   updated, remove it in one day *)
Definition stickyTaskListTTL : Z := 24 * 3600.

Definition templateTaskType : string :=
  "{domain_id: ?, workflow_id: ?, run_id: ?, schedule_id: ?,created_time: ? }".

Definition templateDeleteWorkflowExecutionMutableStateQuery : string :=
  "DELETE FROM executions WHERE shard_id = ? and type = ? and domain_id = ? and "
  +:+ "workflow_id = ? and run_id = ? and visibility_ts = ? and task_id = ? ".

Definition templateDeleteWorkflowExecutionCurrentRowQuery : string :=
  templateDeleteWorkflowExecutionMutableStateQuery
  +:+ " if current_run_id = ? ".

Definition templateGetTransferTasksQuery : string :=
  "SELECT transfer FROM executions WHERE shard_id = ? and type = ? and domain_id = ? "
  +:+ "and workflow_id = ? and run_id = ? and visibility_ts = ? and task_id > ? and "
  +:+ "task_id <= ?".

Definition templateGetReplicationTasksQuery : string :=
  "SELECT replication FROM executions WHERE shard_id = ? and type = ? and domain_id = "
  +:+ "? and workflow_id = ? and run_id = ? and visibility_ts = ? and task_id > ? and "
  +:+ "task_id <= ?".

Definition templateCompleteTransferTaskQuery : string :=
  "DELETE FROM executions WHERE shard_id = ? and type = ? and domain_id = ? and "
  +:+ "workflow_id = ? and run_id = ? and visibility_ts = ? and task_id = ?".

Definition templateRangeCompleteTransferTaskQuery : string :=
  "DELETE FROM executions WHERE shard_id = ? and type = ? and domain_id = ? and "
  +:+ "workflow_id = ? and run_id = ? and visibility_ts = ? and task_id > ? and task_id <= "
  +:+ "?".

Definition templateGetTimerTasksQuery : string :=
  "SELECT timer FROM executions WHERE shard_id = ? and type = ?and domain_id = ? and "
  +:+ "workflow_id = ?and run_id = ?and visibility_ts >= ? and visibility_ts < ?".

Definition templateCompleteTimerTaskQuery : string :=
  "DELETE FROM executions WHERE shard_id = ? and type = ? and domain_id = ? and "
  +:+ "workflow_id = ?and run_id = ?and visibility_ts = ? and task_id = ?".

Definition templateRangeCompleteTimerTaskQuery : string :=
  "DELETE FROM executions WHERE shard_id = ? and type = ? and domain_id = ? and "
  +:+ "workflow_id = ?and run_id = ?and visibility_ts >= ? and visibility_ts < ?".

Definition templateCreateTaskQuery : string :=
  "INSERT INTO tasks (domain_id, task_list_name, task_list_type, type, task_id, task) "
  +:+ "VALUES(?, ?, ?, ?, ?, "
  +:+ templateTaskType
  +:+ ")".

Definition templateCreateTaskWithTTLQuery : string :=
  "INSERT INTO tasks (domain_id, task_list_name, task_list_type, type, task_id, task) "
  +:+ "VALUES(?, ?, ?, ?, ?, "
  +:+ templateTaskType
  +:+ ") USING TTL ?".

Definition templateCompleteTaskQuery : string :=
  "DELETE FROM tasks WHERE domain_id = ? and task_list_name = ? and task_list_type = ? "
  +:+ "and type = ? and task_id = ?".

Definition templateUpdateTaskListQueryWithTTL : string :=
  "INSERT INTO tasks (domain_id, task_list_name, task_list_type, type, task_id, "
  +:+ "range_id, task_list ) VALUES (?, ?, ?, ?, ?, ?, "
  +:+ templateTaskListType
  +:+ ") USING TTL ?".

Definition templateDeleteTaskListQuery : string :=
  "DELETE FROM tasks WHERE domain_id = ? AND task_list_name = ? AND task_list_type = ? "
  +:+ "AND type = ? AND task_id = ? IF range_id = ?".

(** ** Requests *)

Record DeleteWorkflowExecutionRequest : Type := {
  dwDomainID : string;
  dwWorkflowID : string;
  dwRunID : string
}.

(** [CompleteTransferTaskRequest] and [CompleteReplicationTaskRequest]. *)
Record CompleteTaskIDRequest : Type := { cqTaskID : Z }.

Record RangeCompleteTransferTaskRequest : Type := {
  rcExclusiveBeginTaskID : Z;
  rcInclusiveEndTaskID : Z
}.

(** The two times are carried by their [UnixNano()]. *)
Record CompleteTimerTaskRequest : Type := {
  ctVisibilityTimestamp : Z;
  ctTimerTaskID : Z
}.

Record RangeCompleteTimerTaskRequest : Type := {
  rtInclusiveBeginTimestamp : Z;
  rtExclusiveEndTimestamp : Z
}.

Record UpdateTaskListRequest : Type := { utTaskListInfo : TaskListInfo }.

Record DeleteTaskListRequest : Type := {
  dtDomainID : string;
  dtTaskListName : string;
  dtTaskListType : Z;
  dtRangeID : Z
}.

(** The fields of [TaskInfo] that [CreateTasks] reads. *)
Record TaskData : Type := {
  tdScheduleID : Z;
  tdScheduleToStartTimeout : Z
}.

(** [CreateTaskInfo]; [Data] is a pointer. *)
Record CreateTaskInfo : Type := {
  ctiExecution : WorkflowExecution;
  ctiData : option TaskData;
  ctiTaskID : Z
}.

Record CreateTasksRequest : Type := {
  crTaskListInfo : TaskListInfo;
  crTasks : list CreateTaskInfo
}.

Record CompleteTaskRequest : Type := {
  cpTaskList : TaskListInfo;
  cpTaskID : Z
}.

Section OtherCalls.
Context {C : Collaborators}.

(** Two names that the file uses and does not define: the kind of a
    sticky task list ([p.TaskListKindSticky]) and the largest time to
    live that the store accepts ([maxCassandraTTL]). *)
Variable TaskListKindSticky : Z.
Variable maxCassandraTTL : Z.

(** [query.Exec()] and the answer common to the calls that run one
    statement: nil, or busy when the store throttles, or internal. *)
Definition execStatement (q : query) (format : string) : prog (option error) :=
  QueryExec q (fun r =>
    match r with
    | Some err => Ret (Some (busyOrInternal format format err))
    | None => Ret None
    end).

(** ** Execution store: deletes *)

Definition DeleteWorkflowExecution (d : cassandraPersistence)
    (request : DeleteWorkflowExecutionRequest) : prog (option error) :=
  execStatement
    (Query templateDeleteWorkflowExecutionMutableStateQuery
       [ VInt (shardID d);
         VInt rowTypeExecution;
         VString (dwDomainID request);
         VString (dwWorkflowID request);
         VString (dwRunID request);
         VInt64 defaultVisibilityTimestamp;
         VInt64 rowTypeExecutionTaskID ])
    "DeleteWorkflowExecution operation failed. Error: %v".

Definition DeleteCurrentWorkflowExecution (d : cassandraPersistence)
    (request : DeleteWorkflowExecutionRequest) : prog (option error) :=
  execStatement
    (Query templateDeleteWorkflowExecutionCurrentRowQuery
       [ VInt (shardID d);
         VInt rowTypeExecution;
         VString (dwDomainID request);
         VString (dwWorkflowID request);
         VString permanentRunID;
         VInt64 defaultVisibilityTimestamp;
         VInt64 rowTypeExecutionTaskID;
         VString (dwRunID request) ])
    "DeleteWorkflowCurrentRow operation failed. Error: %v".

(** ** Execution store: the queues of transfer, replication and timer tasks *)

Definition CompleteTransferTask (d : cassandraPersistence) (request : CompleteTaskIDRequest)
  : prog (option error) :=
  execStatement
    (Query templateCompleteTransferTaskQuery
       [ VInt (shardID d);
         VInt rowTypeTransferTask;
         VString rowTypeTransferDomainID;
         VString rowTypeTransferWorkflowID;
         VString rowTypeTransferRunID;
         VInt64 defaultVisibilityTimestamp;
         VInt64 (cqTaskID request) ])
    "CompleteTransferTask operation failed. Error: %v".

Definition RangeCompleteTransferTask (d : cassandraPersistence)
    (request : RangeCompleteTransferTaskRequest) : prog (option error) :=
  execStatement
    (Query templateRangeCompleteTransferTaskQuery
       [ VInt (shardID d);
         VInt rowTypeTransferTask;
         VString rowTypeTransferDomainID;
         VString rowTypeTransferWorkflowID;
         VString rowTypeTransferRunID;
         VInt64 defaultVisibilityTimestamp;
         VInt64 (rcExclusiveBeginTaskID request);
         VInt64 (rcInclusiveEndTaskID request) ])
    "RangeCompleteTransferTask operation failed. Error: %v".

Definition CompleteReplicationTask (d : cassandraPersistence)
    (request : CompleteTaskIDRequest) : prog (option error) :=
  execStatement
    (Query templateCompleteTransferTaskQuery
       [ VInt (shardID d);
         VInt rowTypeReplicationTask;
         VString rowTypeReplicationDomainID;
         VString rowTypeReplicationWorkflowID;
         VString rowTypeReplicationRunID;
         VInt64 defaultVisibilityTimestamp;
         VInt64 (cqTaskID request) ])
    "CompleteReplicationTask operation failed. Error: %v".

Definition CompleteTimerTask (d : cassandraPersistence) (request : CompleteTimerTaskRequest)
  : prog (option error) :=
  let ts := UnixNanoToDBTimestamp (ctVisibilityTimestamp request) in
  execStatement
    (Query templateCompleteTimerTaskQuery
       [ VInt (shardID d);
         VInt rowTypeTimerTask;
         VString rowTypeTimerDomainID;
         VString rowTypeTimerWorkflowID;
         VString rowTypeTimerRunID;
         VInt64 ts;
         VInt64 (ctTimerTaskID request) ])
    "CompleteTimerTask operation failed. Error: %v".

Definition RangeCompleteTimerTask (d : cassandraPersistence)
    (request : RangeCompleteTimerTaskRequest) : prog (option error) :=
  let start := UnixNanoToDBTimestamp (rtInclusiveBeginTimestamp request) in
  let end_ := UnixNanoToDBTimestamp (rtExclusiveEndTimestamp request) in
  execStatement
    (Query templateRangeCompleteTimerTaskQuery
       [ VInt (shardID d);
         VInt rowTypeTimerTask;
         VString rowTypeTimerDomainID;
         VString rowTypeTimerWorkflowID;
         VString rowTypeTimerRunID;
         VInt64 start;
         VInt64 end_ ])
    "RangeCompleteTimerTask operation failed. Error: %v".

(** ** Task list store: the other calls *)

(** The values bound by [templateUpdateTaskListQuery] for a task list
    info: the statement writes [RangeID] if the stored token is
    [RangeID]. *)
Definition updateTaskListArgs (tli : TaskListInfo) (now : Z) : list value :=
  [ VInt64 (tliRangeID tli);
    VString (tliDomainID tli);
    VString (tliName tli);
    VInt (tliTaskType tli);
    VInt64 (tliAckLevel tli);
    VInt (tliKind tli);
    VTime now;
    VString (tliDomainID tli);
    VString (tliName tli);
    VInt (tliTaskType tli);
    VInt rowTypeTaskList;
    VInt taskListTaskID;
    VInt64 (tliRangeID tli) ].

Definition UpdateTaskList (d : cassandraPersistence) (now : Z)
    (request : UpdateTaskListRequest) : prog (result unit) :=
  let tli := utTaskListInfo request in
  if decide (tliKind tli = TaskListKindSticky) then
    (* if task_list is sticky, then update with TTL *)
    QueryExec
      (Query templateUpdateTaskListQueryWithTTL
         [ VString (tliDomainID tli);
           VString (tliName tli);
           VInt (tliTaskType tli);
           VInt rowTypeTaskList;
           VInt taskListTaskID;
           VInt64 (tliRangeID tli);
           VString (tliDomainID tli);
           VString (tliName tli);
           VInt (tliTaskType tli);
           VInt64 (tliAckLevel tli);
           VInt (tliKind tli);
           VTime now;
           VInt32 stickyTaskListTTL ])
      (fun r =>
         match r with
         | Some err =>
             Ret (Err (busyOrInternal "UpdateTaskList operation failed. Error: %v"
                         "UpdateTaskList operation failed. Error: %v" err))
         | None => Ret (Ok tt)
         end)
  else
    QueryMapScanCAS (Query templateUpdateTaskListQuery (updateTaskListArgs tli now))
      (fun r =>
         match r with
         | CASError err =>
             Ret (Err (busyOrInternal "UpdateTaskList operation failed. Error: %v"
                         "UpdateTaskList operation failed. Error: %v" err))
         | CASNotApplied previous =>
             Ret (Err (ConditionFailedError
               (Sprintf "Failed to update task list. name: %v, type: %v, rangeID: %v, columns: (%v)"
                  [FString (tliName tli); FInt (tliTaskType tli); FInt (tliRangeID tli);
                   FColumns [previous]])))
         | CASApplied => Ret (Ok tt)
         end).

Definition ListTaskList : result unit :=
  Err (InternalServiceError (Sprintf "unsupported operation" [])).

Definition DeleteTaskList (d : cassandraPersistence) (request : DeleteTaskListRequest)
  : prog (option error) :=
  QueryMapScanCAS
    (Query templateDeleteTaskListQuery
       [ VString (dtDomainID request);
         VString (dtTaskListName request);
         VInt (dtTaskListType request);
         VInt rowTypeTaskList;
         VInt taskListTaskID;
         VInt64 (dtRangeID request) ])
    (fun r =>
       match r with
       | CASError err =>
           Ret (Some (busyOrInternal "DeleteTaskList operation failed. Error: %v"
                        "DeleteTaskList operation failed. Error: %v" err))
       | CASNotApplied previous =>
           Ret (Some (ConditionFailedError
             (Sprintf "DeleteTaskList operation failed: expected_range_id=%v but found %+v"
                [FInt (dtRangeID request); FColumns [previous]])))
       | CASApplied => Ret None
       end).

(** The statement that [CreateTasks] adds for one task: without a time
    to live when [ScheduleToStartTimeout] is not positive, and with it,
    cut at [maxCassandraTTL], otherwise. *)
Definition createTaskQuery (tli : TaskListInfo) (cqlNowTimestamp : Z) (task : CreateTaskInfo)
  : outcome query :=
  match ctiData task with
  | None => Panics "nil pointer dereference"
  | Some data =>
      let scheduleID := tdScheduleID data in
      let ttl := tdScheduleToStartTimeout data in
      let common :=
        [ VString (tliDomainID tli);
          VString (tliName tli);
          VInt (tliTaskType tli);
          VInt rowTypeTask;
          VInt64 (ctiTaskID task);
          VString (tliDomainID tli);
          VString (GetWorkflowId (ctiExecution task));
          VString (GetRunId (ctiExecution task));
          VInt64 scheduleID;
          VInt64 cqlNowTimestamp ] in
      if decide (ttl ≤ 0) then Returns (Query templateCreateTaskQuery common)
      else
        let ttl := if decide (ttl > maxCassandraTTL) then maxCassandraTTL else ttl in
        Returns (Query templateCreateTaskWithTTLQuery (common ++ [ VInt64 ttl ]))
  end.

(** The loop of [CreateTasks] over [request.Tasks]. *)
Fixpoint createTaskQueries (tli : TaskListInfo) (cqlNowTimestamp : Z)
    (tasks : list CreateTaskInfo) (b : batch) : outcome batch :=
  match tasks with
  | [] => Returns b
  | task :: tasks' =>
      q ←! createTaskQuery tli cqlNowTimestamp task;
      createTaskQueries tli cqlNowTimestamp tasks' (b ++ [q])
  end.

(** [CreateTasks]; [now] is the time read for the rows of the tasks and
    [now'] the one read for the task-list row. *)
Definition CreateTasks (d : cassandraPersistence) (now now' : Z)
    (request : CreateTasksRequest) : prog (outcome (result unit)) :=
  let tli := crTaskListInfo request in
  let cqlNowTimestamp := UnixNanoToDBTimestamp now in
  match createTaskQueries tli cqlNowTimestamp (crTasks request) [] with
  | Panics p => Ret (Panics p)
  | Returns b =>
      (* The following query is used to ensure that range_id didn't change *)
      let b := batchQuery b templateUpdateTaskListQuery (updateTaskListArgs tli now') in
      MapExecuteBatchCAS b (fun r =>
        match r with
        | BatchError err =>
            Ret (Returns (Err (busyOrInternal "CreateTasks operation failed. Error: %v"
                                 "CreateTasks operation failed. Error : %v" err)))
        | BatchNotApplied previous _ =>
            Ret (Returns (Err (ConditionFailedError
              (Sprintf "Failed to create task. TaskList: %v, taskListType: %v, rangeID: %v, db rangeID: %v"
                 [FString (tliName tli); FInt (tliTaskType tli); FInt (tliRangeID tli);
                  FValue (previous !! "range_id")]))))
        | BatchApplied => Ret (Returns (Ok tt))
        end)
  end.

Definition CompleteTask (d : cassandraPersistence) (request : CompleteTaskRequest)
  : prog (option error) :=
  let tli := cpTaskList request in
  execStatement
    (Query templateCompleteTaskQuery
       [ VString (tliDomainID tli);
         VString (tliName tli);
         VInt (tliTaskType tli);
         VInt rowTypeTask;
         VInt64 (cpTaskID request) ])
    "CompleteTask operation failed. Error: %v".

End OtherCalls.

(** The key of the task-list row of a task list info. *)
Definition taskListInfoKey (tli : TaskListInfo) : taskKey :=
  (tliDomainID tli, tliName tli, tliTaskType tli, rowTypeTaskList, taskListTaskID).

(** ** Predicates used in the further statements *)

(** A call that runs one statement built from the template [s] with
    [Exec]: it succeeds when the store reports no error, and fails with
    ServiceBusyError when the store throttles and InternalServiceError
    otherwise; the store's answer is all that decides. *)
Definition singleStatement (p : prog (option error)) (s : string) : Prop :=
  (∀ t res, exec p t res →
     ∃ a o, t = [EvExec (Query s a) o]
       ∧ match o with
         | None => res = None
         | Some err =>
             ∃ e, res = Some e
                  ∧ kindOf e = if isThrottlingError err then KServiceBusy
                               else KInternalService
         end)
  ∧ (∀ o, ∃ q res, exec p [EvExec q o] res).

(** The request of a lease for the list of a task list info. *)
Definition leaseRequestOf (tli : TaskListInfo) (rangeID : Z) : LeaseReq.t :=
  {| LeaseReq.DomainID := tliDomainID tli;
     LeaseReq.TaskList := tliName tli;
     LeaseReq.TaskType := tliTaskType tli;
     LeaseReq.TaskListKind := tliKind tli;
     LeaseReq.RangeID := rangeID |}.

(** What the statement that [CreateTasks] adds for one task binds: the
    template with a time to live exactly when the timeout is positive,
    the task id, the schedule id and, last, the time to live. *)
Definition taskStatement (maxCassandraTTL : Z) (task : CreateTaskInfo) (data : TaskData)
    (q : query) : Prop :=
  stmt q = (if decide (tdScheduleToStartTimeout data ≤ 0)
            then templateCreateTaskQuery else templateCreateTaskWithTTLQuery)
  ∧ args q !! 4%nat = Some (VInt64 (ctiTaskID task))
  ∧ args q !! 8%nat = Some (VInt64 (tdScheduleID data))
  ∧ length (args q) = (if decide (tdScheduleToStartTimeout data ≤ 0) then 10%nat else 11%nat)
  ∧ (0 < tdScheduleToStartTimeout data →
     last (args q)
     = Some (VInt64 (Z.min (tdScheduleToStartTimeout data) maxCassandraTTL))).

(** The task-list row after a write of [UpdateTaskList] or of a lease:
    the range token and the [task_list] column are replaced. *)
Definition taskListRow (tli : TaskListInfo) (rangeID now : Z) (old : gmap string value)
  : gmap string value :=
  (<["task_list" :=
       taskListValue (leaseRequestOf tli rangeID) (tliAckLevel tli) (tliKind tli) now]>
     {[ "range_id" := VInt64 rangeID ]}) ∪ old.

(** The task that [GetTasks] makes of a row that has its [task_id] and
    its [task] column. *)
Definition decodeTaskRow `{Collaborators} (r : gmap string value) : option TaskInfo :=
  id ← asInt64 (r !! "task_id");
  m ← asMap (r !! "task");
  Some {| tiDecoded := createTaskInfo m; tiTaskID := id |}.

(** The statement of the update of a run's row: the template by the
    replication state and the version histories. *)
Definition updateExecutionTemplate (replicationState : option RS.ReplicationState)
    (versionHistories : option DataBlob) : string :=
  match replicationState, versionHistories with
  | Some _, _ => templateUpdateWorkflowExecutionWithReplicationQuery
  | None, Some _ => templateUpdateWorkflowExecutionWithVersionHistoriesQuery
  | None, None => templateUpdateWorkflowExecutionQuery
  end.

(** * Properties *)

(** Inversion of one run, outermost call first. *)
Ltac inv_exec :=
  repeat match goal with
  | H : exec (Ret _) _ _ |- _ => inversion H; subst; clear H
  | H : exec (AssertNotCurrentExecution _ _ _ _) _ _ |- _ => inversion H; subst; clear H
  | H : exec (QueryMapScanCAS _ _) _ _ |- _ => inversion H; subst; clear H
  | H : exec (QueryScan _ _) _ _ |- _ => inversion H; subst; clear H
  | H : exec (QueryExec _ _) _ _ |- _ => inversion H; subst; clear H
  | H : exec (QueryIter _ _ _) _ _ |- _ => inversion H; subst; clear H
  | H : exec (MapExecuteBatchCAS _ _) _ _ |- _ => inversion H; subst; clear H
  end.

Ltac inv_elem :=
  repeat match goal with
  | H : _ ∈ [] |- _ => by apply elem_of_nil in H
  | H : _ ∈ _ :: _ |- _ =>
      apply elem_of_cons in H as [H|H];
      [first [discriminate H | injection H as ? ?; subst]|]
  end.

(** Inversion of a run whose continuations branch on the answer. *)
Ltac inv_answers :=
  repeat (inv_exec;
          match goal with
          | H : exec (match ?o with _ => _ end) _ _ |- _ => destruct o
          end);
  inv_exec.

Lemma obind_Returns {A B} (o : outcome A) (f : A → outcome B) b :
  obind o f = Returns b → ∃ a, o = Returns a ∧ f a = Returns b.
Proof. destruct o; simpl; [eauto|discriminate]. Qed.

Section Properties.
Context {C : Collaborators}.

Lemma busyOrInternal_kind f g err :
  kindOf (busyOrInternal f g err) = KServiceBusy
  ∨ kindOf (busyOrInternal f g err) = KInternalService.
Proof. unfold busyOrInternal. destruct (isThrottlingError err); auto. Qed.


Lemma batchError_kind name err :
  kindOf (batchError name err) =
    if isTimeoutError err then KTimeout
    else if isThrottlingError err then KServiceBusy else KInternalService.
Proof.
  unfold batchError, busyOrInternal.
  destruct (isTimeoutError err), (isThrottlingError err); reflexivity.
Qed.

(** ** Task list store *)

(** C8.  Every run of [CompleteTasksLessThan] is one [Exec] of the
    delete; when the store reports no error the count returned is the
    sentinel [UnknownNumRowsAffected], which, being negative, is neither
    zero nor the count of anything; when the store reports an error the
    call fails with a busy or an internal error.  Both answers lead to a
    result. *)
Theorem CompleteTasksLessThan_unknown_count d request :
  UnknownNumRowsAffected < 0 →
  (∀ t n err, exec (CompleteTasksLessThan d request) t (n, err) →
     ∃ q r, t = [EvExec q r] ∧
       match r with
       | None => err = None ∧ n = UnknownNumRowsAffected ∧ n ≠ 0 ∧ ¬ (0 ≤ n)
       | Some _ =>
           ∃ e, err = Some e ∧ (kindOf e = KServiceBusy ∨ kindOf e = KInternalService)
       end)
  ∧ (∀ r, ∃ q n err, exec (CompleteTasksLessThan d request) [EvExec q r] (n, err)).
Proof.
  intros Hneg. split.
  - intros t n err H. unfold CompleteTasksLessThan in H. inv_exec.
    destruct o as [e|]; inv_exec; eexists _, _; (split; [reflexivity|]); simpl.
    + eexists. split; [reflexivity|]. apply busyOrInternal_kind.
    + repeat split; lia.
  - intros r. unfold CompleteTasksLessThan.
    destruct r as [e|]; eexists _, _, _; apply exec_Exec; apply exec_Ret.
Qed.

Lemma populateTasks_bound batchSize rows :
  ∀ tasks task out,
    (Z.of_nat (length tasks) < batchSize) →
    populateTasks batchSize tasks task rows = Returns out →
    (Z.of_nat (length out) ≤ batchSize).
Proof.
  induction rows as [|r rows IH]; intros tasks task out Hlt H; simpl in H.
  - inversion H; subst. lia.
  - destruct ((r ∪ task) !! "task_id") as [taskID|] eqn:Hid.
    + destruct (mustMap ((r ∪ task) !! "task")) as [m|]; simpl in H; [|discriminate].
      destruct (mustInt64 (Some taskID)) as [id|]; simpl in H; [|discriminate].
      destruct (decide _) as [Heq|Hne] in H.
      * inversion H; subst. lia.
      * eapply IH; [|exact H].
        rewrite length_app in Hne |- *. simpl in *. lia.
    + eapply IH; eauto.
Qed.

(** C10 (as amended).  [GetTasks] answers without any store call when
    [MaxReadLevel] is nil (an internal error) or below [ReadLevel] (an
    empty response); a successful response holds at most [BatchSize]
    tasks when [BatchSize] is positive. *)
Theorem GetTasks_read_levels_and_batch_size d request :
  (GetTasksReq.MaxReadLevel request = None →
     ∃ msg, GetTasks d request = Ret (Returns (Err (InternalServiceError msg))))
  ∧ (∀ maxReadLevel,
       GetTasksReq.MaxReadLevel request = Some maxReadLevel →
       GetTasksReq.ReadLevel request > maxReadLevel →
       GetTasks d request = Ret (Returns (Ok []))
       ∧ ∀ t r, exec (GetTasks d request) t r → t = [] ∧ r = Returns (Ok []))
  ∧ (0 < GetTasksReq.BatchSize request →
     ∀ t tasks, exec (GetTasks d request) t (Returns (Ok tasks)) →
       Z.of_nat (length tasks) ≤ GetTasksReq.BatchSize request).
Proof.
  unfold GetTasks. split; [|split].
  - intros ->. eexists. reflexivity.
  - intros m -> Hgt. rewrite decide_True by done. split; [reflexivity|].
    intros t r H. inv_exec. done.
  - intros Hpos t tasks H.
    destruct (GetTasksReq.MaxReadLevel request) as [m|]; [|inv_exec].
    destruct (decide _) in H.
    + inv_exec. simpl. lia.
    + inv_exec. destruct o as [iter|]; inv_exec.
      destruct (populateTasks _ _ _ _) as [out|] eqn:Hp; simpl in *; [|discriminate].
      destruct (iterCloseErr iter); [discriminate|].
      match goal with H : Returns _ = Returns _ |- _ => inversion H; subst end.
      eapply populateTasks_bound; [|exact Hp]. simpl. lia.
Qed.

End Properties.

(** A run on concrete data: one constructor per call, the continuation
    evaluated on the answer. *)
Ltac run_exec :=
  repeat first
    [ exact (exec_Ret _)
    | refine (exec_Assert _ _ _ _ _ _ _ _)
    | refine (exec_MapScanCAS _ _ _ _ _ _)
    | refine (exec_Scan _ _ _ _ _ _)
    | refine (exec_Exec _ _ _ _ _ _)
    | refine (exec_Iter _ _ _ _ _ _ _)
    | refine (exec_Batch _ _ _ _ _ _) ].

(** Witness of C8 with the sentinel -1: the delete succeeds. *)
Lemma CompleteTasksLessThan_unknown_count_witness :
  ∃ q, exec (CompleteTasksLessThan (C := sampleCollaborators) sampleStore sampleCompleteRequest)
         [EvExec q None] (-1, None)
       ∧ -1 ≠ 0.
Proof.
  pose proof (CompleteTasksLessThan_unknown_count (C := sampleCollaborators)
                sampleStore sampleCompleteRequest ltac:(reflexivity)) as [Hall _].
  eexists. split.
  - unfold CompleteTasksLessThan. run_exec.
  - specialize (Hall _ (-1) None
      ltac:(unfold CompleteTasksLessThan; refine (exec_Exec _ _ None _ _ _); exact (exec_Ret _))).
    destruct Hall as (q & r & Ht & Hr). inversion Ht; subst. simpl in Hr. tauto.
Defined.

(** Counterexample to C10 as stated: with batch size 0 and two rows read,
    the successful response holds two tasks. *)
Lemma GetTasks_batch_size_counterexample :
  ¬ (∀ t tasks,
       exec (GetTasks (C := sampleCollaborators) sampleStore (sampleGetTasksRequest 0))
         t (Returns (Ok tasks)) →
       Z.of_nat (length tasks) ≤ GetTasksReq.BatchSize (sampleGetTasksRequest 0)).
Proof.
  intros H. enough (2 ≤ 0) by lia.
  eapply (H [EvIter _ 0 (Some (Iterator [sampleTaskRow 1; sampleTaskRow 2] None))]
            [ {| tiDecoded := VMap {[ "schedule_id" := VInt64 1 ]}; tiTaskID := 1 |};
              {| tiDecoded := VMap {[ "schedule_id" := VInt64 2 ]}; tiTaskID := 2 |} ]).
  unfold GetTasks. simpl. run_exec.
Qed.

(** Witness of C10 (amended) with batch size 1 and two rows read: one task
    is returned. *)
Lemma GetTasks_read_levels_and_batch_size_witness :
  Z.of_nat (length [ {| tiDecoded := VMap {[ "schedule_id" := VInt64 1 ]}; tiTaskID := 1 |} ])
  ≤ GetTasksReq.BatchSize (sampleGetTasksRequest 1).
Proof.
  eapply (proj2 (proj2 (GetTasks_read_levels_and_batch_size (C := sampleCollaborators)
                          sampleStore (sampleGetTasksRequest 1)))
            ltac:(reflexivity)
            [EvIter _ 1 (Some (Iterator [sampleTaskRow 1; sampleTaskRow 2] None))]).
  unfold GetTasks. simpl. run_exec.
Defined.

(** ** Execution store: the answer to a timeout *)

Section TimeoutProperties.
Context {C : Collaborators}.






End TimeoutProperties.


(** ** Execution store: the create path *)

Section CreateProperties.
Context {C : Collaborators}.

Lemma createWorkflowModes_ne :
  CreateWorkflowModeContinueAsNew ≠ CreateWorkflowModeWorkflowIDReuse
  ∧ CreateWorkflowModeContinueAsNew ≠ CreateWorkflowModeBrandNew
  ∧ CreateWorkflowModeContinueAsNew ≠ CreateWorkflowModeZombie
  ∧ CreateWorkflowModeWorkflowIDReuse ≠ CreateWorkflowModeBrandNew
  ∧ CreateWorkflowModeWorkflowIDReuse ≠ CreateWorkflowModeZombie
  ∧ CreateWorkflowModeBrandNew ≠ CreateWorkflowModeZombie.
Proof.
  pose proof createWorkflowModes_distinct as H.
  repeat (apply NoDup_cons in H as [? H]). set_unfold. naive_solver.
Qed.

Lemma create_templates_do_not_write_current q :
  stmt q ∈ [ templateCreateWorkflowExecutionQuery;
             templateCreateWorkflowExecutionWithReplicationQuery;
             templateCreateWorkflowExecutionWithVersionHistoriesQuery;
             templateUpdateLeaseQuery ] →
  ¬ writesCurrentExecution q.
Proof.
  unfold writesCurrentExecution. intros H Hw.
  repeat (apply elem_of_cons in H as [H|H]; [rewrite H in Hw; clear H|]);
    [..|by apply elem_of_nil in H];
    revert Hw; compute_done.
Qed.

(** The insert of the new run's row adds one statement, built from one of
    the three insert templates. *)
Lemma createExecutionRow_appends d request b pd pw pr initiatedID now b' :
  createExecutionRow d request b pd pw pr initiatedID now = Returns b' →
  ∃ q, b' = b ++ [q]
       ∧ stmt q ∈ [ templateCreateWorkflowExecutionQuery;
                    templateCreateWorkflowExecutionWithReplicationQuery;
                    templateCreateWorkflowExecutionWithVersionHistoriesQuery;
                    templateUpdateLeaseQuery ].
Proof.
  unfold createExecutionRow, batchQuery. intros H.
  destruct (CreateReq.ReplicationState request) as [rs|].
  - destruct (derefData _); simpl in H; [|discriminate]. inversion H; subst.
    eexists. split; [reflexivity|]. simpl. set_solver.
  - destruct (CreateReq.VersionHistories request) as [vh|].
    + destruct (FromDataBlob _) as [vd ve].
      destruct (deref (WorkflowId _)); simpl in H; [|discriminate].
      destruct (deref (RunId _)); simpl in H; [|discriminate].
      destruct (derefData _); simpl in H; [|discriminate]. inversion H; subst.
      eexists. split; [reflexivity|]. simpl. set_solver.
    + destruct (derefData _); simpl in H; [|discriminate]. inversion H; subst.
      eexists. split; [reflexivity|]. simpl. set_solver.
Qed.

(** [CreateWorkflowExecutionWithinBatch] in the Zombie mode: the
    validation, the check of state and close status, the insert of the
    row; the request is left as it is. *)
Lemma CreateWorkflowExecutionWithinBatch_zombie d request b now :
  CreateReq.CreateWorkflowMode request = CreateWorkflowModeZombie →
  ∃ pd pw pr initiatedID,
    CreateWorkflowExecutionWithinBatch d request b now =
    match ValidateCreateWorkflowStateCloseStatus
            (CreateReq.State request) (CreateReq.CloseStatus request) with
    | Some err => Returns (request, b, Some err)
    | None =>
        if decide (CreateReq.State request ≠ WorkflowStateZombie
                   ∨ CreateReq.CloseStatus request ≠ WorkflowCloseStatusNone)
        then Returns (request, b, Some (InternalServiceError
               (Sprintf "Cannot create zombie workflow with state: %v, close status: %v"
                  [FInt (CreateReq.State request); FInt (CreateReq.CloseStatus request)])))
        else b' ←! createExecutionRow d request b pd pw pr initiatedID now;
             Returns (request, b', None)
    end.
Proof.
  intros Hmode. destruct createWorkflowModes_ne as (? & ? & ? & ? & ? & ?).
  unfold CreateWorkflowExecutionWithinBatch.
  destruct (ValidateCreateWorkflowStateCloseStatus _ _); [by exists "", "", "", 0|].
  destruct (decide (CreateReq.ParentDomainID request = ""));
    destruct (CreateReq.ReplicationState request) as [rs|] eqn:Hrs; cbv zeta beta iota;
    eexists _, _, _, _;
    rewrite ?Hmode;
    rewrite ?(decide_False (P := CreateWorkflowModeZombie = CreateWorkflowModeWorkflowIDReuse))
      by congruence;
    rewrite ?Hmode;
    rewrite ?(decide_False (P := CreateWorkflowModeZombie = CreateWorkflowModeContinueAsNew))
      by congruence;
    rewrite ?(decide_False (P := CreateWorkflowModeZombie = CreateWorkflowModeWorkflowIDReuse))
      by congruence;
    rewrite ?(decide_False (P := CreateWorkflowModeZombie = CreateWorkflowModeBrandNew))
      by congruence;
    rewrite (decide_True (P := CreateWorkflowModeZombie = CreateWorkflowModeZombie)) by done;
    reflexivity.
Qed.

Lemma leaseQuery_does_not_write_current d rangeID :
  ¬ writesCurrentExecution (leaseQuery d rangeID).
Proof. apply create_templates_do_not_write_current. simpl. set_solver. Qed.

(** The batch of a Zombie create: the request is left as it is, no entry
    writes the current-execution row, and the errors are those of the
    validation and of the check of state and close status. *)
Lemma createWorkflowExecutionBatch_zombie d now request request' b err :
  CreateReq.CreateWorkflowMode request = CreateWorkflowModeZombie →
  taskHelpersKeep (λ q, ¬ writesCurrentExecution q) →
  createWorkflowExecutionBatch d now request = Returns (request', b, err) →
  request' = request
  ∧ Forall (λ q, ¬ writesCurrentExecution q) b
  ∧ (∀ e, ValidateCreateWorkflowStateCloseStatus
            (CreateReq.State request) (CreateReq.CloseStatus request) = Some e →
          err = Some e)
  ∧ (ValidateCreateWorkflowStateCloseStatus
       (CreateReq.State request) (CreateReq.CloseStatus request) = None →
     CreateReq.State request ≠ WorkflowStateZombie
     ∨ CreateReq.CloseStatus request ≠ WorkflowCloseStatusNone →
     ∃ msg, err = Some (InternalServiceError msg)).
Proof.
  intros Hmode (Htransfer & Hreplication & Htimer) H.
  unfold createWorkflowExecutionBatch in H.
  destruct (CreateWorkflowExecutionWithinBatch_zombie d request [] now Hmode)
    as (pd & pw & pr & ii & Heq).
  rewrite Heq in H. clear Heq.
  destruct (ValidateCreateWorkflowStateCloseStatus _ _) as [e|].
  { simpl in H. inversion H; subst. repeat split; try done; by intros ? [= ->]. }
  destruct (decide _) as [Hbad|Hgood].
  { simpl in H. inversion H; subst. repeat split; try done; eauto. }
  simpl in H.
  destruct (createExecutionRow _ _ _ _ _ _ _ _) as [b1|] eqn:Hrow; simpl in H; [|discriminate].
  destruct (deref (WorkflowId _)) as [w|]; simpl in H; [|discriminate].
  destruct (deref (RunId _)) as [r|]; simpl in H; [|discriminate].
  inversion H; subst. repeat split; try done.
  apply createExecutionRow_appends in Hrow as (q & -> & Hq).
  apply Forall_app. split.
  - apply Htimer, Hreplication, Htransfer. simpl.
    constructor; [|constructor]. by apply create_templates_do_not_write_current.
  - constructor; [|constructor]. apply leaseQuery_does_not_write_current.
Qed.

(** C4.  A create in the Zombie mode first asks that the run is not the
    current one, and returns the error of that assertion without any
    further call; when the validation only returns internal-service
    errors, a state other than Zombie or a close status other than none
    makes it fail with an internal-service error before any batch is
    executed; and, when the task helpers add no such statement, no batch
    it executes holds a statement that inserts or updates the
    current-execution row. *)
Theorem zombie_create_leaves_current_execution_alone d now request :
  CreateReq.CreateWorkflowMode request = CreateWorkflowModeZombie →
  (∀ s c e, ValidateCreateWorkflowStateCloseStatus s c = Some e →
            kindOf e = KInternalService) →
  taskHelpersKeep (λ q, ¬ writesCurrentExecution q) →
  ∀ t res, exec (CreateWorkflowExecution d now request) t res →
    ∃ o t',
      t = EvAssertNotCurrent (CreateReq.DomainID request)
            (GetWorkflowId (CreateReq.Execution request))
            (GetRunId (CreateReq.Execution request)) o :: t'
      ∧ (∀ err, o = Some err → t' = [] ∧ res = Returns (request, Err err))
      ∧ (o = None →
         CreateReq.State request ≠ WorkflowStateZombie
         ∨ CreateReq.CloseStatus request ≠ WorkflowCloseStatusNone →
         t' = [] ∧ ∃ e, res = Returns (request, Err e) ∧ kindOf e = KInternalService)
      ∧ (∀ b r, EvBatchCAS b r ∈ t → Forall (λ q, ¬ writesCurrentExecution q) b).
Proof.
  intros Hmode Hvalidate Hkeep t res H.
  unfold CreateWorkflowExecution in H. cbv zeta in H.
  rewrite decide_True in H by done. inv_exec.
  match goal with Hk : exec _ _ _ |- _ => rename Hk into H end.
  eexists o, t0. split; [reflexivity|].
  destruct o as [err|].
  { inv_exec. refine (conj _ (conj _ _)).
    - by intros ? [= <-].
    - done.
    - intros b r Hin. inv_elem. }
  destruct (createWorkflowExecutionBatch _ _ _) as [[[request' b'] err]|p] eqn:Hbatch.
  2:{ inv_exec. refine (conj _ (conj _ _)).
      - done.
      - intros _ Hbad. exfalso. revert Hbatch. unfold createWorkflowExecutionBatch.
        destruct (CreateWorkflowExecutionWithinBatch_zombie d request []
                    (UnixNanoToDBTimestamp now) Hmode) as (pd & pw & pr & ii & ->).
        destruct (ValidateCreateWorkflowStateCloseStatus _ _); [done|].
        by rewrite decide_True.
      - intros b r Hin. inv_elem. }
  destruct (createWorkflowExecutionBatch_zombie _ _ _ _ _ _ Hmode Hkeep Hbatch)
    as (-> & Hb & Hsome & Hnone).
  split; [done|].
  destruct (ValidateCreateWorkflowStateCloseStatus _ _) as [e|] eqn:Hv.
  - rewrite (Hsome e eq_refl) in H. inv_exec. split.
    + eauto.
    + intros b r Hin. inv_elem.
  - destruct err as [e|].
    + inv_exec. split.
      * intros _ Hbad. destruct (Hnone eq_refl Hbad) as (msg & [= ->]). eauto.
      * intros b r Hin. inv_elem.
    + inv_answers; (split; [|intros b r Hin; inv_elem; done]);
        intros _ Hbad; by destruct (Hnone eq_refl Hbad).
Qed.

Lemma createExecutionRow_returns d request b pd pw pr initiatedID now workflowID runID blob :
  WorkflowId (CreateReq.Execution request) = Some workflowID →
  RunId (CreateReq.Execution request) = Some runID →
  CreateReq.PreviousAutoResetPoints request = Some blob →
  ∃ b', createExecutionRow d request b pd pw pr initiatedID now = Returns b'.
Proof.
  intros Hw Hr Hblob. unfold createExecutionRow. rewrite Hw, Hr, Hblob.
  destruct (CreateReq.ReplicationState request);
    [|destruct (CreateReq.VersionHistories request); [destruct (FromDataBlob _)|]];
    simpl; eauto.
Qed.

(** C9.  A request in the mode WorkflowIDReuse without replication state,
    once past the validation and with its ids and reset points set,
    leaves [CreateWorkflowExecutionWithinBatch] with its mode overwritten
    by ContinueAsNew; the statement added for the current-execution row
    is the one of [templateUpdateCurrentWorkflowExecutionQuery], whose
    only condition value is the previous run id, followed by the insert
    of the row; the call does what it does for the same request in the
    mode ContinueAsNew. *)
Theorem workflow_id_reuse_without_replication_state d request b now workflowID runID blob :
  CreateReq.CreateWorkflowMode request = CreateWorkflowModeWorkflowIDReuse →
  CreateReq.ReplicationState request = None →
  ValidateCreateWorkflowStateCloseStatus
    (CreateReq.State request) (CreateReq.CloseStatus request) = None →
  WorkflowId (CreateReq.Execution request) = Some workflowID →
  RunId (CreateReq.Execution request) = Some runID →
  CreateReq.PreviousAutoResetPoints request = Some blob →
  let request' := CreateReq.setCreateWorkflowMode request CreateWorkflowModeContinueAsNew in
  let update :=
    Query templateUpdateCurrentWorkflowExecutionQuery
      (currentExecutionSetArgs runID (CreateReq.RequestID request)
         (CreateReq.State request) (CreateReq.CloseStatus request)
         EmptyVersion EmptyVersion
       ++ currentExecutionKeyArgs d (CreateReq.DomainID request) workflowID
       ++ [ VString (CreateReq.PreviousRunID request) ]) in
  (∃ insert,
     CreateWorkflowExecutionWithinBatch d request b now
     = Returns (request', b ++ [update; insert], None))
  ∧ CreateReq.CreateWorkflowMode request' = CreateWorkflowModeContinueAsNew
  ∧ CreateReq.CreateWorkflowMode request' ≠ CreateReq.CreateWorkflowMode request
  ∧ CreateWorkflowExecutionWithinBatch d request b now
    = CreateWorkflowExecutionWithinBatch d request' b now
  ∧ stmt update ≠ templateUpdateCurrentWorkflowExecutionForNewQuery.
Proof.
  intros Hmode Hrs Hvalid Hw Hr Hblob request' update.
  destruct createWorkflowModes_ne as (Hne & _).
  assert (Hcall : ∀ r,
    CreateReq.CreateWorkflowMode r = CreateWorkflowModeWorkflowIDReuse
    ∨ CreateReq.CreateWorkflowMode r = CreateWorkflowModeContinueAsNew →
    CreateReq.setCreateWorkflowMode r CreateWorkflowModeContinueAsNew = request' →
    CreateReq.ReplicationState r = None →
    CreateReq.State r = CreateReq.State request →
    CreateReq.CloseStatus r = CreateReq.CloseStatus request →
    CreateReq.ParentDomainID r = CreateReq.ParentDomainID request →
    (CreateReq.CreateWorkflowMode r = CreateWorkflowModeContinueAsNew → r = request') →
    ∃ pd pw pr ii,
      CreateWorkflowExecutionWithinBatch d r b now
      = (b' ←! createExecutionRow d request' (b ++ [update]) pd pw pr ii now;
         Returns (request', b', None))
      ∧ (pd, pw, pr, ii)
        = if decide (CreateReq.ParentDomainID request = "")
          then (emptyDomainID, "", emptyRunID, emptyInitiatedID)
          else (CreateReq.ParentDomainID request,
                GetWorkflowId (CreateReq.ParentExecution request'),
                GetRunId (CreateReq.ParentExecution request'),
                CreateReq.InitiatedID request')).
  { intros r Hr_mode Hset Hr_rs Hstate Hclose Hparent Hsame.
    pose proof (f_equal CreateReq.ParentExecution Hset) as Hpe.
    pose proof (f_equal CreateReq.InitiatedID Hset) as Hii.
    subst request'. simpl in Hpe, Hii.
    unfold CreateWorkflowExecutionWithinBatch.
    rewrite Hstate, Hclose, Hvalid, Hparent, Hr_rs.
    assert (Hreq : (if decide (CreateReq.CreateWorkflowMode r
                               = CreateWorkflowModeWorkflowIDReuse)
                    then CreateReq.setCreateWorkflowMode r CreateWorkflowModeContinueAsNew
                    else r)
                   = CreateReq.setCreateWorkflowMode request
                       CreateWorkflowModeContinueAsNew).
    { destruct (decide _) as [|Hn]; [done|]. apply Hsame. tauto. }
    destruct (decide (CreateReq.ParentDomainID request = "")); cbv zeta beta iota;
      rewrite Hreq; simpl;
      rewrite decide_True by done; unfold GetRunId; rewrite Hw, Hr; simpl;
      eexists _, _, _, _; (split; [reflexivity|]).
    - reflexivity.
    - by rewrite Hpe, Hii. }
  destruct (Hcall request) as (pd & pw & pr & ii & Hfirst & _); try done; [by left|..].
  { intros Hcan. congruence. }
  destruct (Hcall request') as (pd' & pw' & pr' & ii' & Hsecond & Hp'); try done; [by right|..].
  destruct (Hcall request) as (pd2 & pw2 & pr2 & ii2 & Hfirst2 & Hp2); try done; [by left|..].
  { intros Hcan. congruence. }
  assert (Hsame : (pd2, pw2, pr2, ii2) = (pd', pw', pr', ii')) by congruence.
  injection Hsame as -> -> -> ->.
  destruct (createExecutionRow_returns d request' (b ++ [update]) pd' pw' pr' ii' now
              workflowID runID blob Hw Hr Hblob) as (b' & Hrow).
  destruct (createExecutionRow_appends _ _ _ _ _ _ _ _ _ Hrow) as (insert & -> & _).
  refine (conj _ (conj _ (conj _ (conj _ _)))).
  - exists insert. rewrite Hfirst2, Hrow. simpl. by rewrite <- app_assoc.
  - reflexivity.
  - simpl. congruence.
  - by rewrite Hfirst2, Hsecond.
  - simpl. compute_done.
Qed.

End CreateProperties.

(** ** Execution store: the reset path *)

Section ResetProperties.
Context {C : Collaborators}.

Lemma batchQueryHelper_app b s useCondition condition a :
  batchQueryHelper b s useCondition condition a
  = b ++ batchQueryHelper [] s useCondition condition a.
Proof. unfold batchQueryHelper, batchQuery. by destruct useCondition. Qed.

Lemma updateMutableState_app d b info rs vh now useCondition condition :
  updateMutableState d b info rs vh now useCondition condition
  = (x ←! updateMutableState d [] info rs vh now useCondition condition; Returns (b ++ x)).
Proof.
  unfold updateMutableState.
  destruct (FromDataBlob (ExecInfo.CompletionEvent info)) as [cd ce].
  destruct (derefData _); simpl; [|done].
  destruct rs as [rs|]; [|destruct vh as [vh|]; [destruct (FromDataBlob _)|]];
    simpl; by rewrite batchQueryHelper_app.
Qed.

Lemma whenNonEmpty_app {A} (xs : list A) (f : batch → batch) b :
  (∀ b, f b = b ++ f []) → whenNonEmpty xs f b = b ++ whenNonEmpty xs f [].
Proof. intros Hf. destruct xs; simpl; [by rewrite app_nil_r|apply Hf]. Qed.

Lemma whenNonEmptyErr_app {A} (xs : list A) (f : batch → batch * option error) b :
  (∀ b, f b = (b ++ (f []).1, (f []).2)) →
  whenNonEmptyErr xs f b = (b ++ (whenNonEmptyErr xs f []).1, (whenNonEmptyErr xs f []).2).
Proof. intros Hf. destruct xs; simpl; [by rewrite app_nil_r|apply Hf]. Qed.

(** Rewriting that brings every helper to the empty batch. *)
Ltac nonempty u := lazymatch u with [] => fail | _ => idtac end.

Ltac push_batch Htransfer Hreplication Htimer Hactivity Htimers Hcancel Hchild Hsignal
    Hrequested :=
  repeat match goal with
  | |- context [createTransferTasks ?u ?ts ?a ?w ?r] =>
      nonempty u; rewrite (Htransfer u ts a w r)
  | |- context [createReplicationTasks ?u ?ts ?a ?w ?r] =>
      nonempty u; rewrite (Hreplication u ts a w r)
  | |- context [createTimerTasks ?u ?ts ?a ?w ?r ?n] =>
      nonempty u; rewrite (Htimer u ts a w r n)
  | |- context [whenNonEmpty ?xs ?f ?u] =>
      nonempty u;
      rewrite (whenNonEmpty_app xs f u)
        by (intros;
            first [apply Hreplication | apply Htimers | apply Hcancel | apply Hsignal
                  | apply Hrequested | apply Htimer | apply Htransfer])
  | |- context [whenNonEmptyErr ?xs ?f ?u] =>
      nonempty u;
      rewrite (whenNonEmptyErr_app xs f u)
        by (intros; first [apply Hactivity | apply Hchild])
  | |- context [updateMutableState ?d ?u ?i ?rs ?vh ?n ?c ?k] =>
      nonempty u; rewrite (updateMutableState_app d u i rs vh n c k)
  end.

(** The statements that follow the check of the fork point do not depend
    on what the batch holds before them. *)
Lemma resetBatchTail_app d now request b :
  resetHelpersAppend →
  resetBatchTail d now request b
  = (r ←! resetBatchTail d now request []; Returns (b ++ r.1, r.2)).
Proof.
  intros (Htransfer & Hreplication & Htimer & Hactivity & Htimers & Hcancel & Hchild
          & Hsignal & Hrequested).
  unfold resetBatchTail. cbv zeta.
  set (snapshot := ResetReq.NewWorkflowSnapshot request).
  destruct (ResetReq.UpdateCurr request); simpl;
    repeat (push_batch Htransfer Hreplication Htimer Hactivity Htimers Hcancel Hchild
              Hsignal Hrequested;
            simpl;
            match goal with
            | |- context [updateMutableState ?d [] ?i ?rs ?vh ?n ?c ?k] =>
                destruct (updateMutableState d [] i rs vh n c k) as [?|]; simpl; [|done]
            | |- context [whenNonEmptyErr ?xs ?f []] =>
                destruct (whenNonEmptyErr xs f []) as [? [?|]]; simpl
            end);
    push_batch Htransfer Hreplication Htimer Hactivity Htimers Hcancel Hchild
      Hsignal Hrequested;
    by rewrite <- ?app_assoc.
Qed.

Lemma applyCheckWorkflowExecution_unchanged d dom w run next row row' :
  applyCheckWorkflowExecution row (checkWorkflowExecutionQuery d dom w run next) = Some row' →
  asInt64 (row !! "next_event_id") = Some next ∧ row' = row.
Proof.
  unfold applyCheckWorkflowExecution. simpl. intros H.
  destruct (decide _) as [Heq|]; [|discriminate]. inversion H; subst. split; [done|].
  apply insert_id. unfold asInt64 in Heq.
  destruct (row !! "next_event_id") as [[]|]; congruence.
Qed.

Lemma applyCheckWorkflowExecution_applied d dom w run next row :
  asInt64 (row !! "next_event_id") = Some next →
  applyCheckWorkflowExecution row (checkWorkflowExecutionQuery d dom w run next) = Some row.
Proof.
  intros Heq. unfold applyCheckWorkflowExecution. simpl.
  rewrite decide_True by done. f_equal.
  apply insert_id. unfold asInt64 in Heq.
  destruct (row !! "next_event_id") as [[]|]; congruence.
Qed.

(** [ResetWorkflowExecution] executes the batch that
    [resetWorkflowExecutionBatch] builds. *)
Lemma ResetWorkflowExecution_executes_batch d now request t res b r :
  exec (ResetWorkflowExecution d now request) t res →
  EvBatchCAS b r ∈ t →
  resetWorkflowExecutionBatch d (UnixNanoToDBTimestamp now) request = Returns (b, None).
Proof.
  intros H Hin. unfold ResetWorkflowExecution in H. cbv zeta in H.
  destruct (resetWorkflowExecutionBatch _ _ _) as [[b' [e|]]|p]; inv_exec; inv_elem.
  done.
Qed.

(** C6.  With helpers that only add statements, the batch of a reset is
    the update of the current-execution row, then the check of the
    fork-point run exactly when that run is not the current run, then
    statements that do not depend on the fork point.  The check is built
    from [templateCheckWorkflowExecutionQuery] for the run [BaseRunID]; it
    applies when the stored [next_event_id] is [BaseRunNextEventID], and
    then leaves the row as it was. *)
Theorem reset_checks_fork_point_run d now request b err :
  resetHelpersAppend →
  resetWorkflowExecutionBatch d now request = Returns (b, err) →
  let curr := ResetReq.CurrExecutionInfo request in
  let check :=
    checkWorkflowExecutionQuery d (ExecInfo.DomainID curr) (ExecInfo.WorkflowID curr)
      (ResetReq.BaseRunID request) (ResetReq.BaseRunNextEventID request) in
  ∃ tail,
    resetBatchTail d now request [] = Returns (tail, err)
    ∧ (ResetReq.BaseRunID request ≠ ExecInfo.RunID curr →
       b = resetCurrentExecutionQuery d request :: check :: tail)
    ∧ (ResetReq.BaseRunID request = ExecInfo.RunID curr →
       b = resetCurrentExecutionQuery d request :: tail)
    ∧ (∀ baseRunID next,
         resetBatchTail d now (setBaseRun request baseRunID next) []
         = resetBatchTail d now request []
         ∧ resetCurrentExecutionQuery d (setBaseRun request baseRunID next)
           = resetCurrentExecutionQuery d request)
    ∧ stmt check = templateCheckWorkflowExecutionQuery
    ∧ (∀ row row',
         applyCheckWorkflowExecution row check = Some row' →
         asInt64 (row !! "next_event_id") = Some (ResetReq.BaseRunNextEventID request)
         ∧ row' = row)
    ∧ (∀ row,
         asInt64 (row !! "next_event_id") = Some (ResetReq.BaseRunNextEventID request) →
         applyCheckWorkflowExecution row check = Some row).
Proof.
  intros Happend H curr check.
  unfold resetWorkflowExecutionBatch in H. cbv zeta in H.
  rewrite resetBatchTail_app in H by done.
  apply obind_Returns in H as ([tail err'] & Htail & [= <- <-]).
  exists tail. split; [done|].
  unfold forkRunCheck. fold curr. fold check.
  refine (conj _ (conj _ (conj _ (conj _ (conj _ _))))).
  - intros Hne. by rewrite decide_True.
  - intros Heq. rewrite decide_False by tauto. done.
  - intros baseRunID next. split; reflexivity.
  - reflexivity.
  - intros row row'. apply applyCheckWorkflowExecution_unchanged.
  - intros row. apply applyCheckWorkflowExecution_applied.
Qed.

End ResetProperties.

(** ** The concrete collaborators meet the assumptions made on them *)

Lemma sample_validation_internal s c e :
  ValidateCreateWorkflowStateCloseStatus (Collaborators := sampleCollaborators) s c = Some e →
  kindOf e = KInternalService.
Proof. simpl. destruct (decide _); [|discriminate]. by intros [= <-]. Qed.

Lemma sampleTaskInsert_does_not_write_current table v :
  table ∈ ["transfer"; "replication"; "timer"] →
  ¬ writesCurrentExecution (sampleTaskInsert table v).
Proof.
  unfold writesCurrentExecution. intros H.
  repeat (apply elem_of_cons in H as [->|H]); [..|by apply elem_of_nil in H];
    simpl; compute_done.
Qed.

Lemma sample_taskHelpersKeep :
  taskHelpersKeep (H := sampleCollaborators) (λ q, ¬ writesCurrentExecution q).
Proof.
  repeat split; simpl; intros; (apply Forall_app; split; [done|]);
    apply Forall_fmap, Forall_true; intros v;
    apply sampleTaskInsert_does_not_write_current; set_solver.
Qed.

Lemma sample_resetHelpersAppend : resetHelpersAppend (H := sampleCollaborators).
Proof. repeat split. Qed.

(** Witness of C4: a Zombie create whose assertion passes and whose batch
    is applied; the batch holds the insert of the row, one transfer task
    and the lease check. *)
Lemma zombie_create_leaves_current_execution_alone_witness :
  Forall (λ q, ¬ writesCurrentExecution q) (createBatchOf (sampleCreateRequest 3 3 None)).
Proof.
  destruct (zombie_create_leaves_current_execution_alone (C := sampleCollaborators)
              sampleStore 0 (sampleCreateRequest 3 3 None) eq_refl
              sample_validation_internal sample_taskHelpersKeep
              [ EvAssertNotCurrent "d0000000-0000-4000-8000-000000000001" "order-42"
                  sampleRunA None;
                EvBatchCAS (createBatchOf (sampleCreateRequest 3 3 None)) BatchApplied ]
              (Returns (sampleCreateRequest 3 3 None, Ok tt))
              ltac:(vm_compute; run_exec))
    as (o & t' & _ & _ & _ & Hb).
  eapply (Hb _ BatchApplied). apply elem_of_cons. right. apply elem_of_cons. by left.
Defined.

(** Witness of C9: the request in the mode WorkflowIDReuse (1) without
    replication state. *)
Lemma workflow_id_reuse_without_replication_state_witness :
  ∃ insert,
    CreateWorkflowExecutionWithinBatch (C := sampleCollaborators) sampleStore
      (sampleCreateRequest 1 0 None) [] 0
    = Returns
        (CreateReq.setCreateWorkflowMode (sampleCreateRequest 1 0 None) 2,
         [] ++ [ Query templateUpdateCurrentWorkflowExecutionQuery
                   (currentExecutionSetArgs sampleRunA
                      "c0000000-0000-4000-8000-00000000000c" 0 0 (-24) (-24)
                    ++ currentExecutionKeyArgs (C := sampleCollaborators) sampleStore
                         "d0000000-0000-4000-8000-000000000001" "order-42"
                    ++ [ VString sampleRunB ]);
                 insert ],
         None).
Proof.
  exact (proj1 (workflow_id_reuse_without_replication_state (C := sampleCollaborators)
                  sampleStore (sampleCreateRequest 1 0 None) [] 0 "order-42" sampleRunA
                  sampleBlob eq_refl eq_refl eq_refl eq_refl eq_refl eq_refl)).
Defined.

(** Witness of C6: a reset forked from the run [a0..0a] while [b0..0b] is
    the current run. *)
Lemma reset_checks_fork_point_run_witness :
  ∃ tail,
    resetBatchOf (sampleResetRequest sampleRunA false)
    = resetCurrentExecutionQuery (C := sampleCollaborators) sampleStore
        (sampleResetRequest sampleRunA false)
      :: checkWorkflowExecutionQuery (C := sampleCollaborators) sampleStore
           "d0000000-0000-4000-8000-000000000001" "order-42" sampleRunA 12
      :: tail.
Proof.
  destruct (reset_checks_fork_point_run (C := sampleCollaborators) sampleStore 0
              (sampleResetRequest sampleRunA false)
              (resetBatchOf (sampleResetRequest sampleRunA false)) None
              sample_resetHelpersAppend ltac:(vm_compute; reflexivity))
    as (tail & _ & Hne & _).
  exists tail. apply Hne. simpl. unfold sampleRunA, sampleRunB. congruence.
Defined.

(** ** The conditional-failure classifier *)

Section ClassifierProperties.
Context {C : Collaborators}.

(** One round of the loop adds the three predicates of the row to the
    three flags. *)
Lemma scanRow_spec requestRunID requestCondition requestRangeID requestConditionalRunID
    s previous rowType runID :
  requestRunID ≠ permanentRunID →
  asInt (previous !! "type") = Some rowType →
  asUUID (previous !! "run_id") = Some runID →
  wellFormedRow previous →
  ∃ s',
    scanRow requestRunID requestCondition requestRangeID requestConditionalRunID
      s previous rowType runID = Returns s'
    ∧ rangeIDUnmatch s' = rangeIDUnmatch s || shardTokenDiffers requestRangeID previous
    ∧ runIDUnmatch s'
      = runIDUnmatch s || currentRunDiffers requestConditionalRunID previous
    ∧ nextEventIDUnmatch s'
      = nextEventIDUnmatch s || nextEventIDDiffers requestRunID requestCondition previous
    ∧ allPrevious s' = allPrevious s.
Proof.
  intros Hrun Htype Hrunid (_ & _ & Hmarker).
  unfold scanRow, shardTokenDiffers, currentRunDiffers, nextEventIDDiffers, isCurrentMarker
    in *.
  rewrite Htype, Hrunid in *.
  assert (Hshard : rowTypeShard ≠ rowTypeExecution) by done.
  destruct (decide (rowType = rowTypeShard)) as [->|Hns].
  { eexists. split; [reflexivity|]. simpl. rewrite !orb_false_r.
    repeat split; by destruct (asInt64 (previous !! "range_id")). }
  destruct (decide (rowType = rowTypeExecution ∧ runID = requestRunID)) as [[-> ->]|Hnt].
  { eexists. split; [reflexivity|]. simpl.
    repeat (case_bool_decide; simplify_eq; simpl).
    rewrite !orb_false_r.
    repeat split; by destruct (asInt64 (previous !! "next_event_id")). }
  destruct (decide (rowType = rowTypeExecution ∧ runID = permanentRunID)) as [[-> ->]|Hnm].
  { destruct Hmarker as [cur Hcur]; [by rewrite !bool_decide_eq_true_2|].
    unfold mustUUID. rewrite Hcur. simpl.
    eexists. split; [reflexivity|]. simpl.
    repeat (case_bool_decide; simplify_eq; simpl); rewrite ?orb_false_r; done. }
  eexists. split; [reflexivity|]. clear Hmarker.
  repeat (case_bool_decide; simplify_eq; simpl); rewrite ?orb_false_r; try done;
    exfalso; naive_solver.
Qed.

(** The loop on well-formed rows reads them all: its flags are the three
    predicates over the rows, and [allPrevious] is the rows. *)
Lemma conditionalUpdateFailureLoop_spec requestRunID requestCondition requestRangeID
    requestConditionalRunID iter :
  requestRunID ≠ permanentRunID →
  ∀ s previous,
    Forall wellFormedRow (previous :: iter) →
    ∃ s',
      conditionalUpdateFailureLoop requestRunID requestCondition requestRangeID
        requestConditionalRunID s previous iter = Returns s'
      ∧ rangeIDUnmatch s'
        = rangeIDUnmatch s || existsb (shardTokenDiffers requestRangeID) (previous :: iter)
      ∧ runIDUnmatch s'
        = runIDUnmatch s
          || existsb (currentRunDiffers requestConditionalRunID) (previous :: iter)
      ∧ nextEventIDUnmatch s'
        = nextEventIDUnmatch s
          || existsb (nextEventIDDiffers requestRunID requestCondition) (previous :: iter)
      ∧ allPrevious s' = allPrevious s ++ previous :: iter.
Proof.
  intros Hrun. induction iter as [|row' iter IH]; intros s previous Hwf.
  - apply Forall_cons in Hwf as [Hwf _].
    pose proof Hwf as ([rowType Htype] & [runID Hrunid] & _).
    destruct (scanRow_spec requestRunID requestCondition requestRangeID
                requestConditionalRunID s previous rowType runID Hrun Htype Hrunid Hwf)
      as (s' & Hscan & Hr & Hc & Hn & Ha).
    simpl. rewrite Htype. unfold mustUUID. rewrite Hrunid. simpl. rewrite Hscan. simpl.
    eexists. split; [reflexivity|]. simpl.
    rewrite Hr, Hc, Hn, Ha, !orb_false_r. done.
  - apply Forall_cons in Hwf as [Hwf Hrest].
    pose proof Hwf as ([rowType Htype] & [runID Hrunid] & _).
    destruct (scanRow_spec requestRunID requestCondition requestRangeID
                requestConditionalRunID s previous rowType runID Hrun Htype Hrunid Hwf)
      as (s' & Hscan & Hr & Hc & Hn & Ha).
    destruct (IH (appendPrevious s' previous) row' Hrest)
      as (s'' & Hloop & Hr' & Hc' & Hn' & Ha').
    exists s''. split.
    + simpl. rewrite Htype. unfold mustUUID. rewrite Hrunid. simpl. rewrite Hscan. simpl.
      exact Hloop.
    + simpl in *. rewrite Hr', Hc', Hn', Ha', Hr, Hc, Hn, Ha, !orb_assoc, <- app_assoc.
      done.
Qed.

Lemma getExecutionConditionalUpdateFailure_spec d previous iter requestRunID
    requestCondition requestRangeID requestConditionalRunID :
  requestRunID ≠ permanentRunID →
  Forall wellFormedRow (previous :: iter) →
  ∃ e,
    getExecutionConditionalUpdateFailure d previous iter requestRunID requestCondition
      requestRangeID requestConditionalRunID = Returns e
    ∧ match classifyBySpec requestRunID requestCondition requestRangeID
              requestConditionalRunID (previous :: iter) with
      | ClassShardOwnershipLost => kindOf e = KShardOwnershipLost
      | ClassCurrentWorkflowConditionFailed => kindOf e = KCurrentWorkflowConditionFailed
      | ClassConditionFailed => kindOf e = KConditionFailed ∧ columnsOf e = []
      | ClassCatchAll rows =>
          kindOf e = KConditionFailed ∧ columnsOf e = [previous :: iter]
      end.
Proof.
  intros Hrun Hwf.
  destruct (conditionalUpdateFailureLoop_spec requestRunID requestCondition requestRangeID
              requestConditionalRunID iter Hrun initialScan previous Hwf)
    as (s & Hloop & Hr & Hc & Hn & Ha).
  unfold getExecutionConditionalUpdateFailure, classifyBySpec. rewrite Hloop. simpl in *.
  rewrite <- Hr, <- Hc, <- Hn.
  destruct (rangeIDUnmatch s); [eauto|].
  destruct (runIDUnmatch s); [eauto|].
  destruct (nextEventIDUnmatch s); [eauto|].
  eexists. split; [reflexivity|]. split; [reflexivity|].
  unfold columnsOf. simpl. by rewrite Ha.
Qed.

(** One round of the loop of the create path: it returns at a row that
    decides, with the error of that row, and goes on otherwise. *)
Lemma createFailureReasonRound_spec d request previous rowType runID next :
  wellFormedCreateRow request previous →
  asInt (previous !! "type") = Some rowType →
  asUUID (previous !! "run_id") = Some runID →
  ∃ r,
    createFailureReasonRound d request previous rowType runID next
    = (if createDecides request previous then Returns r else next)
    ∧ (createDecides request previous = true →
       ∃ e, r.1 = Some e
            ∧ kindOf e = if shardTokenDiffers (CreateReq.RangeID request) previous
                         then KShardOwnershipLost
                         else markerKind request previous).
Proof.
  intros (_ & _ & Hmarker) Htype Hrunid.
  unfold createFailureReasonRound, createDecides, markerKind, shardTokenDiffers,
    currentRunDiffers, isCurrentMarker in *.
  rewrite Htype, Hrunid in *.
  destruct (decide (rowType = rowTypeShard)) as [->|Hns].
  { simpl. rewrite orb_false_r.
    destruct (asInt64 (previous !! "range_id")) as [n|]; simpl.
    - destruct (decide (n ≠ CreateReq.RangeID request)).
      + rewrite bool_decide_eq_true_2 by done. eexists. split; [reflexivity|].
        intros _. eexists. split; reflexivity.
      + rewrite bool_decide_eq_false_2 by done. exists (None, ∅). split; [done|].
        discriminate.
    - exists (None, ∅). split; [done|]. discriminate. }
  rewrite (bool_decide_eq_false_2 (Some rowType = Some rowTypeShard)) by congruence.
  simpl.
  destruct (decide (rowType = rowTypeExecution ∧ runID = permanentRunID)) as [[-> ->]|Hnm].
  { rewrite !bool_decide_eq_true_2 in * by done. simpl.
    destruct (Hmarker eq_refl) as [[[ex Hex] Hrs]|[Hex [cur Hcur]]]; rewrite Hex.
    - destruct (CreateReq.ReplicationState request) as [rs|].
      + destruct Hrs as [m Hm]; [done|]. unfold mustMap. rewrite Hm. simpl.
        eexists. split; [reflexivity|]. intros _. eexists. split; reflexivity.
      + simpl. eexists. split; [reflexivity|]. intros _. eexists. split; reflexivity.
    - unfold mustUUID. rewrite Hcur. simpl.
      destruct (decide (cur ≠ GetRunId (CreateReq.Execution request))).
      + rewrite bool_decide_eq_true_2 by done. eexists. split; [reflexivity|].
        intros _. eexists. split; reflexivity.
      + rewrite bool_decide_eq_false_2 by done. eexists. split; [reflexivity|].
        intros _. eexists. split; reflexivity. }
  clear Hmarker. exists (None, ∅).
  repeat (case_bool_decide; simplify_eq; simpl); try done; exfalso; naive_solver.
Qed.

(** The loop of the create path returns at the first row that decides. *)
Lemma createFailureReasonLoop_spec d request iter :
  ∀ previous,
    Forall (wellFormedCreateRow request) (previous :: iter) →
    ∃ r,
      createFailureReasonLoop d request previous iter = Returns r
      ∧ match find (createDecides request) (previous :: iter) with
        | None => r.1 = None
        | Some row =>
            ∃ e, r.1 = Some e
                 ∧ kindOf e = if shardTokenDiffers (CreateReq.RangeID request) row
                              then KShardOwnershipLost
                              else markerKind request row
        end.
Proof.
  induction iter as [|row' iter IH]; intros previous Hwf.
  - apply Forall_cons in Hwf as [Hwf _].
    pose proof Hwf as ([rowType Htype] & [runID Hrunid] & _).
    destruct (createFailureReasonRound_spec d request previous rowType runID
                (Returns (None, ∅)) Hwf Htype Hrunid) as (r & Heq & Hr).
    simpl. rewrite Htype. unfold mustUUID at 1. rewrite Hrunid. simpl.
    rewrite Heq. destruct (createDecides request previous); eauto.
  - apply Forall_cons in Hwf as [Hwf Hrest].
    pose proof Hwf as ([rowType Htype] & [runID Hrunid] & _).
    destruct (IH row' Hrest) as (r' & Hloop & Hr').
    destruct (createFailureReasonRound_spec d request previous rowType runID
                (createFailureReasonLoop d request row' iter) Hwf Htype Hrunid)
      as (r & Heq & Hr).
    cbn [createFailureReasonLoop find]. rewrite Htype. unfold mustUUID at 1.
    rewrite Hrunid. cbn [obind]. rewrite Heq.
    destruct (createDecides request previous); [eauto|].
    exists r'. split; [exact Hloop|exact Hr'].
Qed.


Lemma createConditionalFailure_spec d request previous iter :
  Forall (wellFormedCreateRow request) (previous :: iter) →
  ∃ e,
    createConditionalFailure d request previous iter = Returns e
    ∧ kindOf e = createKind request (previous :: iter).
Proof.
  intros Hwf.
  destruct (createFailureReasonLoop_spec d request iter previous Hwf) as ([o p] & Hloop & Hr).
  unfold createConditionalFailure, createKind. rewrite Hloop. simpl obind.
  destruct (find _ _) as [row|]; simpl in Hr.
  - destruct Hr as (e & -> & He). eauto.
  - subst o. eauto.
Qed.

(** On a rejected batch the three calls of the update and reset paths
    return what the classifier returns, with the arguments they hand to
    it. *)
Lemma rejected_batch_is_classified d now previous iter :
  (∀ request t res b,
     exec (UpdateWorkflowExecution d now request) t res →
     EvBatchCAS b (BatchNotApplied previous iter) ∈ t →
     let info := Mutation.ExecutionInfo (UpdateReq.UpdateWorkflowMutation request) in
     ∃ request',
       res = (e ←! getExecutionConditionalUpdateFailure d previous iter
                     (ExecInfo.RunID info)
                     (Mutation.Condition (UpdateReq.UpdateWorkflowMutation request))
                     (UpdateReq.RangeID request) (ExecInfo.RunID info);
              Returns (request', Some e)))
  ∧ (∀ request t res b,
       exec (ResetWorkflowExecution d now request) t res →
       EvBatchCAS b (BatchNotApplied previous iter) ∈ t →
       let info := ResetReq.CurrExecutionInfo request in
       res = (e ←! getExecutionConditionalUpdateFailure d previous iter
                     (ExecInfo.RunID info) (ResetReq.Condition request)
                     (ResetReq.RangeID request) (ExecInfo.RunID info);
              Returns (Some e)))
  ∧ (∀ request t res b,
       exec (ResetMutableState d request) t res →
       EvBatchCAS b (BatchNotApplied previous iter) ∈ t →
       let snapshot := ResetMSReq.ResetWorkflowSnapshot request in
       res = (e ←! getExecutionConditionalUpdateFailure d previous iter
                     (ExecInfo.RunID (Snapshot.ExecutionInfo snapshot))
                     (Snapshot.Condition snapshot)
                     (ResetMSReq.RangeID request) (ResetMSReq.PrevRunID request);
              Returns (Some e))).
Proof.
  refine (conj _ (conj _ _)).
  - intros request t res b H Hin. unfold UpdateWorkflowExecution in H. cbv zeta in H.
    destruct (applyWorkflowMutationBatch _ _) as [b0 [e|]]; [inv_exec; inv_elem|].
    destruct (UpdateReq.ContinueAsNew request) as [startReq|].
    + destruct (CreateWorkflowExecutionWithinBatch _ _ _ _) as [[[startReq' b'] [e|]]|r];
        inv_exec; inv_elem.
      eexists. unfold afterBatch.
      by destruct (getExecutionConditionalUpdateFailure _ _ _ _ _ _ _).
    + repeat (destruct (decide _) in H).
      * inv_answers; inv_elem. eexists. unfold afterBatch.
        by destruct (getExecutionConditionalUpdateFailure _ _ _ _ _ _ _).
      * destruct (Mutation.ReplicationState _); inv_exec; inv_elem;
          eexists; unfold afterBatch;
          by destruct (getExecutionConditionalUpdateFailure _ _ _ _ _ _ _).
      * inv_exec. inv_elem.
  - intros request t res b H Hin. unfold ResetWorkflowExecution in H. cbv zeta in H.
    destruct (resetWorkflowExecutionBatch _ _ _) as [[b' [e|]]|r]; inv_exec; inv_elem.
    unfold afterBatch. by destruct (getExecutionConditionalUpdateFailure _ _ _ _ _ _ _).
  - intros request t res b H Hin. unfold ResetMutableState in H. cbv zeta in H.
    destruct (Snapshot.ReplicationState _); [|inv_exec; inv_elem].
    destruct (applyWorkflowSnapshotBatch _ _) as [b' [e|]]; inv_exec; inv_elem.
    unfold afterBatch. by destruct (getExecutionConditionalUpdateFailure _ _ _ _ _ _ _).
Qed.

(** [CreateWorkflowExecutionWithinBatch] leaves the request as it is, or
    with its mode overwritten by ContinueAsNew. *)
Lemma CreateWorkflowExecutionWithinBatch_request d request b now request' b' err :
  CreateWorkflowExecutionWithinBatch d request b now = Returns (request', b', err) →
  request' = request
  ∨ request' = CreateReq.setCreateWorkflowMode request CreateWorkflowModeContinueAsNew.
Proof.
  unfold CreateWorkflowExecutionWithinBatch. intros H.
  destruct (ValidateCreateWorkflowStateCloseStatus _ _); [inversion H; auto|].
  destruct (decide (CreateReq.ParentDomainID request = ""));
    destruct (CreateReq.ReplicationState request); cbv zeta beta iota in H;
    repeat (destruct (decide _) in H; simpl in H);
    repeat (apply obind_Returns in H as (? & ? & H));
    inversion H; auto.
Qed.

(** On a rejected batch [CreateWorkflowExecution] returns what its own
    loop returns. *)
Lemma CreateWorkflowExecution_rejected d now request t res b previous iter :
  exec (CreateWorkflowExecution d now request) t res →
  EvBatchCAS b (BatchNotApplied previous iter) ∈ t →
  ∃ request',
    (request' = request
     ∨ request' = CreateReq.setCreateWorkflowMode request CreateWorkflowModeContinueAsNew)
    ∧ res = (e ←! createConditionalFailure d request' previous iter;
             Returns (request', Err e)).
Proof.
  intros H Hin. unfold CreateWorkflowExecution in H. cbv zeta in H.
  assert (Hrequest : ∀ request' b' err,
    createWorkflowExecutionBatch d (UnixNanoToDBTimestamp now) request
    = Returns (request', b', err) →
    request' = request
    ∨ request' = CreateReq.setCreateWorkflowMode request CreateWorkflowModeContinueAsNew).
  { unfold createWorkflowExecutionBatch. intros request' b' err Hb.
    apply obind_Returns in Hb as ([[r1 b1] [e1|]] & Hw & Hb).
    - inversion Hb; subst. eapply CreateWorkflowExecutionWithinBatch_request, Hw.
    - repeat (apply obind_Returns in Hb as (? & ? & Hb)). inversion Hb; subst.
      eapply CreateWorkflowExecutionWithinBatch_request, Hw. }
  destruct (createWorkflowExecutionBatch _ _ _) as [[[request' b'] [e|]]|r] eqn:Hb.
  - destruct (decide _) in H; inv_answers; inv_elem.
  - specialize (Hrequest _ _ _ eq_refl).
    destruct (decide _) in H; inv_answers; inv_elem; eauto.
  - destruct (decide _) in H; inv_answers; inv_elem.
Qed.

(** C1 (as amended).  On the rows of a rejected batch of the update and
    reset paths, each with its type tag and run id,
    [getExecutionConditionalUpdateFailure] reads every row and then
    answers in the order of the specification: a shard row with another
    range id gives ShardOwnershipLost; otherwise a marker row with another
    current run id gives CurrentWorkflowConditionFailed; otherwise a row
    of the target run with another next event id gives ConditionFailed;
    otherwise ConditionFailed with the columns of all the rows.  The
    create path has a loop of its own: it answers at the first row that
    is a shard row with another range id (ShardOwnershipLost) or the
    marker row (WorkflowExecutionAlreadyStarted,
    CurrentWorkflowConditionFailed or ConditionFailed), and with
    ShardOwnershipLost when there is no such row. *)
Theorem conditional_failure_classification d previous iter :
  (∀ requestRunID requestCondition requestRangeID requestConditionalRunID,
     requestRunID ≠ permanentRunID →
     Forall wellFormedRow (previous :: iter) →
     ∃ e,
       getExecutionConditionalUpdateFailure d previous iter requestRunID requestCondition
         requestRangeID requestConditionalRunID = Returns e
       ∧ match classifyBySpec requestRunID requestCondition requestRangeID
                 requestConditionalRunID (previous :: iter) with
         | ClassShardOwnershipLost => kindOf e = KShardOwnershipLost
         | ClassCurrentWorkflowConditionFailed =>
             kindOf e = KCurrentWorkflowConditionFailed
         | ClassConditionFailed => kindOf e = KConditionFailed ∧ columnsOf e = []
         | ClassCatchAll rows =>
             kindOf e = KConditionFailed ∧ columnsOf e = [previous :: iter]
         end)
  ∧ (∀ request,
       Forall (wellFormedCreateRow request) (previous :: iter) →
       ∃ e,
         createConditionalFailure d request previous iter = Returns e
         ∧ kindOf e = createKind request (previous :: iter)).
Proof.
  split.
  - intros. by apply getExecutionConditionalUpdateFailure_spec.
  - intros. by apply createConditionalFailure_spec.
Qed.


End ClassifierProperties.

(** ** Shard store and task list store, against the store *)

Section StoreProperties.
Context {C : Collaborators}.

Lemma templates_distinct :
  templateUpdateShardQuery ≠ templateCreateShardQuery
  ∧ templateInsertTaskListQuery ≠ templateCreateShardQuery
  ∧ templateInsertTaskListQuery ≠ templateUpdateShardQuery
  ∧ templateUpdateTaskListQuery ≠ templateCreateShardQuery
  ∧ templateUpdateTaskListQuery ≠ templateUpdateShardQuery
  ∧ templateUpdateTaskListQuery ≠ templateInsertTaskListQuery.
Proof. repeat split; compute_done. Qed.

(** What the store does with the statement of [UpdateShard]. *)
Lemma storeMapScanCAS_UpdateShard st d now request q k :
  UpdateShard d now request = QueryMapScanCAS q k →
  storeMapScanCAS st q
  = (let '(t, r) :=
       updateIfRangeID (executions st)
         (shardKey (ShardInfo.ShardID (usShardInfo request)))
         (PreviousRangeID request)
         (<["shard" := shardValue now (usShardInfo request)]>
            {[ "range_id" := VInt64 (ShardInfo.RangeID (usShardInfo request)) ]}) in
     Some (Store t (tasks st), r)).
Proof.
  destruct templates_distinct as (Hne & _).
  unfold UpdateShard. intros [= <- _]. unfold storeMapScanCAS.
  cbn [stmt args]. rewrite decide_False by done. rewrite decide_True by done.
  cbn [take drop mbind option_bind bigint execKeyOf lookup list_lookup].
  unfold shardUDT. rewrite decide_True by reflexivity.
  cbn [mbind option_bind]. unfold shardKey, shardValue. reflexivity.
Qed.

(** What the store does with the statement of [CreateShard]. *)
Lemma storeMapScanCAS_CreateShard st d now request q k :
  CreateShard d now request = QueryMapScanCAS q k →
  storeMapScanCAS st q
  = (let key := shardKey (ShardInfo.ShardID (csShardInfo request)) in
     let '(t, r) :=
       insertIfNotExists (executions st) key
         (<["shard" := shardValue now (csShardInfo request)]>
            (<["range_id" := VInt64 (ShardInfo.RangeID (csShardInfo request))]>
               (execKeyColumns key))) in
     Some (Store t (tasks st), r)).
Proof.
  unfold CreateShard. intros [= <- _]. unfold storeMapScanCAS.
  cbn [stmt args]. rewrite decide_True by done.
  cbn [take drop mbind option_bind bigint execKeyOf lookup list_lookup].
  unfold shardUDT. rewrite decide_True by reflexivity.
  cbn [mbind option_bind bigint]. unfold shardKey, shardValue. reflexivity.
Qed.



(** C5 (as amended).  [CreateShard] against the store: when the store
    holds no row for the shard id the row is inserted, with the range
    token and the owner of the request, and the call succeeds; when it
    holds one the store is left as it is and the call fails with
    ShardAlreadyExistError, whose message carries the shard id and the
    range token of the [shard] column of the row that stood in the way
    (and no owner). *)
Theorem CreateShard_inserts_when_absent d now st request :
  let key := shardKey (ShardInfo.ShardID (csShardInfo request)) in
  (executions st !! key = None →
   ∃ r shard,
     runStore st (CreateShard d now request)
     = Some (Store (<[key := r]> (executions st)) (tasks st), Returns None)
     ∧ r !! "range_id" = Some (VInt64 (ShardInfo.RangeID (csShardInfo request)))
     ∧ r !! "shard" = Some (VMap shard)
     ∧ shard !! "owner" = Some (VString (ShardInfo.Owner (csShardInfo request)))
     ∧ shard !! "range_id" = Some (VInt64 (ShardInfo.RangeID (csShardInfo request))))
  ∧ (∀ old shard,
       executions st !! key = Some old →
       asMap (old !! "shard") = Some shard →
       runStore st (CreateShard d now request)
       = Some (st,
               Returns (Some (ShardAlreadyExistError
                 (Sprintf "Shard already exists in executions table.  ShardId: %v, RangeId: %v"
                    [FValue (shard !! "shard_id"); FValue (shard !! "range_id")]))))).
Proof.
  intros key.
  pose proof (storeMapScanCAS_CreateShard st d now request _ _ eq_refl) as Hs.
  unfold CreateShard. cbn [runStore]. cbv zeta in *. fold key in Hs. rewrite Hs. clear Hs.
  unfold insertIfNotExists. split.
  - intros ->. cbn [mbind option_bind runStore]. eexists _, _.
    split; [reflexivity|]. unfold shardValue.
    split; [by rewrite lookup_insert_ne, lookup_insert|].
    split; [by rewrite lookup_insert|]. split; reflexivity.
  - intros old shard -> Hshard. cbn [mbind option_bind runStore].
    unfold mustMap. rewrite Hshard. cbn [obind]. by destruct st.
Qed.

End StoreProperties.

(** ** Task list store, against the store *)

Lemma taskList_nonempty (s : string) : s ≠ "" → String.length s ≠ 0%nat.
Proof. by destruct s. Qed.

(** What the store answers to the read of [LeaseTaskList]. *)
Lemma storeScan_LeaseTaskList st request :
  storeScan st
    (Query templateGetTaskList
       [ VString (LeaseReq.DomainID request); VString (LeaseReq.TaskList request);
         VInt (LeaseReq.TaskType request); VInt rowTypeTaskList; VInt taskListTaskID ])
  = match tasks st !! taskListKey request with
    | None => Some (ScanError errNotFound)
    | Some r =>
        rangeID ← asInt64 (r !! "range_id");
        tlDB ← asMap (r !! "task_list");
        Some (ScanRow rangeID tlDB)
    end.
Proof. unfold storeScan. cbn [stmt args]. by rewrite decide_True. Qed.

(** What the store does with the insert of [LeaseTaskList]. *)
Lemma storeMapScanCAS_insertTaskList st request now :
  storeMapScanCAS st
    (Query templateInsertTaskListQuery
       [ VString (LeaseReq.DomainID request); VString (LeaseReq.TaskList request);
         VInt (LeaseReq.TaskType request); VInt rowTypeTaskList; VInt taskListTaskID;
         VInt initialRangeID;
         VString (LeaseReq.DomainID request); VString (LeaseReq.TaskList request);
         VInt (LeaseReq.TaskType request); VInt 0; VInt (LeaseReq.TaskListKind request);
         VTime now ])
  = (let '(t, r) :=
       insertIfNotExists (tasks st) (taskListKey request)
         (<["task_list" := taskListValue request 0 (LeaseReq.TaskListKind request) now]>
            (<["range_id" := VInt64 initialRangeID]>
               (taskKeyColumns (taskListKey request)))) in
     Some (Store (executions st) t, r)).
Proof.
  destruct templates_distinct as (_ & Hc & Hu & _).
  unfold storeMapScanCAS. cbn [stmt args].
  rewrite !decide_False by done. by rewrite decide_True.
Qed.

(** What the store does with the update of [LeaseTaskList]. *)
Lemma storeMapScanCAS_updateTaskList st request now rangeID ackLevel kind :
  storeMapScanCAS st
    (Query templateUpdateTaskListQuery
       [ VInt64 (add64 rangeID 1);
         VString (LeaseReq.DomainID request); VString (LeaseReq.TaskList request);
         VInt (LeaseReq.TaskType request); VInt64 ackLevel; VInt kind; VTime now;
         VString (LeaseReq.DomainID request); VString (LeaseReq.TaskList request);
         VInt (LeaseReq.TaskType request); VInt rowTypeTaskList; VInt taskListTaskID;
         VInt64 rangeID ])
  = (let '(t, r) :=
       updateIfRangeID (tasks st) (taskListKey request) rangeID
         (<["task_list" := taskListValue request ackLevel kind now]>
            {[ "range_id" := VInt64 (add64 rangeID 1) ]}) in
     Some (Store (executions st) t, r)).
Proof.
  destruct templates_distinct as (_ & _ & _ & Hc & Hu & Hi).
  unfold storeMapScanCAS. cbn [stmt args].
  rewrite !decide_False by done. by rewrite decide_True.
Qed.

(** A renewal with another token than the stored one stops after the
    read. *)
Lemma LeaseTaskList_renew_mismatch d now request t res q stored tl :
  LeaseReq.TaskList request ≠ "" →
  LeaseReq.RangeID request > 0 →
  LeaseReq.RangeID request ≠ stored →
  exec (LeaseTaskList d now request) t res →
  head t = Some (EvScan q (ScanRow stored tl)) →
  t = [EvScan q (ScanRow stored tl)]
  ∧ ∃ msg, res = Returns (Err (ConditionFailedError msg)).
Proof.
  intros Hname Hpos Hne H Hhead. apply taskList_nonempty in Hname.
  unfold LeaseTaskList in H. rewrite decide_False in H by done. cbv zeta in H.
  inversion H; subst; clear H. simpl in Hhead. injection Hhead as -> ->.
  match goal with Hk : exec _ _ _ |- _ => rename Hk into Hrest end.
  cbv beta iota in Hrest. rewrite decide_True in Hrest by done.
  inversion Hrest; subst. eauto.
Qed.

(** C7.  [LeaseTaskList] with a non-empty list name, against the store.
    When the store holds no row for the list, a row is inserted with the
    initial range token and the response carries the token 1.  When it
    holds one and the caller presents a token greater than 0 that is not
    the stored one, the call fails with ConditionFailed, the store is left
    as it is, and a run issues no statement after the read.  Otherwise the
    stored token is replaced, on the condition that it is still the one
    read, by the stored token plus one in 64-bit arithmetic, which is the
    stored token plus one below the largest token, and the response
    carries that token. *)
Theorem LeaseTaskList_range_token d now st request :
  LeaseReq.TaskList request ≠ "" →
  let key := taskListKey request in
  (tasks st !! key = None →
   ∃ r info,
     runStore st (LeaseTaskList d now request)
     = Some (Store (executions st) (<[key := r]> (tasks st)), Returns (Ok info))
     ∧ asInt64 (r !! "range_id") = Some initialRangeID
     ∧ tliRangeID info = 1)
  ∧ (∀ old stored tlDB ackLevel kind,
       tasks st !! key = Some old →
       asInt64 (old !! "range_id") = Some stored →
       asMap (old !! "task_list") = Some tlDB →
       asInt64 (tlDB !! "ack_level") = Some ackLevel →
       asInt (tlDB !! "kind") = Some kind →
       if decide (LeaseReq.RangeID request > 0 ∧ LeaseReq.RangeID request ≠ stored)
       then
         (∃ msg, runStore st (LeaseTaskList d now request)
                 = Some (st, Returns (Err (ConditionFailedError msg))))
         ∧ (∀ t res q,
              exec (LeaseTaskList d now request) t res →
              head t = Some (EvScan q (ScanRow stored tlDB)) →
              t = [EvScan q (ScanRow stored tlDB)])
       else
         ∃ r info,
           runStore st (LeaseTaskList d now request)
           = Some (Store (executions st) (<[key := r]> (tasks st)), Returns (Ok info))
           ∧ asInt64 (r !! "range_id") = Some (add64 stored 1)
           ∧ tliRangeID info = add64 stored 1
           ∧ (- 2 ^ 63 ≤ stored < maxInt64 → add64 stored 1 = stored + 1)).
Proof.
  intros Hname key. pose proof (taskList_nonempty _ Hname) as Hlen. split.
  - intros Hnone. unfold LeaseTaskList. rewrite decide_False by done. cbv zeta.
    cbn [runStore]. rewrite storeScan_LeaseTaskList. fold key. rewrite Hnone.
    cbn [mbind option_bind isNotFound errNotFound errIsNotFound runStore].
    rewrite storeMapScanCAS_insertTaskList. fold key. unfold insertIfNotExists.
    rewrite Hnone. cbn [mbind option_bind runStore]. eexists _, _.
    split; [reflexivity|]. split; [|reflexivity].
    by rewrite lookup_insert_ne, lookup_insert.
  - intros old stored tlDB ackLevel kind Hold Hstored Htl Hack Hkind.
    destruct (decide _) as [[Hpos Hne]|Hok].
    + split.
      * unfold LeaseTaskList. rewrite decide_False by done. cbv zeta.
        cbn [runStore]. rewrite storeScan_LeaseTaskList. fold key. rewrite Hold, Hstored, Htl.
        cbn [mbind option_bind runStore]. rewrite decide_True by done.
        cbn [runStore]. eauto.
      * intros t res q H Hhead.
        by destruct (LeaseTaskList_renew_mismatch d now request t res q stored tlDB).
    + unfold LeaseTaskList. rewrite decide_False by done. cbv zeta.
      cbn [runStore]. rewrite storeScan_LeaseTaskList. fold key. rewrite Hold, Hstored, Htl.
      cbn [mbind option_bind runStore]. rewrite decide_False by done.
      unfold mustInt64, mustInt. rewrite Hack, Hkind. cbn [runStore].
      rewrite storeMapScanCAS_updateTaskList. fold key. unfold updateIfRangeID.
      rewrite Hold, decide_True by done. cbn [mbind option_bind runStore]. eexists _, _.
      split; [reflexivity|]. split; [|split; [reflexivity|]].
      * erewrite lookup_union_Some_l; [|by rewrite lookup_insert_ne, lookup_singleton].
        reflexivity.
      * intros [Hlo Hhi]. unfold add64, wrap64, maxInt64 in *.
        rewrite Z.mod_small; lia.
Qed.

(** ** Runs on concrete rows and stores *)

(** Counterexample to C1 as stated: the create path does not classify
    as the update path does.  The rejected batch of a brand-new create
    hands back the shard row with the caller's own range token and the
    row of another run; no predicate of the priority order holds on
    them, whatever condition and expected run are taken, so the order
    gives the catch-all ConditionFailed, and [CreateWorkflowExecution]
    returns ShardOwnershipLost. *)
Lemma create_path_classification_counterexample :
  ¬ (∀ t request' e b previous iter,
       exec (CreateWorkflowExecution (C := sampleCollaborators) sampleStore 0
               (sampleCreateRequest 0 0 None)) t (Returns (request', Err e)) →
       EvBatchCAS b (BatchNotApplied previous iter) ∈ t →
       ∃ requestCondition requestConditionalRunID,
         kindOf e
         = kindOfClassification
             (classifyBySpec sampleRunA requestCondition 5 requestConditionalRunID
                (previous :: iter))).
Proof.
  intros H.
  assert (Hex : ∃ e,
    (e' ←! createConditionalFailure (C := sampleCollaborators) sampleStore
             (sampleCreateRequest 0 0 None) (sampleShardRow 5)
             [sampleExecutionRow sampleRunE 9];
     Returns (sampleCreateRequest 0 0 None, Err (A := unit) e'))
    = Returns (sampleCreateRequest 0 0 None, Err e)
    ∧ kindOf e = KShardOwnershipLost).
  { vm_compute. eexists. split; reflexivity. }
  destruct Hex as (e & He & Hk).
  destruct (H [ EvBatchCAS (createBatchOf (sampleCreateRequest 0 0 None))
                  (BatchNotApplied (sampleShardRow 5) [sampleExecutionRow sampleRunE 9]) ]
              (sampleCreateRequest 0 0 None) e _ _ _
              ltac:(rewrite <- He; vm_compute; run_exec)
              ltac:(apply elem_of_cons; left; reflexivity))
    as (c & r & Hc).
  rewrite Hk in Hc. vm_compute in Hc. discriminate Hc.
Qed.

(** Witness of C1 (amended): the marker row of the expected run, the row
    of the target run at the caller's next event id and a shard row with
    another range token give ShardOwnershipLost. *)
Lemma conditional_failure_classification_witness :
  ∃ e,
    getExecutionConditionalUpdateFailure sampleStore
      (sampleMarkerRow sampleRunA) [sampleExecutionRow sampleRunA 8; sampleShardRow 6]
      sampleRunA 8 5 sampleRunA = Returns e
    ∧ kindOf e = KShardOwnershipLost.
Proof.
  destruct (proj1 (conditional_failure_classification (C := sampleCollaborators) sampleStore
                     (sampleMarkerRow sampleRunA)
                     [sampleExecutionRow sampleRunA 8; sampleShardRow 6])
              sampleRunA 8 5 sampleRunA ltac:(compute_done) ltac:(compute_done))
    as (e & He & Hk).
  exists e. split; [exact He|exact Hk].
Defined.



(** Counterexample to C5 as stated: two stores whose shard rows differ
    in the owner alone answer a [CreateShard] with the same error, so the
    error does not tell the owner of the row that stood in the way. *)
Lemma CreateShard_owner_counterexample :
  ¬ (∀ ownerA ownerB res,
       snd <$> runStore (storeWithShard ownerA 5)
                 (CreateShard (C := sampleCollaborators) sampleStore 0
                    {| csShardInfo := sampleShardInfo "host-c" 9 |})
       = Some res →
       snd <$> runStore (storeWithShard ownerB 5)
                 (CreateShard (C := sampleCollaborators) sampleStore 0
                    {| csShardInfo := sampleShardInfo "host-c" 9 |})
       = Some res →
       ownerA = ownerB).
Proof.
  intros H.
  specialize (H "host-a" "host-b" _ ltac:(vm_compute; reflexivity)
                ltac:(vm_compute; reflexivity)).
  discriminate H.
Qed.

(** Witness of C5 (amended): shard 3 is held by [host-a] with the range
    token 5 when [host-c] creates it again. *)
Lemma CreateShard_inserts_when_absent_witness :
  runStore (storeWithShard "host-a" 5)
    (CreateShard (C := sampleCollaborators) sampleStore 0
       {| csShardInfo := sampleShardInfo "host-c" 9 |})
  = Some (storeWithShard "host-a" 5,
          Returns (Some (ShardAlreadyExistError
            (Sprintf "Shard already exists in executions table.  ShardId: %v, RangeId: %v"
               [FValue (Some (VInt 3)); FValue (Some (VInt64 5))])))).
Proof.
  epose proof (proj2 (CreateShard_inserts_when_absent (C := sampleCollaborators)
                        sampleStore 0 (storeWithShard "host-a" 5)
                        {| csShardInfo := sampleShardInfo "host-c" 9 |})
                 _ _ ltac:(vm_compute; reflexivity) ltac:(vm_compute; reflexivity)) as H.
  exact H.
Defined.

(** Witness of C7: the list [orders] is leased a first time, then
    renewed with the token 1 it holds; the response carries 2. *)
Lemma LeaseTaskList_range_token_witness :
  ∃ r info,
    runStore storeWithTaskList (LeaseTaskList sampleStore 7 (sampleLeaseRequest 1))
    = Some (Store (executions storeWithTaskList)
              (<[taskListKey (sampleLeaseRequest 1) := r]> (tasks storeWithTaskList)),
            Returns (Ok info))
    ∧ asInt64 (r !! "range_id") = Some 2
    ∧ tliRangeID info = 2.
Proof.
  epose proof (proj2 (LeaseTaskList_range_token sampleStore 7 storeWithTaskList
                        (sampleLeaseRequest 1) ltac:(done))
                 _ 1 _ 0 0 ltac:(vm_compute; reflexivity) ltac:(reflexivity)
                 ltac:(reflexivity) ltac:(reflexivity) ltac:(reflexivity)) as H.
  rewrite decide_False in H by (simpl; lia).
  destruct H as (r & info & Hrun & Hr & Hi & _).
  exists r, info. split; [exact Hrun|]. split; [exact Hr|exact Hi].
Defined.

(** * Further properties of the adapter *)

(** ** The batches of the execution store *)

Section BatchProperties.
Context {C : Collaborators}.

Lemma setCreateWorkflowMode_RangeID request mode :
  CreateReq.RangeID (CreateReq.setCreateWorkflowMode request mode) = CreateReq.RangeID request.
Proof. reflexivity. Qed.

Lemma createWorkflowExecutionBatch_last d now request request' b :
  createWorkflowExecutionBatch d now request = Returns (request', b, None) →
  last b = Some (leaseQuery d (CreateReq.RangeID request)).
Proof.
  unfold createWorkflowExecutionBatch. intros H.
  apply obind_Returns in H as ([[r1 b1] [e1|]] & Hw & H); [discriminate|].
  repeat (apply obind_Returns in H as (? & ? & H)). inversion H; subst.
  rewrite last_snoc. f_equal. f_equal.
  by destruct (CreateWorkflowExecutionWithinBatch_request _ _ _ _ _ _ _ Hw) as [->| ->].
Qed.

Lemma resetBatchTail_last d now request b b' :
  resetBatchTail d now request b = Returns (b', None) →
  last b' = Some (leaseQuery d (ResetReq.RangeID request)).
Proof.
  unfold resetBatchTail. cbv zeta. intros H.
  apply obind_Returns in H as (b1 & _ & H).
  apply obind_Returns in H as (b2 & _ & H).
  destruct (whenNonEmptyErr _ _ _) as [b3 [e|]]; [discriminate|].
  destruct (whenNonEmptyErr _ _ _) as [b4 [e|]]; [discriminate|].
  inversion H. apply last_snoc.
Qed.

(** Every batch that the four execution-mutating calls execute ends with
    the statement that re-checks the shard's range token against the
    [RangeID] of the request, and a run executes one batch at most. *)
Theorem executed_batch_ends_with_range_check d now b r :
  (∀ request t res,
     exec (CreateWorkflowExecution d now request) t res →
     EvBatchCAS b r ∈ t →
     last b = Some (leaseQuery d (CreateReq.RangeID request))
     ∧ ∀ b' r', EvBatchCAS b' r' ∈ t → b' = b ∧ r' = r)
  ∧ (∀ request t res,
       exec (UpdateWorkflowExecution d now request) t res →
       EvBatchCAS b r ∈ t →
       last b = Some (leaseQuery d (UpdateReq.RangeID request))
       ∧ ∀ b' r', EvBatchCAS b' r' ∈ t → b' = b ∧ r' = r)
  ∧ (∀ request t res,
       exec (ResetWorkflowExecution d now request) t res →
       EvBatchCAS b r ∈ t →
       last b = Some (leaseQuery d (ResetReq.RangeID request))
       ∧ ∀ b' r', EvBatchCAS b' r' ∈ t → b' = b ∧ r' = r)
  ∧ (∀ request t res,
       exec (ResetMutableState d request) t res →
       EvBatchCAS b r ∈ t →
       last b = Some (leaseQuery d (ResetMSReq.RangeID request))
       ∧ ∀ b' r', EvBatchCAS b' r' ∈ t → b' = b ∧ r' = r).
Proof.
  refine (conj _ (conj _ (conj _ _))).
  - intros request t res H Hin. unfold CreateWorkflowExecution in H. cbv zeta in H.
    destruct (createWorkflowExecutionBatch _ _ _) as [[[request' b'] [e|]]|p] eqn:Hb.
    + destruct (decide _) in H; inv_answers; inv_elem.
    + apply createWorkflowExecutionBatch_last in Hb.
      destruct (decide _) in H; inv_answers; inv_elem;
        (split; [done|]); intros b2 r2 Hin2; inv_elem; done.
    + destruct (decide _) in H; inv_answers; inv_elem.
  - intros request t res H Hin. unfold UpdateWorkflowExecution in H. cbv zeta in H.
    destruct (applyWorkflowMutationBatch _ _) as [b0 [e|]]; [inv_exec; inv_elem|].
    destruct (UpdateReq.ContinueAsNew request) as [startReq|].
    + destruct (CreateWorkflowExecutionWithinBatch _ _ _ _) as [[[startReq' b'] [e|]]|p];
        inv_exec; inv_elem.
      split; [apply last_snoc|]. intros b2 r2 Hin2. inv_elem. done.
    + repeat (destruct (decide _) in H).
      * inv_answers; inv_elem. split; [apply last_snoc|].
        intros b2 r2 Hin2. inv_elem. done.
      * destruct (Mutation.ReplicationState _); inv_exec; inv_elem;
          (split; [apply last_snoc|]); intros b2 r2 Hin2; inv_elem; done.
      * inv_exec. inv_elem.
  - intros request t res H Hin. unfold ResetWorkflowExecution in H. cbv zeta in H.
    destruct (resetWorkflowExecutionBatch _ _ _) as [[b' [e|]]|p] eqn:Hb;
      inv_exec; inv_elem.
    split; [by eapply resetBatchTail_last|]. intros b2 r2 Hin2. inv_elem. done.
  - intros request t res H Hin. unfold ResetMutableState in H. cbv zeta in H.
    destruct (Snapshot.ReplicationState _); [|inv_exec; inv_elem].
    destruct (applyWorkflowSnapshotBatch _ _) as [b' [e|]]; inv_exec; inv_elem.
    split; [apply last_snoc|]. intros b2 r2 Hin2. inv_elem. done.
Qed.

(** When the store fails the batch of one of the four execution-mutating
    calls, the call fails with TimeoutError if the store timed out, else
    with ServiceBusyError if the store throttled, else with
    InternalServiceError; when the store applied the batch, the call
    succeeds. *)
Theorem batch_answer_decides_result d now b :
  (∀ request t res,
     exec (CreateWorkflowExecution d now request) t res →
     (∀ err, EvBatchCAS b (BatchError err) ∈ t →
        ∃ request' e, res = Returns (request', Err e) ∧ kindOf e = batchErrorKind err)
     ∧ (EvBatchCAS b BatchApplied ∈ t → ∃ request', res = Returns (request', Ok tt)))
  ∧ (∀ request t res,
       exec (UpdateWorkflowExecution d now request) t res →
       (∀ err, EvBatchCAS b (BatchError err) ∈ t →
          ∃ request' e, res = Returns (request', Some e) ∧ kindOf e = batchErrorKind err)
       ∧ (EvBatchCAS b BatchApplied ∈ t → ∃ request', res = Returns (request', None)))
  ∧ (∀ request t res,
       exec (ResetWorkflowExecution d now request) t res →
       (∀ err, EvBatchCAS b (BatchError err) ∈ t →
          ∃ e, res = Returns (Some e) ∧ kindOf e = batchErrorKind err)
       ∧ (EvBatchCAS b BatchApplied ∈ t → res = Returns None))
  ∧ (∀ request t res,
       exec (ResetMutableState d request) t res →
       (∀ err, EvBatchCAS b (BatchError err) ∈ t →
          ∃ e, res = Returns (Some e) ∧ kindOf e = batchErrorKind err)
       ∧ (EvBatchCAS b BatchApplied ∈ t → res = Returns None)).
Proof.
  refine (conj _ (conj _ (conj _ _))).
  - intros request t res H. unfold CreateWorkflowExecution in H. cbv zeta in H.
    destruct (createWorkflowExecutionBatch _ _ _) as [[[request' b'] [e|]]|p] eqn:Hb;
      (destruct (decide _) in H; inv_answers; (split; [intros ? Hin|intros Hin]);
       inv_elem; eauto using batchError_kind).
  - intros request t res H. unfold UpdateWorkflowExecution in H. cbv zeta in H.
    destruct (applyWorkflowMutationBatch _ _) as [b0 [e|]];
      [inv_exec; split; [intros ? Hin|intros Hin]; inv_elem|].
    destruct (UpdateReq.ContinueAsNew request) as [startReq|].
    + destruct (CreateWorkflowExecutionWithinBatch _ _ _ _) as [[[startReq' b'] [e|]]|p];
        inv_exec; (split; [intros ? Hin|intros Hin]); inv_elem; simpl;
        eauto using batchError_kind.
    + repeat (destruct (decide _) in H).
      * inv_answers; (split; [intros ? Hin|intros Hin]); inv_elem; simpl;
          eauto using batchError_kind.
      * destruct (Mutation.ReplicationState _); inv_exec;
          (split; [intros ? Hin|intros Hin]); inv_elem; simpl;
          eauto using batchError_kind.
      * inv_exec. split; [intros ? Hin|intros Hin]; inv_elem.
  - intros request t res H. unfold ResetWorkflowExecution in H. cbv zeta in H.
    destruct (resetWorkflowExecutionBatch _ _ _) as [[b' [e|]]|p] eqn:Hb;
      inv_exec; (split; [intros ? Hin|intros Hin]); inv_elem; simpl;
      eauto using batchError_kind.
  - intros request t res H. unfold ResetMutableState in H. cbv zeta in H.
    destruct (Snapshot.ReplicationState _);
      [|inv_exec; split; [intros ? Hin|intros Hin]; inv_elem].
    destruct (applyWorkflowSnapshotBatch _ _) as [b' [e|]]; inv_exec;
      (split; [intros ? Hin|intros Hin]); inv_elem; simpl;
      eauto using batchError_kind.
Qed.

End BatchProperties.

(** ** The calls that run one statement *)

Section SingleStatementProperties.
Context {C : Collaborators}.

Lemma execStatement_single s a format :
  singleStatement (execStatement (Query s a) format) s.
Proof.
  unfold execStatement. split.
  - intros t res H. inv_exec.
    destruct o as [err|]; inv_exec; eexists _, _; (split; [reflexivity|]); [|done].
    eexists. split; [reflexivity|]. unfold busyOrInternal.
    by destruct (isThrottlingError err).
  - intros o. destruct o; eexists _, _; apply exec_Exec, exec_Ret.
Qed.

(** The two deletes of the execution store, the five completions of the
    transfer, replication and timer queues and [CompleteTask] each run
    one statement: they answer nil exactly when the store reports no
    error, whatever the statement did, and never a timeout or a failed
    condition.  [CompleteReplicationTask] runs the statement of
    [CompleteTransferTask] on the row of the replication queue. *)
Theorem single_statement_calls d :
  (∀ request, singleStatement (DeleteWorkflowExecution d request)
                templateDeleteWorkflowExecutionMutableStateQuery)
  ∧ (∀ request, singleStatement (DeleteCurrentWorkflowExecution d request)
                  templateDeleteWorkflowExecutionCurrentRowQuery)
  ∧ (∀ request, singleStatement (CompleteTransferTask d request)
                  templateCompleteTransferTaskQuery)
  ∧ (∀ request, singleStatement (RangeCompleteTransferTask d request)
                  templateRangeCompleteTransferTaskQuery)
  ∧ (∀ request, singleStatement (CompleteReplicationTask d request)
                  templateCompleteTransferTaskQuery)
  ∧ (∀ request, singleStatement (CompleteTimerTask d request)
                  templateCompleteTimerTaskQuery)
  ∧ (∀ request, singleStatement (RangeCompleteTimerTask d request)
                  templateRangeCompleteTimerTaskQuery)
  ∧ (∀ request, singleStatement (CompleteTask d request) templateCompleteTaskQuery).
Proof.
  repeat (split; [intros; apply execStatement_single|]).
  intros. apply execStatement_single.
Qed.

End SingleStatementProperties.

(** ** Task list store: [CreateTasks] and [UpdateTaskList] *)

Section TaskListProperties.
Context {C : Collaborators}.
Variable TaskListKindSticky : Z.
Variable maxCassandraTTL : Z.

Lemma createTaskQuery_spec tli now task data :
  ctiData task = Some data →
  ∃ q, createTaskQuery maxCassandraTTL tli now task = Returns q ∧ taskStatement maxCassandraTTL task data q.
Proof.
  intros Hdata. unfold createTaskQuery, taskStatement. rewrite Hdata. cbv zeta.
  destruct (decide (tdScheduleToStartTimeout data ≤ 0)).
  - eexists. split; [reflexivity|]. repeat split. lia.
  - eexists. split; [reflexivity|]. repeat split. intros _. simpl.
    destruct (decide _); do 2 f_equal; lia.
Qed.

Lemma createTaskQueries_spec tli now tasks :
  ∀ b,
    Forall (λ task, is_Some (ctiData task)) tasks →
    ∃ qs,
      createTaskQueries maxCassandraTTL tli now tasks b = Returns (b ++ qs)
      ∧ Forall2 (λ task q, ∃ data, ctiData task = Some data ∧ taskStatement maxCassandraTTL task data q)
          tasks qs.
Proof.
  induction tasks as [|task tasks IH]; intros b Hall.
  - exists []. split; [by rewrite app_nil_r|constructor].
  - apply Forall_cons in Hall as [[data Hdata] Hall].
    destruct (createTaskQuery_spec tli now task data Hdata) as (q & Hq & Hs).
    destruct (IH (b ++ [q]) Hall) as (qs & Hqs & Hall2).
    exists (q :: qs). split.
    + simpl. rewrite Hq. simpl. rewrite Hqs. by rewrite <- app_assoc.
    + constructor; eauto.
Qed.

Lemma createTaskQueries_nil_data tli now tasks :
  ∀ b,
    Exists (λ task, ctiData task = None) tasks →
    ∃ p, createTaskQueries maxCassandraTTL tli now tasks b = Panics p.
Proof.
  induction tasks as [|task tasks IH]; intros b Hex.
  - by apply Exists_nil in Hex.
  - simpl. unfold createTaskQuery at 1.
    destruct (ctiData task) as [data|] eqn:Hdata; [|simpl; eauto].
    apply Exists_cons in Hex as [Hex|Hex]; [congruence|].
    cbv zeta. destruct (decide _); simpl; apply IH, Hex.
Qed.

(** [CreateTasks] executes one batch: a statement per task, in the
    order of the request, then the update of the task-list row that
    writes the range token of the request back if the stored one is
    still that token.  A task gets a time to live exactly when its
    [ScheduleToStartTimeout] is positive, and it is that timeout cut at
    [maxCassandraTTL].  An applied batch gives success, a rejected one
    ConditionFailedError, a store error ServiceBusyError or
    InternalServiceError (a timeout is not told apart).  When a task
    has no [Data] the call panics before any store call. *)
Theorem CreateTasks_batch d now now' request :
  let tli := crTaskListInfo request in
  (Forall (λ task, is_Some (ctiData task)) (crTasks request) →
   ∀ t res,
     exec (CreateTasks maxCassandraTTL d now now' request) t res →
     ∃ qs r,
       t = [EvBatchCAS
              (qs ++ [Query templateUpdateTaskListQuery (updateTaskListArgs tli now')]) r]
       ∧ Forall2 (λ task q, ∃ data, ctiData task = Some data ∧ taskStatement maxCassandraTTL task data q)
           (crTasks request) qs
       ∧ match r with
         | BatchApplied => res = Returns (Ok tt)
         | BatchNotApplied _ _ => ∃ msg, res = Returns (Err (ConditionFailedError msg))
         | BatchError err =>
             ∃ e, res = Returns (Err e)
                  ∧ kindOf e = if isThrottlingError err then KServiceBusy
                               else KInternalService
         end)
  ∧ (Exists (λ task, ctiData task = None) (crTasks request) →
     ∀ t res,
       exec (CreateTasks maxCassandraTTL d now now' request) t res →
       t = [] ∧ ∃ p, res = Panics p).
Proof.
  intros tli. split.
  - intros Hall t res H. unfold CreateTasks in H. cbv zeta in H. fold tli in H.
    destruct (createTaskQueries_spec tli (UnixNanoToDBTimestamp now) (crTasks request)
                [] Hall) as (qs & Hqs & Hall2).
    rewrite Hqs in H. simpl in H. inv_exec.
    destruct o; inv_exec; eexists _, _; (split; [reflexivity|]); (split; [done|]).
    + eexists. split; [reflexivity|]. unfold busyOrInternal.
      by destruct (isThrottlingError err).
    + done.
    + eauto.
  - intros Hex t res H. unfold CreateTasks in H. cbv zeta in H.
    destruct (createTaskQueries_nil_data (crTaskListInfo request)
                (UnixNanoToDBTimestamp now) (crTasks request) [] Hex) as (p & Hp).
    rewrite Hp in H. inv_exec. eauto.
Qed.

(** [UpdateTaskList] of a sticky task list runs one unconditional
    statement with the time to live [stickyTaskListTTL]: it is not
    checked against the stored range token and never answers
    ConditionFailedError.  For any other kind it runs the conditional
    update, which writes the range token of the request back if the
    stored one is still that token, and answers ConditionFailedError
    when the store rejects it. *)
Theorem UpdateTaskList_sticky_is_unconditional d now request :
  let tli := utTaskListInfo request in
  (tliKind tli = TaskListKindSticky →
   ∀ t res,
     exec (UpdateTaskList TaskListKindSticky d now request) t res →
     ∃ a o,
       t = [EvExec (Query templateUpdateTaskListQueryWithTTL a) o]
       ∧ last a = Some (VInt32 stickyTaskListTTL)
       ∧ match o with
         | None => res = Ok tt
         | Some err =>
             ∃ e, res = Err e
                  ∧ kindOf e = if isThrottlingError err then KServiceBusy
                               else KInternalService
         end)
  ∧ (tliKind tli ≠ TaskListKindSticky →
     ∀ t res,
       exec (UpdateTaskList TaskListKindSticky d now request) t res →
       ∃ r,
         t = [EvMapScanCAS (Query templateUpdateTaskListQuery (updateTaskListArgs tli now)) r]
         ∧ head (updateTaskListArgs tli now) = Some (VInt64 (tliRangeID tli))
         ∧ last (updateTaskListArgs tli now) = Some (VInt64 (tliRangeID tli))
         ∧ match r with
           | CASApplied => res = Ok tt
           | CASNotApplied _ => ∃ msg, res = Err (ConditionFailedError msg)
           | CASError err =>
               ∃ e, res = Err e
                    ∧ kindOf e = if isThrottlingError err then KServiceBusy
                                 else KInternalService
           end).
Proof.
  intros tli. split.
  - intros Hsticky t res H. unfold UpdateTaskList in H. cbv zeta in H. fold tli in H.
    rewrite decide_True in H by done. inv_exec.
    destruct o as [err|]; inv_exec; eexists _, _; (split; [reflexivity|]);
      (split; [reflexivity|]); [|done].
    eexists. split; [reflexivity|]. unfold busyOrInternal.
    by destruct (isThrottlingError err).
  - intros Hkind t res H. unfold UpdateTaskList in H. cbv zeta in H. fold tli in H.
    rewrite decide_False in H by done. inv_exec.
    destruct o; inv_exec; eexists; (split; [reflexivity|]);
      (split; [reflexivity|]); (split; [reflexivity|]).
    + eexists. split; [reflexivity|]. unfold busyOrInternal.
      by destruct (isThrottlingError err).
    + done.
    + eauto.
Qed.

End TaskListProperties.

(** ** Shard store, against the store *)

Section ShardStoreProperties.
Context {C : Collaborators}.

Lemma storedRangeID_Some (r : option (gmap string value)) n :
  storedRangeID r = Some n ↔ ∃ old, r = Some old ∧ asInt64 (old !! "range_id") = Some n.
Proof.
  unfold storedRangeID. destruct r as [old|]; simpl.
  - split; [eauto|]. by intros (? & [= <-] & ?).
  - split; [done|]. by intros (? & ? & _).
Qed.

(** The shard row after an applied [UpdateShard]. *)
Lemma runStore_UpdateShard_applied d now st request old :
  executions st !! shardKey (ShardInfo.ShardID (usShardInfo request)) = Some old →
  asInt64 (old !! "range_id") = Some (PreviousRangeID request) →
  runStore st (UpdateShard d now request)
  = Some (Store (<[shardKey (ShardInfo.ShardID (usShardInfo request)) :=
                     (<["shard" := shardValue now (usShardInfo request)]>
                        {[ "range_id" := VInt64 (ShardInfo.RangeID (usShardInfo request)) ]})
                     ∪ old]> (executions st))
            (tasks st),
          Returns None).
Proof.
  intros Hold Hrange.
  pose proof (storeMapScanCAS_UpdateShard st d now request _ _ eq_refl) as Hs.
  unfold UpdateShard. cbn [runStore]. cbv zeta in *. rewrite Hs. clear Hs.
  unfold updateIfRangeID. rewrite Hold, decide_True by done. reflexivity.
Qed.

Lemma runStore_UpdateShard_rejected d now st request :
  storedRangeID (executions st !! shardKey (ShardInfo.ShardID (usShardInfo request)))
  ≠ Some (PreviousRangeID request) →
  ∃ msg,
    runStore st (UpdateShard d now request)
    = Some (st, Returns (Some (ShardOwnershipLostError (shardID d) msg))).
Proof.
  intros Hne.
  pose proof (storeMapScanCAS_UpdateShard st d now request _ _ eq_refl) as Hs.
  unfold UpdateShard. cbn [runStore]. cbv zeta in *. rewrite Hs. clear Hs.
  unfold updateIfRangeID, storedRangeID in *.
  destruct (executions st !! shardKey _) as [old|]; simpl in Hne.
  - rewrite decide_False by done. destruct st. simpl. eauto.
  - destruct st. simpl. eauto.
Qed.

(** [UpdateShard] hands the shard over.  When the shard row holds the
    range token that the request names as the previous one, the call
    succeeds and the row then holds the range token of the request, the
    other rows being left as they are; a second call that names the same
    previous token then fails with ShardOwnershipLostError for the shard
    of the adapter, unless the two tokens are equal.  A call that fails
    leaves the store as it is. *)
Theorem UpdateShard_hands_over d now now' st request :
  let key := shardKey (ShardInfo.ShardID (usShardInfo request)) in
  (storedRangeID (executions st !! key) = Some (PreviousRangeID request) →
   ∃ st',
     runStore st (UpdateShard d now request) = Some (st', Returns None)
     ∧ storedRangeID (executions st' !! key)
       = Some (ShardInfo.RangeID (usShardInfo request))
     ∧ (∀ key', key' ≠ key → executions st' !! key' = executions st !! key')
     ∧ tasks st' = tasks st
     ∧ (ShardInfo.RangeID (usShardInfo request) ≠ PreviousRangeID request →
        ∃ msg,
          runStore st' (UpdateShard d now' request)
          = Some (st', Returns (Some (ShardOwnershipLostError (shardID d) msg)))))
  ∧ (storedRangeID (executions st !! key) ≠ Some (PreviousRangeID request) →
     ∃ msg,
       runStore st (UpdateShard d now request)
       = Some (st, Returns (Some (ShardOwnershipLostError (shardID d) msg)))).
Proof.
  intros key. split; [|apply runStore_UpdateShard_rejected].
  intros (old & Hold & Hrange)%storedRangeID_Some.
  eexists. split; [by apply runStore_UpdateShard_applied|].
  assert (Hnew : storedRangeID
            (executions
               (Store (<[key := (<["shard" := shardValue now (usShardInfo request)]>
                                   {[ "range_id" :=
                                        VInt64 (ShardInfo.RangeID (usShardInfo request)) ]})
                                ∪ old]> (executions st)) (tasks st)) !! key)
          = Some (ShardInfo.RangeID (usShardInfo request))).
  { simpl. rewrite lookup_insert_eq. simpl.
    erewrite lookup_union_Some_l; [|by rewrite lookup_insert_ne, lookup_singleton_eq].
    reflexivity. }
  split; [exact Hnew|]. split; [|split; [reflexivity|]].
  - intros key' Hne. simpl. by rewrite lookup_insert_ne.
  - intros Hne. apply runStore_UpdateShard_rejected. fold key. rewrite Hnew. congruence.
Qed.

(** [CreateShard] against the store, by the row it finds. *)
Lemma runStore_CreateShard d now st request :
  let key := shardKey (ShardInfo.ShardID (csShardInfo request)) in
  runStore st (CreateShard d now request)
  = match executions st !! key with
    | None =>
        Some (Store (<[key := <["shard" := shardValue now (csShardInfo request)]>
                        (<["range_id" := VInt64 (ShardInfo.RangeID (csShardInfo request))]>
                           (execKeyColumns key))]> (executions st)) (tasks st),
              Returns None)
    | Some old =>
        Some (st,
              shard ←! mustMap (old !! "shard");
              Returns (Some (ShardAlreadyExistError
                (Sprintf "Shard already exists in executions table.  ShardId: %v, RangeId: %v"
                   [FValue (shard !! "shard_id"); FValue (shard !! "range_id")]))))
    end.
Proof.
  intros key.
  pose proof (storeMapScanCAS_CreateShard st d now request _ _ eq_refl) as Hs.
  cbv zeta in Hs. fold key in Hs. unfold insertIfNotExists in Hs.
  unfold CreateShard. cbn [runStore]. cbv zeta. rewrite Hs.
  destruct (executions st !! key); [|reflexivity]. by destruct st.
Qed.

(** [CreateShard] then the shard store.  On a store without a row for
    the shard, [CreateShard] succeeds; after it a second [CreateShard]
    for the same shard id fails with ShardAlreadyExistError, whose
    message carries the shard id and the range token of the first, and
    leaves the store as it is; and an [UpdateShard] that names the range
    token of the first as the previous one succeeds. *)
Theorem CreateShard_then_shard_calls d now now' st request :
  let key := shardKey (ShardInfo.ShardID (csShardInfo request)) in
  executions st !! key = None →
  ∃ st',
    runStore st (CreateShard d now request) = Some (st', Returns None)
    ∧ storedRangeID (executions st' !! key)
      = Some (ShardInfo.RangeID (csShardInfo request))
    ∧ (∀ request',
         ShardInfo.ShardID (csShardInfo request')
         = ShardInfo.ShardID (csShardInfo request) →
         runStore st' (CreateShard d now' request')
         = Some (st',
                 Returns (Some (ShardAlreadyExistError
                   (Sprintf
                      "Shard already exists in executions table.  ShardId: %v, RangeId: %v"
                      [FValue (Some (VInt (ShardInfo.ShardID (csShardInfo request))));
                       FValue (Some (VInt64
                                       (ShardInfo.RangeID (csShardInfo request))))])))))
    ∧ (∀ update,
         ShardInfo.ShardID (usShardInfo update)
         = ShardInfo.ShardID (csShardInfo request) →
         PreviousRangeID update = ShardInfo.RangeID (csShardInfo request) →
         ∃ st'',
           runStore st' (UpdateShard d now' update) = Some (st'', Returns None)
           ∧ storedRangeID (executions st'' !! key)
             = Some (ShardInfo.RangeID (usShardInfo update))).
Proof.
  intros key Hnone.
  eexists. split.
  { rewrite runStore_CreateShard. fold key. rewrite Hnone. reflexivity. }
  split; [|split].
  - simpl. rewrite lookup_insert_eq. simpl. by rewrite lookup_insert_ne, lookup_insert_eq.
  - intros request' Hid. rewrite runStore_CreateShard, Hid. fold key.
    cbn [executions]. rewrite lookup_insert_eq, lookup_insert_eq.
    unfold mustMap, shardValue. cbn [asMap obind]. reflexivity.
  - intros update Hid Hprev.
    eexists. split.
    + apply runStore_UpdateShard_applied.
      * rewrite Hid. fold key. simpl. apply lookup_insert_eq.
      * rewrite lookup_insert_ne, lookup_insert_eq by done. simpl. by rewrite Hprev.
    + simpl. rewrite Hid. fold key. rewrite lookup_insert_eq. simpl.
      erewrite lookup_union_Some_l; [|by rewrite lookup_insert_ne, lookup_singleton_eq].
      reflexivity.
Qed.

End ShardStoreProperties.

(** ** Task list store, against the store *)

Lemma add64_succ_ne n : add64 n 1 ≠ n.
Proof.
  unfold add64, wrap64. intros H.
  pose proof (Z.div_mod (n + 1 + 2 ^ 63) (2 ^ 64) ltac:(lia)) as Hdm.
  pose proof (Z.mod_pos_bound (n + 1 + 2 ^ 63) (2 ^ 64) ltac:(lia)) as Hb.
  lia.
Qed.

(** What the store does with [templateUpdateTaskListQuery]. *)
Lemma storeMapScanCAS_updateTaskListQuery st dom name ttype rangeID ackLevel kind now
    expected :
  storeMapScanCAS st
    (Query templateUpdateTaskListQuery
       [ VInt64 rangeID; VString dom; VString name; VInt ttype; VInt64 ackLevel; VInt kind;
         VTime now; VString dom; VString name; VInt ttype; VInt rowTypeTaskList;
         VInt taskListTaskID; VInt64 expected ])
  = (let request :=
       {| LeaseReq.DomainID := dom; LeaseReq.TaskList := name; LeaseReq.TaskType := ttype;
          LeaseReq.TaskListKind := kind; LeaseReq.RangeID := expected |} in
     let '(t, r) :=
       updateIfRangeID (tasks st) (dom, name, ttype, rowTypeTaskList, taskListTaskID) expected
         (<["task_list" := taskListValue request ackLevel kind now]>
            {[ "range_id" := VInt64 rangeID ]}) in
     Some (Store (executions st) t, r)).
Proof.
  destruct templates_distinct as (_ & _ & _ & Hc & Hu & Hi).
  unfold storeMapScanCAS. cbn [stmt args].
  rewrite !decide_False by done. by rewrite decide_True.
Qed.

Section TaskListStoreProperties.
Variable TaskListKindSticky : Z.

Lemma taskListRow_range_id tli rangeID now old :
  asInt64 (taskListRow tli rangeID now old !! "range_id") = Some rangeID.
Proof.
  unfold taskListRow.
  erewrite lookup_union_Some_l; [|by rewrite lookup_insert_ne, lookup_singleton_eq].
  reflexivity.
Qed.

Lemma taskListRow_task_list tli rangeID now old :
  ∃ tlDB,
    asMap (taskListRow tli rangeID now old !! "task_list") = Some tlDB
    ∧ asInt64 (tlDB !! "ack_level") = Some (tliAckLevel tli)
    ∧ asInt (tlDB !! "kind") = Some (tliKind tli).
Proof.
  unfold taskListRow. eexists.
  erewrite lookup_union_Some_l; [|by rewrite lookup_insert_eq].
  split; [reflexivity|]. split; reflexivity.
Qed.

Lemma runStore_UpdateTaskList_applied d now st request old :
  let tli := utTaskListInfo request in
  tliKind tli ≠ TaskListKindSticky →
  tasks st !! taskListInfoKey tli = Some old →
  asInt64 (old !! "range_id") = Some (tliRangeID tli) →
  runStore st (UpdateTaskList TaskListKindSticky d now request)
  = Some (Store (executions st)
            (<[taskListInfoKey tli := taskListRow tli (tliRangeID tli) now old]> (tasks st)),
          Ok tt).
Proof.
  intros tli Hkind Hold Hrange. unfold UpdateTaskList. fold tli.
  rewrite decide_False by done. cbn [runStore]. unfold updateTaskListArgs.
  rewrite storeMapScanCAS_updateTaskListQuery. cbv zeta. unfold updateIfRangeID.
  unfold taskListInfoKey in Hold. rewrite Hold, decide_True by done. reflexivity.
Qed.

Lemma runStore_UpdateTaskList_rejected d now st request :
  let tli := utTaskListInfo request in
  tliKind tli ≠ TaskListKindSticky →
  storedRangeID (tasks st !! taskListInfoKey tli) ≠ Some (tliRangeID tli) →
  ∃ msg,
    runStore st (UpdateTaskList TaskListKindSticky d now request)
    = Some (st, Err (ConditionFailedError msg)).
Proof.
  intros tli Hkind Hne. unfold UpdateTaskList. fold tli.
  rewrite decide_False by done. cbn [runStore]. unfold updateTaskListArgs.
  rewrite storeMapScanCAS_updateTaskListQuery. cbv zeta. unfold updateIfRangeID.
  unfold taskListInfoKey, storedRangeID in *.
  destruct (tasks st !! _) as [old|]; simpl in Hne.
  - rewrite decide_False by done. destruct st. simpl. eauto.
  - destruct st. simpl. eauto.
Qed.

(** A lease of a list that has a row, when the request does not renew
    with another token than the stored one. *)
Lemma runStore_LeaseTaskList_existing d now st request old stored tlDB ackLevel kind :
  LeaseReq.TaskList request ≠ "" →
  tasks st !! taskListKey request = Some old →
  asInt64 (old !! "range_id") = Some stored →
  asMap (old !! "task_list") = Some tlDB →
  asInt64 (tlDB !! "ack_level") = Some ackLevel →
  asInt (tlDB !! "kind") = Some kind →
  ¬ (LeaseReq.RangeID request > 0 ∧ LeaseReq.RangeID request ≠ stored) →
  runStore st (LeaseTaskList d now request)
  = Some (Store (executions st)
            (<[taskListKey request :=
                 (<["task_list" := taskListValue request ackLevel kind now]>
                    {[ "range_id" := VInt64 (add64 stored 1) ]}) ∪ old]> (tasks st)),
          Returns (Ok {| tliDomainID := LeaseReq.DomainID request;
                         tliName := LeaseReq.TaskList request;
                         tliTaskType := LeaseReq.TaskType request;
                         tliRangeID := add64 stored 1;
                         tliAckLevel := ackLevel;
                         tliKind := LeaseReq.TaskListKind request;
                         tliLastUpdated := now |})).
Proof.
  intros Hname Hold Hstored Htl Hack Hkind Hok.
  pose proof (taskList_nonempty _ Hname) as Hlen.
  unfold LeaseTaskList. rewrite decide_False by done. cbv zeta.
  cbn [runStore]. rewrite storeScan_LeaseTaskList. rewrite Hold, Hstored, Htl.
  cbn [mbind option_bind runStore]. rewrite decide_False by done.
  unfold mustInt64, mustInt. rewrite Hack, Hkind. cbn [runStore].
  rewrite storeMapScanCAS_updateTaskList. unfold updateIfRangeID.
  rewrite Hold, decide_True by done. reflexivity.
Qed.

Lemma runStore_LeaseTaskList_new d now st request :
  LeaseReq.TaskList request ≠ "" →
  tasks st !! taskListKey request = None →
  runStore st (LeaseTaskList d now request)
  = Some (Store (executions st)
            (<[taskListKey request :=
                 <["task_list" := taskListValue request 0 (LeaseReq.TaskListKind request) now]>
                   (<["range_id" := VInt64 initialRangeID]>
                      (taskKeyColumns (taskListKey request)))]> (tasks st)),
          Returns (Ok {| tliDomainID := LeaseReq.DomainID request;
                         tliName := LeaseReq.TaskList request;
                         tliTaskType := LeaseReq.TaskType request;
                         tliRangeID := add64 0 1;
                         tliAckLevel := 0;
                         tliKind := LeaseReq.TaskListKind request;
                         tliLastUpdated := now |})).
Proof.
  intros Hname Hnone. pose proof (taskList_nonempty _ Hname) as Hlen.
  unfold LeaseTaskList. rewrite decide_False by done. cbv zeta.
  cbn [runStore]. rewrite storeScan_LeaseTaskList. rewrite Hnone.
  cbn [mbind option_bind isNotFound errNotFound errIsNotFound runStore].
  rewrite storeMapScanCAS_insertTaskList. unfold insertIfNotExists.
  rewrite Hnone. reflexivity.
Qed.

Lemma runStore_LeaseTaskList_mismatch d now st request old stored tlDB :
  LeaseReq.TaskList request ≠ "" →
  tasks st !! taskListKey request = Some old →
  asInt64 (old !! "range_id") = Some stored →
  asMap (old !! "task_list") = Some tlDB →
  LeaseReq.RangeID request > 0 →
  LeaseReq.RangeID request ≠ stored →
  ∃ msg,
    runStore st (LeaseTaskList d now request)
    = Some (st, Returns (Err (ConditionFailedError msg))).
Proof.
  intros Hname Hold Hstored Htl Hpos Hne.
  pose proof (taskList_nonempty _ Hname) as Hlen.
  unfold LeaseTaskList. rewrite decide_False by done. cbv zeta.
  cbn [runStore]. rewrite storeScan_LeaseTaskList. rewrite Hold, Hstored, Htl.
  cbn [mbind option_bind runStore]. rewrite decide_True by done.
  cbn [runStore]. eauto.
Qed.

(** [UpdateTaskList] of a list that is not sticky, against the store.
    When the row of the list holds the range token of the request, the
    call succeeds; the row keeps that token and then holds the ack level
    and the kind of the request, and the other rows are left as they
    are.  Otherwise, also when the list has no row, the call fails with
    ConditionFailedError and leaves the store as it is. *)
Theorem UpdateTaskList_against_the_store d now st request :
  let tli := utTaskListInfo request in
  let key := taskListInfoKey tli in
  tliKind tli ≠ TaskListKindSticky →
  (storedRangeID (tasks st !! key) = Some (tliRangeID tli) →
   ∃ st' r tlDB,
     runStore st (UpdateTaskList TaskListKindSticky d now request) = Some (st', Ok tt)
     ∧ tasks st' !! key = Some r
     ∧ asInt64 (r !! "range_id") = Some (tliRangeID tli)
     ∧ asMap (r !! "task_list") = Some tlDB
     ∧ asInt64 (tlDB !! "ack_level") = Some (tliAckLevel tli)
     ∧ asInt (tlDB !! "kind") = Some (tliKind tli)
     ∧ (∀ key', key' ≠ key → tasks st' !! key' = tasks st !! key')
     ∧ executions st' = executions st)
  ∧ (storedRangeID (tasks st !! key) ≠ Some (tliRangeID tli) →
     ∃ msg,
       runStore st (UpdateTaskList TaskListKindSticky d now request)
       = Some (st, Err (ConditionFailedError msg))).
Proof.
  intros tli key Hkind. split; [|by apply runStore_UpdateTaskList_rejected].
  intros (old & Hold & Hrange)%storedRangeID_Some.
  destruct (taskListRow_task_list tli (tliRangeID tli) now old) as (tlDB & Htl & Hack & Hk).
  eexists _, _, tlDB. split; [by apply runStore_UpdateTaskList_applied|].
  cbn [tasks executions]. split; [apply lookup_insert_eq|].
  split; [apply taskListRow_range_id|]. split; [exact Htl|]. split; [exact Hack|].
  split; [exact Hk|]. split; [|reflexivity].
  intros key' Hne. by rewrite lookup_insert_ne.
Qed.

(** A lease after [UpdateTaskList] reads back what was written: when
    the row of a list that is not sticky holds the range token of the
    task list info, [UpdateTaskList] succeeds, and a lease that follows
    it, stealing or renewing with that token, returns the info with its
    ack level and the next range token. *)
Theorem LeaseTaskList_after_UpdateTaskList d now now' st request rangeID :
  let tli := utTaskListInfo request in
  tliKind tli ≠ TaskListKindSticky →
  tliName tli ≠ "" →
  storedRangeID (tasks st !! taskListInfoKey tli) = Some (tliRangeID tli) →
  ¬ (rangeID > 0 ∧ rangeID ≠ tliRangeID tli) →
  ∃ st' st'',
    runStore st (UpdateTaskList TaskListKindSticky d now request) = Some (st', Ok tt)
    ∧ runStore st' (LeaseTaskList d now' (leaseRequestOf tli rangeID))
      = Some (st'',
              Returns (Ok {| tliDomainID := tliDomainID tli;
                             tliName := tliName tli;
                             tliTaskType := tliTaskType tli;
                             tliRangeID := add64 (tliRangeID tli) 1;
                             tliAckLevel := tliAckLevel tli;
                             tliKind := tliKind tli;
                             tliLastUpdated := now' |}))
    ∧ storedRangeID (tasks st'' !! taskListInfoKey tli) = Some (add64 (tliRangeID tli) 1).
Proof.
  intros tli Hkind Hname (old & Hold & Hrange)%storedRangeID_Some Hok.
  destruct (taskListRow_task_list tli (tliRangeID tli) now old) as (tlDB & Htl & Hack & Hk).
  eexists _, _. split; [by apply runStore_UpdateTaskList_applied|]. split.
  - erewrite (runStore_LeaseTaskList_existing d now' _ (leaseRequestOf tli rangeID));
      [reflexivity|done|apply lookup_insert_eq|apply taskListRow_range_id
      |exact Htl|exact Hack|exact Hk|exact Hok].
  - cbn [tasks]. change (taskListKey (leaseRequestOf tli rangeID)) with (taskListInfoKey tli).
    rewrite lookup_insert_eq. simpl.
    erewrite lookup_union_Some_l; [|by rewrite lookup_insert_ne, lookup_singleton_eq].
    reflexivity.
Qed.

(** A lease fences the previous holder.  After a lease of a list that
    has a row (a steal, or a renewal with the stored token), the row
    holds the next range token; an [UpdateTaskList] and a renewal that
    still carry the token stored before then fail with
    ConditionFailedError and leave the store as it is, and an
    [UpdateTaskList] with the info that the lease returned succeeds. *)
Theorem LeaseTaskList_fences_previous_holder d now now' st request old stored tlDB ackLevel
    kind :
  LeaseReq.TaskList request ≠ "" →
  tasks st !! taskListKey request = Some old →
  asInt64 (old !! "range_id") = Some stored →
  asMap (old !! "task_list") = Some tlDB →
  asInt64 (tlDB !! "ack_level") = Some ackLevel →
  asInt (tlDB !! "kind") = Some kind →
  ¬ (LeaseReq.RangeID request > 0 ∧ LeaseReq.RangeID request ≠ stored) →
  ∃ st' info,
    runStore st (LeaseTaskList d now request) = Some (st', Returns (Ok info))
    ∧ tliRangeID info = add64 stored 1
    ∧ storedRangeID (tasks st' !! taskListKey request) = Some (add64 stored 1)
    ∧ (∀ update,
         taskListInfoKey (utTaskListInfo update) = taskListKey request →
         tliKind (utTaskListInfo update) ≠ TaskListKindSticky →
         tliRangeID (utTaskListInfo update) = stored →
         ∃ msg,
           runStore st' (UpdateTaskList TaskListKindSticky d now' update)
           = Some (st', Err (ConditionFailedError msg)))
    ∧ (∀ renew,
         taskListKey renew = taskListKey request →
         LeaseReq.RangeID renew = stored →
         stored > 0 →
         ∃ msg,
           runStore st' (LeaseTaskList d now' renew)
           = Some (st', Returns (Err (ConditionFailedError msg))))
    ∧ (tliKind info ≠ TaskListKindSticky →
       ∃ st'',
         runStore st' (UpdateTaskList TaskListKindSticky d now' {| utTaskListInfo := info |})
         = Some (st'', Ok tt)).
Proof.
  intros Hname Hold Hstored Htl Hack Hkind Hok.
  eexists _, _. split; [by eapply runStore_LeaseTaskList_existing|].
  set (r := (<["task_list" := taskListValue request ackLevel kind now]>
               {[ "range_id" := VInt64 (add64 stored 1) ]}) ∪ old).
  assert (Hr : asInt64 (r !! "range_id") = Some (add64 stored 1)).
  { unfold r.
    erewrite lookup_union_Some_l; [|by rewrite lookup_insert_ne, lookup_singleton_eq].
    reflexivity. }
  assert (Hrtl : ∃ tl, asMap (r !! "task_list") = Some tl).
  { unfold r. erewrite lookup_union_Some_l; [|by rewrite lookup_insert_eq]. eauto. }
  split; [reflexivity|]. cbn [tasks]. split; [|split; [|split]].
  - rewrite lookup_insert_eq. exact Hr.
  - intros update Hkey Hk Hrange. apply runStore_UpdateTaskList_rejected; [done|].
    cbn [tasks]. rewrite Hkey, lookup_insert_eq. simpl. fold r. rewrite Hr, Hrange.
    intros [= H]. by apply add64_succ_ne in H.
  - intros renew Hkey Hrange Hpos. destruct Hrtl as [tl Hrtl].
    eapply (runStore_LeaseTaskList_mismatch d now' _ renew r (add64 stored 1) tl).
    + intros Hempty. apply Hname. injection Hkey as _ Hn _. congruence.
    + cbn [tasks]. rewrite Hkey. apply lookup_insert_eq.
    + exact Hr.
    + exact Hrtl.
    + lia.
    + rewrite Hrange. intros H. symmetry in H. by apply add64_succ_ne in H.
  - intros Hk. eexists.
    apply (runStore_UpdateTaskList_applied d now' _ {| utTaskListInfo := _ |} r).
    + exact Hk.
    + cbn [tasks]. apply lookup_insert_eq.
    + exact Hr.
Qed.

End TaskListStoreProperties.

(** ** The conditional-failure classifier: a row without its type tag *)

Section UntaggedRowProperties.
Context {C : Collaborators}.

Lemma conditionalUpdateFailureLoop_untagged requestRunID requestCondition requestRangeID
    requestConditionalRunID pre bad post :
  requestRunID ≠ permanentRunID →
  asInt (bad !! "type") = None →
  Forall wellFormedRow pre →
  ∀ s previous iter,
    previous :: iter = pre ++ bad :: post →
    ∃ s',
      conditionalUpdateFailureLoop requestRunID requestCondition requestRangeID
        requestConditionalRunID s previous iter = Returns s'
      ∧ rangeIDUnmatch s'
        = rangeIDUnmatch s || existsb (shardTokenDiffers requestRangeID) pre
      ∧ runIDUnmatch s'
        = runIDUnmatch s || existsb (currentRunDiffers requestConditionalRunID) pre
      ∧ nextEventIDUnmatch s'
        = nextEventIDUnmatch s
          || existsb (nextEventIDDiffers requestRunID requestCondition) pre
      ∧ allPrevious s' = allPrevious s ++ pre.
Proof.
  intros Hrun Hbad Hwf. induction Hwf as [|p pre Hp Hwf IH]; intros s previous iter Heq.
  - injection Heq as -> ->. exists s. split.
    + destruct post; simpl; by rewrite Hbad.
    + simpl. by rewrite !orb_false_r, app_nil_r.
  - simpl in Heq. injection Heq as -> ->.
    pose proof Hp as ([rowType Htype] & [runID Hrunid] & _).
    destruct (scanRow_spec requestRunID requestCondition requestRangeID
                requestConditionalRunID s p rowType runID Hrun Htype Hrunid Hp)
      as (s1 & Hscan & Hr & Hc & Hn & Ha).
    destruct (pre ++ bad :: post) as [|row' iter'] eqn:Hrest;
      [by destruct pre|].
    destruct (IH (appendPrevious s1 p) row' iter' eq_refl)
      as (s2 & Hloop & Hr' & Hc' & Hn' & Ha').
    exists s2. split.
    + simpl. rewrite Htype. unfold mustUUID. rewrite Hrunid. simpl. rewrite Hscan. simpl.
      exact Hloop.
    + simpl in *. rewrite Hr', Hc', Hn', Ha', Hr, Hc, Hn, Ha, !orb_assoc, <- app_assoc.
      done.
Qed.

Lemma createFailureReasonLoop_untagged d request pre bad post :
  asInt (bad !! "type") = None →
  Forall (wellFormedCreateRow request) pre →
  ∀ previous iter,
    previous :: iter = pre ++ bad :: post →
    ∃ r,
      createFailureReasonLoop d request previous iter = Returns r
      ∧ match find (createDecides request) pre with
        | None => r = (None, bad)
        | Some row =>
            ∃ e, r.1 = Some e
                 ∧ kindOf e = if shardTokenDiffers (CreateReq.RangeID request) row
                              then KShardOwnershipLost
                              else markerKind request row
        end.
Proof.
  intros Hbad Hwf. induction Hwf as [|p pre Hp Hwf IH]; intros previous iter Heq.
  - injection Heq as -> ->. exists (None, bad). split; [|done].
    destruct post; simpl; by rewrite Hbad.
  - simpl in Heq. injection Heq as -> ->.
    pose proof Hp as ([rowType Htype] & [runID Hrunid] & _).
    destruct (pre ++ bad :: post) as [|row' iter'] eqn:Hrest;
      [by destruct pre|].
    destruct (IH row' iter' eq_refl) as (r' & Hloop & Hr').
    destruct (createFailureReasonRound_spec d request p rowType runID
                (createFailureReasonLoop d request row' iter') Hp Htype Hrunid)
      as (r & Hround & Hr).
    cbn [createFailureReasonLoop find]. rewrite Htype. unfold mustUUID at 1.
    rewrite Hrunid. cbn [obind]. rewrite Hround.
    destruct (createDecides request p); [eauto|].
    exists r'. split; [exact Hloop|exact Hr'].
Qed.

(** A returned row without an integer type tag ends the scan of a
    rejected batch: the rows after it are not read.  On the update and
    reset paths the answer is the one of the priority order on the rows
    before it, and the catch-all carries those rows only.  On the create
    path the answer is the one of the first deciding row before it, and
    without such a row it is the default ShardOwnershipLostError, which
    carries the columns of the untagged row. *)
Theorem untagged_row_ends_the_scan d pre bad post previous iter :
  previous :: iter = pre ++ bad :: post →
  asInt (bad !! "type") = None →
  (∀ requestRunID requestCondition requestRangeID requestConditionalRunID,
     requestRunID ≠ permanentRunID →
     Forall wellFormedRow pre →
     ∃ e,
       getExecutionConditionalUpdateFailure d previous iter requestRunID requestCondition
         requestRangeID requestConditionalRunID = Returns e
       ∧ match classifyBySpec requestRunID requestCondition requestRangeID
                 requestConditionalRunID pre with
         | ClassShardOwnershipLost => kindOf e = KShardOwnershipLost
         | ClassCurrentWorkflowConditionFailed =>
             kindOf e = KCurrentWorkflowConditionFailed
         | ClassConditionFailed => kindOf e = KConditionFailed ∧ columnsOf e = []
         | ClassCatchAll _ => kindOf e = KConditionFailed ∧ columnsOf e = [pre]
         end)
  ∧ (∀ request,
       Forall (wellFormedCreateRow request) pre →
       ∃ e,
         createConditionalFailure d request previous iter = Returns e
         ∧ kindOf e = createKind request pre
         ∧ (find (createDecides request) pre = None → columnsOf e = [[bad]])).
Proof.
  intros Heq Hbad. split.
  - intros requestRunID requestCondition requestRangeID requestConditionalRunID Hrun Hwf.
    destruct (conditionalUpdateFailureLoop_untagged requestRunID requestCondition
                requestRangeID requestConditionalRunID pre bad post Hrun Hbad Hwf
                initialScan previous iter Heq)
      as (s & Hloop & Hr & Hc & Hn & Ha).
    unfold getExecutionConditionalUpdateFailure, classifyBySpec. rewrite Hloop.
    simpl in *. rewrite <- Hr, <- Hc, <- Hn.
    destruct (rangeIDUnmatch s); [eauto|].
    destruct (runIDUnmatch s); [eauto|].
    destruct (nextEventIDUnmatch s); [eauto|].
    eexists. split; [reflexivity|]. split; [reflexivity|].
    unfold columnsOf. simpl. by rewrite Ha.
  - intros request Hwf.
    destruct (createFailureReasonLoop_untagged d request pre bad post Hbad Hwf
                previous iter Heq) as ([o p] & Hloop & Hr).
    unfold createConditionalFailure, createKind. rewrite Hloop. simpl obind.
    destruct (find _ _) as [row|]; simpl in Hr.
    + destruct Hr as (e & -> & He). eexists. split; [reflexivity|]. split; [done|].
      discriminate.
    + injection Hr as -> ->. eexists. split; [reflexivity|]. split; [reflexivity|].
      intros _. reflexivity.
Qed.

End UntaggedRowProperties.

(** What a lease writes in the [task_list] column.  The first lease of a
    list stores the ack level 0 and the kind of the request.  A lease of
    a list that has a row stores the ack level and the kind that the row
    held, not the kind of the request, while the info it returns carries
    the kind of the request; the rows of the other lists are left as
    they are. *)
Theorem LeaseTaskList_row_contents d now st request :
  LeaseReq.TaskList request ≠ "" →
  let key := taskListKey request in
  (tasks st !! key = None →
   ∃ st' info r tl,
     runStore st (LeaseTaskList d now request) = Some (st', Returns (Ok info))
     ∧ tliAckLevel info = 0
     ∧ tliKind info = LeaseReq.TaskListKind request
     ∧ tasks st' !! key = Some r
     ∧ asMap (r !! "task_list") = Some tl
     ∧ asInt64 (tl !! "ack_level") = Some 0
     ∧ asInt (tl !! "kind") = Some (LeaseReq.TaskListKind request)
     ∧ (∀ key', key' ≠ key → tasks st' !! key' = tasks st !! key'))
  ∧ (∀ old stored tlDB ackLevel kind,
       tasks st !! key = Some old →
       asInt64 (old !! "range_id") = Some stored →
       asMap (old !! "task_list") = Some tlDB →
       asInt64 (tlDB !! "ack_level") = Some ackLevel →
       asInt (tlDB !! "kind") = Some kind →
       ¬ (LeaseReq.RangeID request > 0 ∧ LeaseReq.RangeID request ≠ stored) →
       ∃ st' info r tl,
         runStore st (LeaseTaskList d now request) = Some (st', Returns (Ok info))
         ∧ tliAckLevel info = ackLevel
         ∧ tliKind info = LeaseReq.TaskListKind request
         ∧ tasks st' !! key = Some r
         ∧ asMap (r !! "task_list") = Some tl
         ∧ asInt64 (tl !! "ack_level") = Some ackLevel
         ∧ asInt (tl !! "kind") = Some kind
         ∧ (∀ key', key' ≠ key → tasks st' !! key' = tasks st !! key')).
Proof.
  intros Hname key. split.
  - intros Hnone. eexists _, _, _, _.
    split; [by apply runStore_LeaseTaskList_new|].
    split; [reflexivity|]. split; [reflexivity|]. cbn [tasks].
    split; [apply lookup_insert_eq|]. split; [by rewrite lookup_insert_eq|].
    split; [reflexivity|]. split; [reflexivity|].
    intros key' Hne. by rewrite lookup_insert_ne.
  - intros old stored tlDB ackLevel kind Hold Hstored Htl Hack Hkind Hok.
    eexists _, _, _, _.
    split; [by eapply runStore_LeaseTaskList_existing|].
    split; [reflexivity|]. split; [reflexivity|]. cbn [tasks].
    split; [apply lookup_insert_eq|].
    split; [by erewrite lookup_union_Some_l; [|by rewrite lookup_insert_eq]|].
    split; [reflexivity|]. split; [reflexivity|].
    intros key' Hne. by rewrite lookup_insert_ne.
Qed.

(** ** Execution store: what the batches hold *)

Section ExecutionBatchProperties.
Context {C : Collaborators}.

Lemma createExecutionRow_statement d request b pd pw pr initiatedID now b' :
  createExecutionRow d request b pd pw pr initiatedID now = Returns b' →
  ∃ q, b' = b ++ [q]
       ∧ stmt q ∈ [ templateCreateWorkflowExecutionQuery;
                    templateCreateWorkflowExecutionWithReplicationQuery;
                    templateCreateWorkflowExecutionWithVersionHistoriesQuery ].
Proof.
  unfold createExecutionRow, batchQuery. intros H.
  destruct (CreateReq.ReplicationState request) as [rs|].
  - destruct (derefData _); simpl in H; [|discriminate]. inversion H; subst.
    eexists. split; [reflexivity|]. simpl. set_solver.
  - destruct (CreateReq.VersionHistories request) as [vh|].
    + destruct (FromDataBlob _) as [vd ve].
      destruct (deref (WorkflowId _)); simpl in H; [|discriminate].
      destruct (deref (RunId _)); simpl in H; [|discriminate].
      destruct (derefData _); simpl in H; [|discriminate]. inversion H; subst.
      eexists. split; [reflexivity|]. simpl. set_solver.
    + destruct (derefData _); simpl in H; [|discriminate]. inversion H; subst.
      eexists. split; [reflexivity|]. simpl. set_solver.
Qed.

(** [CreateWorkflowExecutionWithinBatch] and the batch it is handed.
    When it returns an error the batch is as it was.  When it succeeds
    it has added the insert of the row of the new run, and before it,
    unless the mode is Zombie, one statement that writes the
    current-execution row.  With a mode that is none of the four, it
    panics once the validation has passed. *)
Theorem CreateWorkflowExecutionWithinBatch_adds d request b now :
  (∀ request' b' err,
     CreateWorkflowExecutionWithinBatch d request b now = Returns (request', b', Some err) →
     b' = b)
  ∧ (∀ request' b',
       CreateWorkflowExecutionWithinBatch d request b now = Returns (request', b', None) →
       ∃ current insert,
         b' = b ++ current ++ [insert]
         ∧ stmt insert ∈ [ templateCreateWorkflowExecutionQuery;
                           templateCreateWorkflowExecutionWithReplicationQuery;
                           templateCreateWorkflowExecutionWithVersionHistoriesQuery ]
         ∧ if decide (CreateReq.CreateWorkflowMode request = CreateWorkflowModeZombie)
           then current = []
           else ∃ q, current = [q] ∧ writesCurrentExecution q)
  ∧ (ValidateCreateWorkflowStateCloseStatus
       (CreateReq.State request) (CreateReq.CloseStatus request) = None →
     CreateReq.CreateWorkflowMode request
     ∉ [ CreateWorkflowModeContinueAsNew; CreateWorkflowModeWorkflowIDReuse;
         CreateWorkflowModeBrandNew; CreateWorkflowModeZombie ] →
     ∃ p, CreateWorkflowExecutionWithinBatch d request b now = Panics p).
Proof.
  destruct createWorkflowModes_ne as (Hcr & Hcb & Hcz & Hrb & Hrz & Hbz).
  refine (conj _ (conj _ _)).
  - intros request' b' err H. unfold CreateWorkflowExecutionWithinBatch in H.
    destruct (ValidateCreateWorkflowStateCloseStatus _ _); [by inversion H|].
    destruct (decide (CreateReq.ParentDomainID request = ""));
      destruct (CreateReq.ReplicationState request); cbv zeta beta iota in H;
      repeat (destruct (decide _) in H; simpl in H);
      repeat (apply obind_Returns in H as (? & ? & H)); by inversion H.
  - intros request' b' H. unfold CreateWorkflowExecutionWithinBatch in H.
    destruct (ValidateCreateWorkflowStateCloseStatus _ _); [by inversion H|].
    destruct (decide (CreateReq.ParentDomainID request = ""));
      destruct (CreateReq.ReplicationState request); cbv zeta beta iota in H;
      repeat (destruct (decide _) in H; simpl in H);
      repeat (apply obind_Returns in H as (? & ? & H));
      try discriminate H;
      injection H as <- <-;
      match goal with
      | Hrow : createExecutionRow _ _ _ _ _ _ _ _ = Returns _ |- _ =>
          apply createExecutionRow_statement in Hrow as (insert & -> & Hin)
      end;
      unfold batchQuery; rewrite <- ?app_assoc;
      repeat case_decide; simpl in *; try congruence;
      first
        [ by exists [], insert
        | eexists [_], insert; split; [reflexivity|]; split; [exact Hin|];
          eexists; split; [reflexivity|]; unfold writesCurrentExecution;
          cbn [stmt]; rewrite !elem_of_cons; auto ].
  - intros Hval Hmode. unfold CreateWorkflowExecutionWithinBatch. rewrite Hval.
    assert (Hc : CreateReq.CreateWorkflowMode request ≠ CreateWorkflowModeContinueAsNew)
      by set_solver.
    assert (Hr : CreateReq.CreateWorkflowMode request ≠ CreateWorkflowModeWorkflowIDReuse)
      by set_solver.
    assert (Hb : CreateReq.CreateWorkflowMode request ≠ CreateWorkflowModeBrandNew)
      by set_solver.
    assert (Hz : CreateReq.CreateWorkflowMode request ≠ CreateWorkflowModeZombie)
      by set_solver.
    destruct (decide (CreateReq.ParentDomainID request = ""));
      destruct (CreateReq.ReplicationState request); cbv zeta beta iota;
      rewrite ?(decide_False (P := CreateReq.CreateWorkflowMode request = _)) by done;
      eauto.
Qed.

(** [updateMutableState] adds one statement to the batch.  Its template
    is the one with the replication state when there is one, else the
    one with the version histories when there are some, else the plain
    one; its key is the row of the run; with [useCondition] the template
    gets the condition suffix and the condition is bound last.  With nil
    [AutoResetPoints] the call panics. *)
Theorem updateMutableState_adds_one_statement d b info rs vh now useCondition condition :
  let key :=
    executionKeyArgs d (ExecInfo.DomainID info) (ExecInfo.WorkflowID info)
      (ExecInfo.RunID info) in
  (ExecInfo.AutoResetPoints info = None →
   ∃ p, updateMutableState d b info rs vh now useCondition condition = Panics p)
  ∧ (is_Some (ExecInfo.AutoResetPoints info) →
     ∃ q,
       updateMutableState d b info rs vh now useCondition condition = Returns (b ++ [q])
       ∧ stmt q
         = (if useCondition
            then updateExecutionTemplate rs vh
                 +:+ templateUpdateWorkflowExecutionConditionSuffix
            else updateExecutionTemplate rs vh)
       ∧ (key ++ (if useCondition then [VInt64 condition] else [])) `suffix_of` args q).
Proof.
  intros key. unfold updateMutableState, updateExecutionTemplate. split.
  - intros ->. destruct (FromDataBlob _). simpl. eauto.
  - intros [blob ->]. destruct (FromDataBlob (ExecInfo.CompletionEvent info)) as [cd ce].
    cbv zeta. cbn [derefData obind]. fold key.
    destruct rs as [rs|]; [|destruct vh as [vh|]; [destruct (FromDataBlob _) as [vd ve]|]];
      unfold batchQueryHelper, batchQuery; destruct useCondition;
      (eexists; split; [reflexivity|]; split; [reflexivity|]);
      cbn [args]; rewrite ?app_nil_r; try apply suffix_app;
      repeat apply suffix_app_r; reflexivity.
Qed.

Lemma workflowStates_ne :
  WorkflowStateZombie ≠ WorkflowStateCreated
  ∧ WorkflowStateZombie ≠ WorkflowStateRunning
  ∧ WorkflowStateZombie ≠ WorkflowStateCompleted.
Proof.
  pose proof workflowStates_distinct as H.
  apply NoDup_cons in H as [H _]. rewrite !not_elem_of_cons in H. tauto.
Qed.

(** [UpdateWorkflowExecution] without a new run, by the state of the
    run.  An error of the mutation helper is returned before any store
    call.  For the state Zombie the call first asserts that the run is
    not the current one and then executes the statements of the
    mutation and the range check, with no update of the
    current-execution row of its own.  For the states Created, Running
    and Completed it executes one batch in which the update of the
    current-execution row, conditioned on the run being the current one,
    comes right before the range check.  For any other state it fails
    with InternalServiceError before any store call. *)
Theorem UpdateWorkflowExecution_by_state d now request :
  let mutation := UpdateReq.UpdateWorkflowMutation request in
  let info := Mutation.ExecutionInfo mutation in
  let state := ExecInfo.State info in
  ∀ t res,
    exec (UpdateWorkflowExecution d now request) t res →
    (∀ b err, applyWorkflowMutationBatch [] mutation = (b, Some err) →
       t = [] ∧ res = Returns (request, Some err))
    ∧ (∀ b0, applyWorkflowMutationBatch [] mutation = (b0, None) →
       UpdateReq.ContinueAsNew request = None →
       (state = WorkflowStateZombie →
        ∃ o t',
          t = EvAssertNotCurrent (ExecInfo.DomainID info) (ExecInfo.WorkflowID info)
                (ExecInfo.RunID info) o :: t'
          ∧ (∀ err, o = Some err → t' = [] ∧ res = Returns (request, Some err))
          ∧ (o = None →
             ∃ r, t' = [EvBatchCAS (b0 ++ [leaseQuery d (UpdateReq.RangeID request)]) r]))
       ∧ (state ∈ [WorkflowStateCreated; WorkflowStateRunning; WorkflowStateCompleted] →
          ∃ q r,
            t = [EvBatchCAS (b0 ++ [q; leaseQuery d (UpdateReq.RangeID request)]) r]
            ∧ stmt q = templateUpdateCurrentWorkflowExecutionQuery
            ∧ last (args q) = Some (VString (ExecInfo.RunID info)))
       ∧ (state ∉ [WorkflowStateZombie; WorkflowStateCreated; WorkflowStateRunning;
                   WorkflowStateCompleted] →
          t = [] ∧ ∃ msg, res = Returns (request, Some (InternalServiceError msg)))).
Proof.
  intros mutation info state t res H. subst mutation info state.
  destruct workflowStates_ne as (Hzc & Hzr & Hzd).
  unfold UpdateWorkflowExecution in H. cbv zeta in H. split.
  - intros b err Happly. rewrite Happly in H. by inv_exec.
  - intros b0 Happly Hnew. rewrite Happly, Hnew in H.
    refine (conj _ (conj _ _)).
    + intros Hz. rewrite decide_True in H by done. inv_exec.
      eexists _, _. split; [reflexivity|]. destruct o as [err|]; inv_exec.
      * split; [by intros ? [= <-]|done].
      * split; [done|]. eauto.
    + intros Hin. rewrite !elem_of_cons, elem_of_nil in Hin.
      rewrite decide_False in H by (intros Hz; rewrite Hz in Hin; tauto).
      rewrite decide_True in H by tauto.
      destruct (Mutation.ReplicationState _); inv_exec;
        unfold batchQuery; rewrite <- app_assoc; eexists _, _;
        (split; [reflexivity|]); split; reflexivity.
    + intros Hout. rewrite !not_elem_of_cons in Hout.
      rewrite decide_False in H by tauto. rewrite decide_False in H by tauto.
      inv_exec. eauto.
Qed.

(** [ResetMutableState] reads the replication state of the snapshot
    without a nil check: with none the call panics before any store
    call.  Otherwise the batch handed to the snapshot helper holds one
    statement, the update of the current-execution row conditioned on
    the previous run id, the previous last write version and the
    previous state; an error of the helper is returned before any store
    call, and else one batch is executed, the helper's followed by the
    range check. *)
Theorem ResetMutableState_batch d request :
  let snapshot := ResetMSReq.ResetWorkflowSnapshot request in
  ∀ t res,
    exec (ResetMutableState d request) t res →
    (Snapshot.ReplicationState snapshot = None → t = [] ∧ ∃ p, res = Panics p)
    ∧ (is_Some (Snapshot.ReplicationState snapshot) →
       ∃ q,
         stmt q = templateUpdateCurrentWorkflowExecutionForNewQuery
         ∧ [ VString (ResetMSReq.PrevRunID request);
             VInt64 (ResetMSReq.PrevLastWriteVersion request);
             VInt (ResetMSReq.PrevState request) ] `suffix_of` args q
         ∧ match applyWorkflowSnapshotBatch [q] snapshot with
           | (_, Some err) => t = [] ∧ res = Returns (Some err)
           | (b, None) =>
               ∃ r, t = [EvBatchCAS (b ++ [leaseQuery d (ResetMSReq.RangeID request)]) r]
           end).
Proof.
  intros snapshot t res H. unfold ResetMutableState in H. cbv zeta in H.
  fold snapshot in H. split.
  - intros Hnone. rewrite Hnone in H. inv_exec. eauto.
  - intros [rs Hrs]. rewrite Hrs in H. unfold batchQuery in H. rewrite app_nil_l in H.
    match type of H with
    | context [applyWorkflowSnapshotBatch [?q0] _] => exists q0
    end.
    split; [reflexivity|]. split.
    { cbn [args]. repeat apply suffix_app_r. reflexivity. }
    destruct (applyWorkflowSnapshotBatch _ _) as [b' [e|]]; inv_exec; eauto.
Qed.

End ExecutionBatchProperties.
